(** * Campus Event Management Platform: participation lifecycle and reports

    A shallow embedding of [services.py] (with the rows of [database.py] and
    the request models of [models.py]) and the properties of the
    registration lifecycle, the activity gate and the aggregation reports.

    Modelling conventions.
    - A table is the list of its rows in rowid order; a fresh primary key is
      one more than the largest key of the table.  The unique constraints
      declared in [__table_args__] are checked by [db.add]/[db.commit] and
      make the insert raise [IntegrityError].
    - [datetime] values are integers (a number of ticks); [datetime.utcnow()]
      is the extra argument [now] of the operation that reads the clock.
    - A Python [float] is an IEEE 754 binary64 number, represented by the
      rational it stands for.  Every float operation is the exact operation
      on rationals followed by [binary64], the rounding to the nearest
      binary64 number (ties to even) of the Standard Library's [SpecFloat].
    - An exception is the left injection of the error monad; an operation
      that raises leaves the stored tables as they were.  [services.py]
      imports neither [HTTPException] nor [status], so each of its
      [raise HTTPException(...)] statements raises [NameError].
    - [order_by(col).first()] returns, among the rows with the least value
      of [col], the one that comes first in the table. *)

From Stdlib Require Import ZArith QArith Qround List Bool String Lia.
From Stdlib Require Import Permutation Sorted Lqa SpecFloat.
Import ListNotations.

Local Open Scope Z_scope.

(* ================================================================== *)
(** ** Enumerations of [models.py] *)

Inductive EventType :=
| WORKSHOP | SEMINAR | CONFERENCE | COMPETITION
| SYMPOSIUM | SOCIAL | SPORTS | OTHER.

Inductive RegistrationStatus := REGISTERED | CANCELLED | WAITLISTED.

Inductive AttendanceStatus := PRESENT | ABSENT | LATE.

Definition EventType_eqb (a b : EventType) : bool :=
  match a, b with
  | WORKSHOP, WORKSHOP | SEMINAR, SEMINAR | CONFERENCE, CONFERENCE
  | COMPETITION, COMPETITION | SYMPOSIUM, SYMPOSIUM | SOCIAL, SOCIAL
  | SPORTS, SPORTS | OTHER, OTHER => true
  | _, _ => false
  end.

Definition RegistrationStatus_eqb (a b : RegistrationStatus) : bool :=
  match a, b with
  | REGISTERED, REGISTERED | CANCELLED, CANCELLED | WAITLISTED, WAITLISTED => true
  | _, _ => false
  end.

Definition AttendanceStatus_eqb (a b : AttendanceStatus) : bool :=
  match a, b with
  | PRESENT, PRESENT | ABSENT, ABSENT | LATE, LATE => true
  | _, _ => false
  end.

(* ================================================================== *)
(** ** Rows of [database.py] *)

Module College.
Record t := mk { id : Z; name : string }.
End College.

Module Student.
Record t := mk
    { id : Z; first_name : string; last_name : string; college_id : Z }.
End Student.

Module Event.
Record t := mk
    { id : Z;
      title : string;
      event_type : option EventType;
      college_id : Z;
      start_date : Z;
      max_capacity : option Z;
      is_cancelled : bool }.
End Event.

Module EventRegistration.
Record t := mk
    { id : Z;
      student_id : Z;
      event_id : Z;
      registration_date : Z;
      status : RegistrationStatus }.

Definition set_status (s : RegistrationStatus) (r : t) : t :=
    mk (id r) (student_id r) (event_id r) (registration_date r) s.

Definition set_registration_date (d : Z) (r : t) : t :=
    mk (id r) (student_id r) (event_id r) d (status r).
End EventRegistration.

Module Attendance.
Record t := mk
    { id : Z;
      student_id : Z;
      event_id : Z;
      check_in_time : Z;
      check_out_time : option Z;
      attendance_status : AttendanceStatus }.
End Attendance.

Module EventFeedback.
Record t := mk
    { id : Z;
      student_id : Z;
      event_id : Z;
      rating : Z;
      feedback_text : option string;
      submitted_at : Z }.
End EventFeedback.

(** The tables reached through the SQLAlchemy [Session]. *)
Module Session.
Record t := mk
  { colleges : list College.t;
    students : list Student.t;
    events : list Event.t;
    event_registrations : list EventRegistration.t;
    attendance : list Attendance.t;
    event_feedback : list EventFeedback.t }.

Definition with_event_registrations (l : list EventRegistration.t) (db : t) :=
  mk (colleges db) (students db) (events db) l
     (attendance db) (event_feedback db).

Definition with_attendance (l : list Attendance.t) (db : t) :=
  mk (colleges db) (students db) (events db)
     (event_registrations db) l (event_feedback db).

Definition with_event_feedback (l : list EventFeedback.t) (db : t) :=
  mk (colleges db) (students db) (events db)
     (event_registrations db) (attendance db) l.
End Session.

(* ================================================================== *)
(** ** Request models of [models.py] *)

Module EventRegistrationCreate.
Record t := mk
    { student_id : Z; event_id : Z; status : RegistrationStatus }.
End EventRegistrationCreate.

Module AttendanceCreate.
Record t := mk
    { student_id : Z;
      event_id : Z;
      attendance_status : AttendanceStatus;
      check_out_time : option Z }.
End AttendanceCreate.

Module EventFeedbackCreate.
Record t := mk
    { student_id : Z;
      event_id : Z;
      rating : Z;
      feedback_text : option string }.
End EventFeedbackCreate.

(* ================================================================== *)
(** ** Exceptions and the error monad *)

Inductive Exception :=
| HTTPException (status_code : Z) (detail : string)
| NameError (name : string)
| ValueError (msg : string)
| ValidationError (errors : list string)
| IntegrityError (constraint : string).

Definition HTTP_404_NOT_FOUND : Z := 404.
Definition HTTP_400_BAD_REQUEST : Z := 400.

(** The call [HTTPException(status_code=status.HTTP_..., detail=...)] as
    [services.py] evaluates it.  The module binds [Session], [func], [desc],
    [and_], [or_], [List], [Optional], [datetime], [timedelta], the names
    of [models.py] and six table classes (lines 4-9); [models.py] imports
    only pydantic, typing, datetime and enum.  So the name [HTTPException]
    is unbound where the call looks it up, before [status] is read and
    before any argument is evaluated: the [raise] statement raises
    [NameError], and the status code and the detail written in the source
    never reach the caller. *)
Definition unbound_HTTPException (status_code : Z) (detail : string)
  : Exception :=
  NameError "HTTPException".

Definition Result (A : Type) : Type := (Exception + A)%type.

Definition ret {A} (a : A) : Result A := inr a.
Definition raise {A} (e : Exception) : Result A := inl e.

Definition bind {A B} (m : Result A) (k : A -> Result B) : Result B :=
  match m with
  | inl e => inl e
  | inr a => k a
  end.

Declare Scope result_scope.
Delimit Scope result_scope with result.
Notation "x <- m ;; k" := (bind m (fun x => k))
  (at level 61, m at next level, right associativity) : result_scope.
Notation "m ;; k" := (bind m (fun _ => k))
  (at level 61, right associativity) : result_scope.
Local Open Scope result_scope.

(** [x = query.first(); if not x: raise e] *)
Definition first_or_raise {A} (l : list A) (e : Exception) : Result A :=
  match l with
  | [] => raise e
  | x :: _ => ret x
  end.

(** [if c: raise e] *)
Definition raise_if (c : bool) (e : Exception) : Result unit :=
  if c then raise e else ret tt.

(* ================================================================== *)
(** ** Query primitives *)

(** [query.first()] *)
Definition first {A} (l : list A) : option A := hd_error l.

(** [query.count()] *)
Definition count {A} (l : list A) : Z := Z.of_nat (List.length l).

(** Truth value of an [Optional[int]]: [None] and [0] are false. *)
Definition truthy (o : option Z) : bool :=
  match o with
  | Some v => negb (v =? 0)
  | None => false
  end.

(** Stable sort by insertion.  [before x y] says that [x] may stand in
    front of [y].  It stands for SQL [ORDER BY] and for Python's [sorted],
    both of which keep rows that compare equal in their incoming order. *)
Section StableSort.
Context {A : Type} (before : A -> A -> bool).

Fixpoint insert_by (x : A) (l : list A) : list A :=
    match l with
    | [] => [x]
    | y :: l' => if before x y then x :: l else y :: insert_by x l'
    end.

Definition sort_by (l : list A) : list A := fold_right insert_by [] l.
End StableSort.

(** [query.order_by(col)] for an integer column, ascending. *)
Definition order_by {A} (col : A -> Z) : list A -> list A :=
  sort_by (fun x y => col x <=? col y).

(** [sorted(l, key=..., reverse=True)] for an integer key. *)
Definition sorted_reverse {A} (key : A -> Z) : list A -> list A :=
  sort_by (fun x y => key y <=? key x).

(** [sorted(l, key=..., reverse=True)] for a float key. *)
Definition sorted_reverse_float {A} (key : A -> Q) : list A -> list A :=
  sort_by (fun x y => Qle_bool (key y) (key x)).

(** [l[:limit]]: a negative [limit] counts from the end of the list. *)
Definition slice_to {A} (limit : Z) (l : list A) : list A :=
  if 0 <=? limit then firstn (Z.to_nat limit) l
  else firstn (List.length l - Z.to_nat (- limit)) l.

(** Largest primary key of a table, 0 when it is empty. *)
Definition max_id {A} (id : A -> Z) (l : list A) : Z :=
  fold_right (fun x m => Z.max (id x) m) 0 l.

Definition fresh_id {A} (id : A -> Z) (l : list A) : Z := max_id id l + 1.

(* ================================================================== *)
(** ** Shared queries and writes *)

Definition student_by_id (db : Session.t) (i : Z) : list Student.t :=
  filter (fun s => Student.id s =? i) (Session.students db).

Definition event_by_id (db : Session.t) (i : Z) : list Event.t :=
  filter (fun e => Event.id e =? i) (Session.events db).

Definition registrations_of_pair (db : Session.t) (s e : Z)
  : list EventRegistration.t :=
  filter (fun r => (EventRegistration.student_id r =? s)
                   && (EventRegistration.event_id r =? e))
         (Session.event_registrations db).

Definition registrations_with_status (db : Session.t) (e : Z)
           (st : RegistrationStatus) : list EventRegistration.t :=
  filter (fun r => (EventRegistration.event_id r =? e)
                   && RegistrationStatus_eqb (EventRegistration.status r) st)
         (Session.event_registrations db).

Definition attendance_of_pair (db : Session.t) (s e : Z) : list Attendance.t :=
  filter (fun a => (Attendance.student_id a =? s)
                   && (Attendance.event_id a =? e))
         (Session.attendance db).

Definition feedback_of_pair (db : Session.t) (s e : Z) : list EventFeedback.t :=
  filter (fun f => (EventFeedback.student_id f =? s)
                   && (EventFeedback.event_id f =? e))
         (Session.event_feedback db).

(** [UPDATE event_registrations SET ... WHERE id = i], issued by
    [db.commit()] for a row changed through the session. *)
Definition update_registration (i : Z)
           (f : EventRegistration.t -> EventRegistration.t)
           (db : Session.t) : Session.t :=
  Session.with_event_registrations
    (map (fun r => if EventRegistration.id r =? i then f r else r)
         (Session.event_registrations db))
    db.

(** [db.add(EventRegistration(...)); db.commit(); db.refresh(...)].
    [unique_registration] rejects a second row for the pair. *)
Definition add_registration (db : Session.t) (now : Z)
           (registration : EventRegistrationCreate.t)
  : Result (Session.t * EventRegistration.t) :=
  let s := EventRegistrationCreate.student_id registration in
  let e := EventRegistrationCreate.event_id registration in
  match registrations_of_pair db s e with
  | _ :: _ => raise (IntegrityError "unique_registration")
  | [] =>
      let row := EventRegistration.mk
                   (fresh_id EventRegistration.id (Session.event_registrations db))
                   s e now (EventRegistrationCreate.status registration) in
      ret (Session.with_event_registrations (Session.event_registrations db ++ [row]) db, row)
  end.

(** [n >= event.max_capacity], read where [max_capacity] is an integer. *)
Definition at_least (n : Z) (o : option Z) : bool :=
  match o with
  | Some v => v <=? n
  | None => false
  end.

(* ================================================================== *)
(** ** [services.py]: [EventService] *)

Module EventService.

(** Lines 66-81 of [register_student]: the capacity check and the insert. *)
Definition register_new (db : Session.t) (now : Z) (event : Event.t)
           (registration : EventRegistrationCreate.t)
  : Result (Session.t * EventRegistration.t) :=
  let registration :=
    if truthy (Event.max_capacity event) then
      let current_registrations :=
        count (registrations_with_status db
                 (EventRegistrationCreate.event_id registration) REGISTERED) in
      if at_least current_registrations (Event.max_capacity event)
      then EventRegistrationCreate.mk
             (EventRegistrationCreate.student_id registration)
             (EventRegistrationCreate.event_id registration)
             WAITLISTED
      else registration
    else registration in
  add_registration db now registration.

Definition register_student (db : Session.t) (now : Z)
           (registration : EventRegistrationCreate.t)
  : Result (Session.t * EventRegistration.t) :=
  _ <- first_or_raise
         (student_by_id db (EventRegistrationCreate.student_id registration))
         (unbound_HTTPException HTTP_404_NOT_FOUND "Student not found") ;;
  event <- first_or_raise
         (event_by_id db (EventRegistrationCreate.event_id registration))
         (unbound_HTTPException HTTP_404_NOT_FOUND "Event not found") ;;
  raise_if (Event.is_cancelled event)
    (unbound_HTTPException HTTP_400_BAD_REQUEST "Cannot register for cancelled event") ;;
  raise_if (Event.start_date event <=? now)
    (unbound_HTTPException HTTP_400_BAD_REQUEST
       "Cannot register for event that has already started") ;;
  match first (registrations_of_pair db
                 (EventRegistrationCreate.student_id registration)
                 (EventRegistrationCreate.event_id registration)) with
  | Some existing_registration =>
      match EventRegistration.status existing_registration with
      | REGISTERED =>
          raise (unbound_HTTPException HTTP_400_BAD_REQUEST
                   "Student is already registered for this event")
      | CANCELLED =>
          let reopen r :=
            EventRegistration.set_registration_date now
              (EventRegistration.set_status REGISTERED r) in
          ret (update_registration (EventRegistration.id existing_registration)
                 reopen db,
               reopen existing_registration)
      | WAITLISTED => register_new db now event registration
      end
  | None => register_new db now event registration
  end.

Definition cancel_registration (db : Session.t) (registration_id : Z)
  : Result Session.t :=
  registration <- first_or_raise
        (filter (fun r => EventRegistration.id r =? registration_id)
                (Session.event_registrations db))
        (unbound_HTTPException HTTP_404_NOT_FOUND "Registration not found") ;;
  raise_if (RegistrationStatus_eqb (EventRegistration.status registration) CANCELLED)
    (unbound_HTTPException HTTP_400_BAD_REQUEST "Registration is already cancelled") ;;
  let db := update_registration (EventRegistration.id registration)
              (EventRegistration.set_status CANCELLED) db in
  match first (event_by_id db (EventRegistration.event_id registration)) with
  | Some event =>
      if truthy (Event.max_capacity event) then
        match first (order_by EventRegistration.registration_date
                       (registrations_with_status db
                          (EventRegistration.event_id registration) WAITLISTED)) with
        | Some waitlisted =>
            ret (update_registration (EventRegistration.id waitlisted)
                   (EventRegistration.set_status REGISTERED) db)
        | None => ret db
        end
      else ret db
  | None => ret db
  end.

(** [db.add(Attendance(...)); db.commit()], under [unique_attendance]. *)
Definition add_attendance (db : Session.t) (now : Z)
           (attendance : AttendanceCreate.t)
  : Result (Session.t * Attendance.t) :=
  let s := AttendanceCreate.student_id attendance in
  let e := AttendanceCreate.event_id attendance in
  match attendance_of_pair db s e with
  | _ :: _ => raise (IntegrityError "unique_attendance")
  | [] =>
      let row := Attendance.mk
                   (fresh_id Attendance.id (Session.attendance db))
                   s e now
                   (AttendanceCreate.check_out_time attendance)
                   (AttendanceCreate.attendance_status attendance) in
      ret (Session.with_attendance (Session.attendance db ++ [row]) db, row)
  end.

Definition mark_attendance (db : Session.t) (now : Z)
           (attendance : AttendanceCreate.t)
  : Result (Session.t * Attendance.t) :=
  _ <- first_or_raise
         (student_by_id db (AttendanceCreate.student_id attendance))
         (unbound_HTTPException HTTP_404_NOT_FOUND "Student not found") ;;
  _ <- first_or_raise
         (event_by_id db (AttendanceCreate.event_id attendance))
         (unbound_HTTPException HTTP_404_NOT_FOUND "Event not found") ;;
  _ <- first_or_raise
         (filter (fun r => RegistrationStatus_eqb (EventRegistration.status r)
                                                  REGISTERED)
                 (registrations_of_pair db
                    (AttendanceCreate.student_id attendance)
                    (AttendanceCreate.event_id attendance)))
         (unbound_HTTPException HTTP_400_BAD_REQUEST
            "Student is not registered for this event") ;;
  match first (attendance_of_pair db
                 (AttendanceCreate.student_id attendance)
                 (AttendanceCreate.event_id attendance)) with
  | Some _ =>
      raise (unbound_HTTPException HTTP_400_BAD_REQUEST
               "Attendance already marked for this student")
  | None => add_attendance db now attendance
  end.

(** [db.add(EventFeedback(...)); db.commit()], under [unique_feedback]. *)
Definition add_feedback (db : Session.t) (now : Z)
           (feedback : EventFeedbackCreate.t)
  : Result (Session.t * EventFeedback.t) :=
  let s := EventFeedbackCreate.student_id feedback in
  let e := EventFeedbackCreate.event_id feedback in
  match feedback_of_pair db s e with
  | _ :: _ => raise (IntegrityError "unique_feedback")
  | [] =>
      let row := EventFeedback.mk
                   (fresh_id EventFeedback.id (Session.event_feedback db))
                   s e
                   (EventFeedbackCreate.rating feedback)
                   (EventFeedbackCreate.feedback_text feedback)
                   now in
      ret (Session.with_event_feedback (Session.event_feedback db ++ [row]) db, row)
  end.

Definition submit_feedback (db : Session.t) (now : Z)
           (feedback : EventFeedbackCreate.t)
  : Result (Session.t * EventFeedback.t) :=
  _ <- first_or_raise
         (student_by_id db (EventFeedbackCreate.student_id feedback))
         (unbound_HTTPException HTTP_404_NOT_FOUND "Student not found") ;;
  _ <- first_or_raise
         (event_by_id db (EventFeedbackCreate.event_id feedback))
         (unbound_HTTPException HTTP_404_NOT_FOUND "Event not found") ;;
  _ <- first_or_raise
         (attendance_of_pair db
            (EventFeedbackCreate.student_id feedback)
            (EventFeedbackCreate.event_id feedback))
         (unbound_HTTPException HTTP_400_BAD_REQUEST
            "Student must attend the event to submit feedback") ;;
  match first (feedback_of_pair db
                 (EventFeedbackCreate.student_id feedback)
                 (EventFeedbackCreate.event_id feedback)) with
  | Some _ =>
      raise (unbound_HTTPException HTTP_400_BAD_REQUEST
               "Feedback already submitted for this event")
  | None => add_feedback db now feedback
  end.

End EventService.

(* ================================================================== *)
(** ** [models.py]: the rating validator, and the endpoint of [main.py] *)

(** [EventFeedbackCreate.validate_rating] *)
Definition validate_rating (v : Z) : Result Z :=
  if (v <? 1) || (5 <? v)
  then raise (ValueError "Rating must be between 1 and 5")
  else ret v.

(** Construction of an [EventFeedbackCreate] from the request body: the
    validator runs on the [rating] field, and pydantic reports the
    [ValueError] it raises as a [ValidationError] of the model. *)
Definition new_EventFeedbackCreate (student_id event_id rating : Z)
           (feedback_text : option string) : Result EventFeedbackCreate.t :=
  match validate_rating rating with
  | inl (ValueError msg) => raise (ValidationError [msg])
  | inl e => raise e
  | inr v => ret (EventFeedbackCreate.mk student_id event_id v feedback_text)
  end.

Module main.

(** [POST /feedback]: the body is parsed into the request model, then the
    service runs. *)
Definition submit_feedback (db : Session.t) (now : Z)
           (student_id event_id rating : Z) (feedback_text : option string)
  : Result (Session.t * EventFeedback.t) :=
  feedback <- new_EventFeedbackCreate student_id event_id rating feedback_text ;;
  EventService.submit_feedback db now feedback.


End main.

(* ================================================================== *)
(** ** Floats *)

(** Binary64: 53 bits of precision, exponents below 1024. *)
Definition prec : Z := 53.
Definition emax : Z := 1024.

(** An integer as an exact operand of [SFdiv]. *)
Definition SF_of_Z (n : Z) : spec_float :=
  match n with
  | 0 => S754_zero false
  | Zpos p => S754_finite false p 0
  | Zneg p => S754_finite true p 0
  end.

(** The rational a binary64 number stands for, in lowest terms.  The sign
    of a zero is not kept; infinities and NaN, which no count, rating or
    capacity of a 64-bit integer column leads to, stand for 0. *)
Definition SF_value (x : spec_float) : Q :=
  match x with
  | S754_finite s m e => Qred (inject_Z (cond_Zopp s (Zpos m)) * Qpower 2 e)
  | _ => 0%Q
  end.

(** The binary64 number nearest to a rational, ties to even: the correctly
    rounded quotient of its numerator by its denominator. *)
Definition binary64 (x : Q) : Q :=
  SF_value (SFdiv prec emax (SF_of_Z (Qnum x)) (SF_of_Z (Zpos (Qden x)))).

(** [float(n)], and an [int] operand or field value converted to [float]. *)
Definition float_of_int (n : Z) : Q := binary64 (inject_Z n).

(** [a / b] on [int]: the correctly rounded quotient.  Every division of
    [services.py] is guarded against a zero divisor. *)
Definition true_divide (a b : Z) : Q := binary64 (inject_Z a / inject_Z b).

(** [x * y] and [x + y] on [float]. *)
Definition fmul (x y : Q) : Q := binary64 (x * y).
Definition fadd (x y : Q) : Q := binary64 (x + y).

(** Nearest integer, ties to the even neighbour. *)
Definition round_half_even (x : Q) : Z :=
  let f := Qfloor x in
  match Qcompare (x - inject_Z f) (1 # 2) with
  | Lt => f
  | Gt => f + 1
  | Eq => if Z.even f then f else f + 1
  end.

(** [round(x, 2)] on a [float]: the value the float stands for is rounded
    to a whole number of hundredths, ties to even, and that decimal is
    converted back to the nearest binary64 number.  [round(n, 2)] on an
    [int] is [n]. *)
Definition round2 (x : Q) : Q :=
  binary64 (inject_Z (round_half_even (x * 100)) / 100).

Definition sumZ (l : list Z) : Z := fold_right Z.add 0 l.

(** [func.avg(col)] over the selected rows of an integer column: [None]
    when there is none, else SQLite's [(double)sum / (double)count]. *)
Definition avg (l : list Z) : option Q :=
  match l with
  | [] => None
  | _ => Some (binary64 (float_of_int (sumZ l) / float_of_int (count l)))
  end.

(** [float(x) if x else None] for the result of [func.avg]: a mean of 0.0
    is false. *)
Definition float_or_None (x : option Q) : option Q :=
  match x with
  | Some q => if Qeq_bool q 0 then None else Some q
  | None => None
  end.

(** [(n / d * 100) if d > 0 else 0]; the [int] 0 of the [else] branch is
    left as it is by [round] and stored as 0.0 by a [float] field. *)
Definition percentage (n d : Z) : Q :=
  if 0 <? d then fmul (true_divide n d) 100 else 0%Q.

(* ================================================================== *)
(** ** Report models of [models.py] *)

Module EventStats.
Record t := mk
  { event_id : Z;
    event_title : string;
    total_registrations : Z;
    total_attendance : Z;
    attendance_percentage : Q;
    average_rating : option Q;
    total_feedback : Z }.
End EventStats.

Module EventParticipationReport.
Record t := mk
  { event_id : Z;
    event_title : string;
    event_type : EventType;
    college_name : string;
    start_date : Z;
    total_registrations : Z;
    attendance_count : Z;
    attendance_percentage : Q;
    average_rating : option Q;
    feedback_count : Z;
    capacity_utilization : option Q }.
End EventParticipationReport.

Module TopStudentsReport.
Record t := mk
  { student_id : Z;
    student_name : string;
    college_name : string;
    participation_score : Q;
    total_events_attended : Z;
    average_rating_given : option Q }.
End TopStudentsReport.

Module StudentStats.
Record t := mk
  { student_id : Z;
    student_name : string;
    college_name : string;
    total_registrations : Z;
    total_attendance : Z;
    attendance_rate : Q;
    average_rating_given : option Q }.
End StudentStats.

Module CollegeStats.
Record t := mk
  { college_id : Z;
    college_name : string;
    total_students : Z;
    total_events : Z;
    total_registrations : Z;
    average_attendance_rate : Q;
    average_event_rating : option Q }.
End CollegeStats.

(** The dictionary returned by [get_student_participation_summary]. *)
Module StudentSummary.
Record t := mk
  { student_id : Z;
    total_registrations : Z;
    total_attendance : Z;
    attendance_rate : Q;
    feedback_count : Z;
    average_rating_given : option Q }.
End StudentSummary.

(* ================================================================== *)
(** ** [services.py]: [ReportService] *)

Module ReportService.

(** Rows of [attendance] of an event in status ["present"]. *)
Definition present_of_event (db : Session.t) (e : Z) : list Attendance.t :=
  filter (fun a => (Attendance.event_id a =? e)
                   && AttendanceStatus_eqb (Attendance.attendance_status a) PRESENT)
         (Session.attendance db).

(** Rows of [attendance] of a student in status ["present"]. *)
Definition present_of_student (db : Session.t) (s : Z) : list Attendance.t :=
  filter (fun a => (Attendance.student_id a =? s)
                   && AttendanceStatus_eqb (Attendance.attendance_status a) PRESENT)
         (Session.attendance db).

Definition feedback_of_event (db : Session.t) (e : Z) : list EventFeedback.t :=
  filter (fun f => EventFeedback.event_id f =? e) (Session.event_feedback db).

Definition feedback_of_student (db : Session.t) (s : Z) : list EventFeedback.t :=
  filter (fun f => EventFeedback.student_id f =? s) (Session.event_feedback db).

(** The statistics of one event: lines 271-299 of [get_event_stats], and
    the same statements in the loop of [get_event_popularity_report]
    (lines 510-538). *)
Definition event_stats (db : Session.t) (event : Event.t) : EventStats.t :=
  let total_registrations :=
    count (registrations_with_status db (Event.id event) REGISTERED) in
  let total_attendance := count (present_of_event db (Event.id event)) in
  let feedback := feedback_of_event db (Event.id event) in
  let attendance_percentage := percentage total_attendance total_registrations in
  EventStats.mk
    (Event.id event)
    (Event.title event)
    total_registrations
    total_attendance
    (round2 attendance_percentage)
    (float_or_None (avg (map EventFeedback.rating feedback)))
    (count feedback).


(** [query.join(College)]: every row paired with its college. *)
Definition join_college {A} (college_id : A -> Z) (db : Session.t) (l : list A)
  : list (A * College.t) :=
  flat_map (fun x => map (fun c => (x, c))
                       (filter (fun c => College.id c =? college_id x)
                               (Session.colleges db)))
           l.

(** [if v: query = query.filter(col == v)] for an [Optional[int]]. *)
Definition filter_if_int {A} (v : option Z) (col : A -> Z) (l : list A) : list A :=
  match v with
  | Some i => if negb (i =? 0) then filter (fun x => col x =? i) l else l
  | None => l
  end.

(** [if event_type: query = query.filter(Event.event_type == event_type)] *)
Definition filter_event_type {A} (v : option EventType)
           (col : A -> option EventType) (l : list A) : list A :=
  match v with
  | Some ty => filter (fun x => match col x with
                                | Some ty' => EventType_eqb ty' ty
                                | None => false
                                end) l
  | None => l
  end.

(** The body of the loop of [get_event_participation_report]. *)
Definition participation_row (db : Session.t) (ec : Event.t * College.t)
  : EventParticipationReport.t :=
  let (event, college) := ec in
  let total_registrations :=
    count (registrations_with_status db (Event.id event) REGISTERED) in
  let attendance_count := count (present_of_event db (Event.id event)) in
  let feedback := feedback_of_event db (Event.id event) in
  let attendance_percentage := percentage attendance_count total_registrations in
  let capacity_utilization :=
    match Event.max_capacity event with
    | Some cap =>
        if negb (cap =? 0)
        then Some (fmul (true_divide total_registrations cap) 100)
        else None
    | None => None
    end in
  EventParticipationReport.mk
    (Event.id event)
    (Event.title event)
    (match Event.event_type event with Some ty => ty | None => OTHER end)
    (College.name college)
    (Event.start_date event)
    total_registrations
    attendance_count
    (round2 attendance_percentage)
    (float_or_None (avg (map EventFeedback.rating feedback)))
    (count feedback)
    (match capacity_utilization with
     | Some u => if Qeq_bool u 0 then None else Some (round2 u)
     | None => None
     end).

Definition get_event_participation_report (db : Session.t)
           (college_id : option Z) (event_type : option EventType)
           (start_date end_date : option Z)
  : list EventParticipationReport.t :=
  let query := join_college Event.college_id db (Session.events db) in
  let query := filter_if_int college_id (fun ec => Event.college_id (fst ec)) query in
  let query := filter_event_type event_type (fun ec => Event.event_type (fst ec)) query in
  let query := match start_date with
               | Some d => filter (fun ec => d <=? Event.start_date (fst ec)) query
               | None => query
               end in
  let query := match end_date with
               | Some d => filter (fun ec => Event.start_date (fst ec) <=? d) query
               | None => query
               end in
  let events := query in
  let report := map (participation_row db) events in
  sorted_reverse EventParticipationReport.total_registrations report.

(** The body of the loop of [get_top_students_report].  The score starts
    as the [int] count; with a mean that is true it becomes the [float]
    [count + mean * 0.5], which [round] rounds; otherwise [round] leaves
    the [int] as it is and the [float] field of the report stores it. *)
Definition top_students_row (db : Session.t) (sc : Student.t * College.t)
  : TopStudentsReport.t :=
  let (student, college) := sc in
  let total_attendance := count (present_of_student db (Student.id student)) in
  let avg_rating :=
    avg (map EventFeedback.rating (feedback_of_student db (Student.id student))) in
  let participation_score :=
    match float_or_None avg_rating with
    | Some a => round2 (fadd (float_of_int total_attendance) (fmul a (1 # 2)))
    | None => float_of_int total_attendance
    end in
  TopStudentsReport.mk
    (Student.id student)
    (Student.first_name student ++ " " ++ Student.last_name student)%string
    (College.name college)
    participation_score
    total_attendance
    (float_or_None avg_rating).

Definition get_top_students_report (db : Session.t)
           (college_id : option Z) (limit : Z) : list TopStudentsReport.t :=
  let query := join_college Student.college_id db (Session.students db) in
  let students :=
    filter_if_int college_id (fun sc => Student.college_id (fst sc)) query in
  let student_stats := map (top_students_row db) students in
  slice_to limit
    (sorted_reverse_float TopStudentsReport.participation_score student_stats).

Definition get_event_popularity_report (db : Session.t)
           (college_id : option Z) (event_type : option EventType) (limit : Z)
  : list EventStats.t :=
  let query := filter_if_int college_id Event.college_id (Session.events db) in
  let events := filter_event_type event_type Event.event_type query in
  let event_stats := map (event_stats db) events in
  slice_to limit (sorted_reverse EventStats.total_registrations event_stats).

(** Rows of [event_registrations] of a student in status ["registered"]. *)
Definition registered_of_student (db : Session.t) (s : Z)
  : list EventRegistration.t :=
  filter (fun r => (EventRegistration.student_id r =? s)
                   && RegistrationStatus_eqb (EventRegistration.status r) REGISTERED)
         (Session.event_registrations db).

Definition get_student_stats (db : Session.t) (student_id : Z)
  : Result StudentStats.t :=
  sc <- first_or_raise
          (filter (fun sc => Student.id (fst sc) =? student_id)
                  (join_college Student.college_id db (Session.students db)))
          (unbound_HTTPException HTTP_404_NOT_FOUND "Student not found") ;;
  let (student, college) := sc : Student.t * College.t in
  let total_registrations := count (registered_of_student db student_id) in
  let total_attendance := count (present_of_student db student_id) in
  let avg_rating :=
    avg (map EventFeedback.rating (feedback_of_student db student_id)) in
  let attendance_rate := percentage total_attendance total_registrations in
  ret (StudentStats.mk
         student_id
         (Student.first_name student ++ " " ++ Student.last_name student)%string
         (College.name college)
         total_registrations
         total_attendance
         (round2 attendance_rate)
         (float_or_None avg_rating)).

(** [query.join(Student)]: every row paired with its student. *)
Definition join_student {A} (student_id : A -> Z) (db : Session.t) (l : list A)
  : list (A * Student.t) :=
  flat_map (fun x => map (fun s => (x, s))
                       (filter (fun s => Student.id s =? student_id x)
                               (Session.students db)))
           l.

Definition get_college_stats (db : Session.t) (college_id : Z)
  : Result CollegeStats.t :=
  college <- first_or_raise
               (filter (fun c => College.id c =? college_id) (Session.colleges db))
               (unbound_HTTPException HTTP_404_NOT_FOUND "College not found") ;;
  let total_students :=
    count (filter (fun s => Student.college_id s =? college_id)
                  (Session.students db)) in
  let total_events :=
    count (filter (fun e => Event.college_id e =? college_id)
                  (Session.events db)) in
  let total_registrations :=
    count (filter (fun rs => (Student.college_id (snd rs) =? college_id)
                             && RegistrationStatus_eqb
                                  (EventRegistration.status (fst rs)) REGISTERED)
                  (join_student EventRegistration.student_id db
                     (Session.event_registrations db))) in
  let attendance_count :=
    count (filter (fun rs => (Student.college_id (snd rs) =? college_id)
                             && AttendanceStatus_eqb
                                  (Attendance.attendance_status (fst rs)) PRESENT)
                  (join_student Attendance.student_id db
                     (Session.attendance db))) in
  let avg_rating :=
    avg (map (fun rs => EventFeedback.rating (fst rs))
             (filter (fun rs => Student.college_id (snd rs) =? college_id)
                     (join_student EventFeedback.student_id db
                        (Session.event_feedback db)))) in
  let attendance_rate := percentage attendance_count total_registrations in
  ret (CollegeStats.mk
         college_id
         (College.name college)
         total_students
         total_events
         total_registrations
         (round2 attendance_rate)
         (float_or_None avg_rating)).

End ReportService.

(* ================================================================== *)
(** ** [services.py]: [StudentService] *)

Module StudentService.

Definition get_student_participation_summary (db : Session.t) (student_id : Z)
  : Result StudentSummary.t :=
  _ <- first_or_raise (student_by_id db student_id)
         (unbound_HTTPException HTTP_404_NOT_FOUND "Student not found") ;;
  let total_registrations :=
    count (ReportService.registered_of_student db student_id) in
  let total_attendance :=
    count (ReportService.present_of_student db student_id) in
  let feedback := ReportService.feedback_of_student db student_id in
  ret (StudentSummary.mk
         student_id
         total_registrations
         total_attendance
         (percentage total_attendance total_registrations)
         (count feedback)
         (float_or_None (avg (map EventFeedback.rating feedback)))).

End StudentService.

(* ================================================================== *)
(** ** Commands of the lifecycle and runs *)

Inductive Command :=
| Register (now : Z) (registration : EventRegistrationCreate.t)
| CancelRegistration (registration_id : Z)
| MarkAttendance (now : Z) (attendance : AttendanceCreate.t)
| SubmitFeedback (now : Z) (student_id event_id rating : Z)
                 (feedback_text : option string).

Definition execute (db : Session.t) (c : Command) : Result Session.t :=
  match c with
  | Register now registration =>
      r <- EventService.register_student db now registration ;; ret (fst r)
  | CancelRegistration registration_id =>
      EventService.cancel_registration db registration_id
  | MarkAttendance now attendance =>
      r <- EventService.mark_attendance db now attendance ;; ret (fst r)
  | SubmitFeedback now s e rating text =>
      r <- main.submit_feedback db now s e rating text ;; ret (fst r)
  end.

(** The tables after a command: a command that raises changes nothing. *)
Definition after (db : Session.t) (c : Command) : Session.t :=
  match execute db c with
  | inr db' => db'
  | inl _ => db
  end.

Definition run (db : Session.t) (cs : list Command) : Session.t :=
  fold_left after cs db.

(* ================================================================== *)
(** ** Schema constraints and the notions the properties speak of *)

Definition pair_eqb (p q : Z * Z) : bool :=
  (fst p =? fst q) && (snd p =? snd q).

Fixpoint distinct {K} (eqb : K -> K -> bool) (l : list K) : bool :=
  match l with
  | [] => true
  | k :: l' => negb (existsb (eqb k) l') && distinct eqb l'
  end.

Definition registration_pair (r : EventRegistration.t) : Z * Z :=
  (EventRegistration.student_id r, EventRegistration.event_id r).

(** The primary key of [event_registrations] and [unique_registration]. *)
Definition schema_ok (db : Session.t) : bool :=
  distinct Z.eqb (map EventRegistration.id (Session.event_registrations db))
  && distinct pair_eqb (map registration_pair (Session.event_registrations db)).

Definition registered_count (db : Session.t) (e : Z) : Z :=
  count (registrations_with_status db e REGISTERED).

Definition not_cancelled (r : EventRegistration.t) : bool :=
  negb (RegistrationStatus_eqb (EventRegistration.status r) CANCELLED).

(** Status of the registration with primary key [i]. *)
Definition status_of (db : Session.t) (i : Z) : option RegistrationStatus :=
  option_map EventRegistration.status
    (first (filter (fun r => EventRegistration.id r =? i)
                   (Session.event_registrations db))).

Definition is_waitlisted (e : Z) (r : EventRegistration.t) : Prop :=
  EventRegistration.event_id r = e /\ EventRegistration.status r = WAITLISTED.

(** [p] is the row of [l] chosen among those satisfying [P] by earliest
    timestamp, and by position in the table among equal timestamps. *)
Definition earliest_among (P : EventRegistration.t -> Prop)
           (l : list EventRegistration.t) (p : EventRegistration.t) : Prop :=
  exists l1 l2,
    l = l1 ++ p :: l2 /\ P p
    /\ (forall w, In w l1 -> P w ->
          EventRegistration.registration_date p
          < EventRegistration.registration_date w)
    /\ (forall w, In w l2 -> P w ->
          EventRegistration.registration_date p
          <= EventRegistration.registration_date w).

(** Rows that were waitlisted in [db] and are registered in [db']. *)
Definition promoted (db db' : Session.t) : list EventRegistration.t :=
  filter (fun r =>
            RegistrationStatus_eqb (EventRegistration.status r) WAITLISTED
            && match status_of db' (EventRegistration.id r) with
               | Some REGISTERED => true
               | _ => false
               end)
         (Session.event_registrations db).

(** The tables after a cancellation of [rid] that promotes [pid]. *)
Definition cancelled_and_promoted (rid pid : Z) (l : list EventRegistration.t)
  : list EventRegistration.t :=
  map (fun x =>
         if EventRegistration.id x =? pid
         then EventRegistration.set_status REGISTERED x
         else if EventRegistration.id x =? rid
              then EventRegistration.set_status CANCELLED x
              else x)
      l.

(** [out] is [l] sorted by decreasing [key], equal keys in the order of [l]. *)
Definition stable_descending {A} (key : A -> Z) (l out : list A) : Prop :=
  Permutation out l
  /\ StronglySorted (fun x y => key y <= key x) out
  /\ forall k, filter (fun x => key x =? k) out = filter (fun x => key x =? k) l.

Definition stable_descending_float {A} (key : A -> Q) (l out : list A) : Prop :=
  Permutation out l
  /\ StronglySorted (fun x y => (key y <= key x)%Q) out
  /\ forall k, filter (fun x => Qeq_bool (key x) k) out
               = filter (fun x => Qeq_bool (key x) k) l.

(** The attendance rows of event [e] in status present, counted. *)
Definition present_count (db : Session.t) (e : Z) : Z :=
  count (filter (fun a => (Attendance.event_id a =? e)
                          && AttendanceStatus_eqb
                               (Attendance.attendance_status a) PRESENT)
                (Session.attendance db)).

(** The ratings given to event [e], in table order. *)
Definition ratings_of_event (db : Session.t) (e : Z) : list Z :=
  map EventFeedback.rating
      (filter (fun f => EventFeedback.event_id f =? e)
              (Session.event_feedback db)).

(** The statistics of an event read off the tables: the registered count,
    the present count, the attendance percentage present / registered *
    100 rounded to 2 decimals (0 without a registered row), the mean
    rating (absent without a rating, and when it is 0.0) and the number of
    ratings. *)
Definition statistics (db : Session.t) (ev : Event.t) : EventStats.t :=
  let registered := registered_count db (Event.id ev) in
  let present := present_count db (Event.id ev) in
  EventStats.mk
    (Event.id ev) (Event.title ev) registered present
    (if 0 <? registered
     then round2 (fmul (true_divide present registered) 100)
     else 0%Q)
    (float_or_None (avg (ratings_of_event db (Event.id ev))))
    (count (ratings_of_event db (Event.id ev))).

(** An event passes the filters of a report: a filter that is absent does
    not restrict. *)
Definition event_matches (college_id : option Z) (event_type : option EventType)
           (e : Event.t) : bool :=
  match college_id with
  | Some c => Event.college_id e =? c
  | None => true
  end
  && match event_type with
     | Some ty => match Event.event_type e with
                  | Some ty' => EventType_eqb ty' ty
                  | None => false
                  end
     | None => true
     end.


(** The attendance rows of student [s] in status present, counted. *)
Definition present_count_of_student (db : Session.t) (s : Z) : Z :=
  count (filter (fun a => (Attendance.student_id a =? s)
                          && AttendanceStatus_eqb
                               (Attendance.attendance_status a) PRESENT)
                (Session.attendance db)).

(** The ratings given by student [s], in table order. *)
Definition ratings_of_student (db : Session.t) (s : Z) : list Z :=
  map EventFeedback.rating
      (filter (fun f => EventFeedback.student_id f =? s)
              (Session.event_feedback db)).

(** The participation score of a student: the present count plus the mean
    rating given times 0.5, rounded to 2 decimals; a mean that is absent
    (or 0.0) adds nothing, and the score is the count itself. *)
Definition score_of_student (db : Session.t) (s : Student.t) : Q :=
  let present := present_count_of_student db (Student.id s) in
  match float_or_None (avg (ratings_of_student db (Student.id s))) with
  | Some mean => round2 (fadd (float_of_int present) (fmul mean (1 # 2)))
  | None => float_of_int present
  end.

(** The integers an SQLite column and a bound parameter can hold. *)
Definition sqlite_integer (n : Z) : Prop := - 2 ^ 63 <= n < 2 ^ 63.


(** What the cancellation of [rid], a registration for event [e], does
    when it promotes: the row [p] chosen by [earliest_among P] becomes
    registered, the cancelled row becomes cancelled, nothing else changes,
    and [p] is the only waitlisted row that becomes registered. *)
Definition cancel_promotes_earliest (P : EventRegistration.t -> Prop)
           (db : Session.t) (rid : Z) : Prop :=
  exists db' p,
    EventService.cancel_registration db rid = inr db'
    /\ earliest_among P (Session.event_registrations db) p
    /\ Session.event_registrations db'
       = cancelled_and_promoted rid (EventRegistration.id p)
           (Session.event_registrations db)
    /\ status_of db' rid = Some CANCELLED
    /\ status_of db' (EventRegistration.id p) = Some REGISTERED
    /\ promoted db db' = [p]
    /\ (forall w, In w (Session.event_registrations db) ->
          EventRegistration.status w = WAITLISTED ->
          EventRegistration.id w <> EventRegistration.id p ->
          EventRegistration.id w <> rid ->
          status_of db' (EventRegistration.id w) = Some WAITLISTED).

(** The row [ex] after a re-registration at time [now]. *)
Definition reopened (now : Z) (ex : EventRegistration.t) : EventRegistration.t :=
  EventRegistration.mk (EventRegistration.id ex)
    (EventRegistration.student_id ex) (EventRegistration.event_id ex)
    now REGISTERED.

(** The student and the event of the request exist, the event is not
    cancelled and starts after [now]. *)
Definition registration_open (db : Session.t) (now : Z)
           (registration : EventRegistrationCreate.t) : bool :=
  match student_by_id db (EventRegistrationCreate.student_id registration),
        event_by_id db (EventRegistrationCreate.event_id registration) with
  | _ :: _, event :: _ =>
      negb (Event.is_cancelled event) && (now <? Event.start_date event)
  | _, _ => false
  end.

(** Commands that cannot take a seat without a free one: a registration
    of a pair that has no row yet, a cancellation of a registered row, and
    the commands of the activity gate. *)
Definition seat_safe (db : Session.t) (c : Command) : bool :=
  match c with
  | Register _ registration =>
      match registrations_of_pair db
              (EventRegistrationCreate.student_id registration)
              (EventRegistrationCreate.event_id registration) with
      | [] => true
      | _ :: _ => false
      end
  | CancelRegistration registration_id =>
      match first (filter (fun r => EventRegistration.id r =? registration_id)
                          (Session.event_registrations db)) with
      | Some r => RegistrationStatus_eqb (EventRegistration.status r) REGISTERED
      | None => true
      end
  | MarkAttendance _ _ | SubmitFeedback _ _ _ _ _ => true
  end.

Fixpoint seat_safe_run (db : Session.t) (cs : list Command) : bool :=
  match cs with
  | [] => true
  | c :: cs' => seat_safe db c && seat_safe_run (after db c) cs'
  end.

Definition attendance_pair (a : Attendance.t) : Z * Z :=
  (Attendance.student_id a, Attendance.event_id a).

Definition feedback_pair (f : EventFeedback.t) : Z * Z :=
  (EventFeedback.student_id f, EventFeedback.event_id f).

Definition rating_in_range (f : EventFeedback.t) : bool :=
  (1 <=? EventFeedback.rating f) && (EventFeedback.rating f <=? 5).

(** [unique_attendance], [unique_feedback] and the 1-5 scale of ratings. *)
Definition gate_ok (db : Session.t) : bool :=
  distinct pair_eqb (map attendance_pair (Session.attendance db))
  && distinct pair_eqb (map feedback_pair (Session.event_feedback db))
  && forallb rating_in_range (Session.event_feedback db).

Fixpoint increasing (l : list Z) : bool :=
  match l with
  | [] => true
  | x :: l' => forallb (fun y => x <? y) l' && increasing l'
  end.

(** The primary keys of the three activity tables grow along the table. *)
Definition keys_increasing (db : Session.t) : bool :=
  increasing (map EventRegistration.id (Session.event_registrations db))
  && increasing (map Attendance.id (Session.attendance db))
  && increasing (map EventFeedback.id (Session.event_feedback db)).

(* ================================================================== *)
(** ** Sample data *)

Definition sample_student (i : Z) : Student.t := Student.mk i "Ada" "Lovelace" 1.

Definition sample_event (i : Z) (cap : option Z) : Event.t :=
  Event.mk i "Robotics Workshop" (Some WORKSHOP) 1 1000 cap false.

(** One college, four students; event 1 has one seat, event 2 declares a
    capacity of 0, event 3 has fifty seats and event 4 has no capacity. *)
Definition campus : Session.t :=
  Session.mk
    [College.mk 1 "MIT"]
    [sample_student 1; sample_student 2; sample_student 3; sample_student 4]
    [sample_event 1 (Some 1); sample_event 2 (Some 0);
     sample_event 3 (Some 50); sample_event 4 None]
    [] [] [].

Definition request (s e : Z) : EventRegistrationCreate.t :=
  EventRegistrationCreate.mk s e REGISTERED.

(** Student 1 registers for event 1, cancels, student 2 takes the seat,
    student 1 registers again. *)
Definition reopen_trace : list Command :=
  [Register 1 (request 1 1); CancelRegistration 1;
   Register 2 (request 2 1); Register 3 (request 1 1)].

(** Students 1, 2, 3 register for event 1; the waitlisted student 2 cancels. *)
Definition waitlist_cancel_trace : list Command :=
  [Register 1 (request 1 1); Register 2 (request 2 1);
   Register 3 (request 3 1); CancelRegistration 2].

(** Event 2, capacity 0: student 1 is registered, student 2 is stored as
    waitlisted (the status sent with the request is kept when no capacity
    check applies). *)
Definition zero_capacity_db : Session.t :=
  run campus [Register 1 (request 1 2);
              Register 2 (EventRegistrationCreate.mk 2 2 WAITLISTED);
              Register 3 (EventRegistrationCreate.mk 3 2 WAITLISTED)].

(** Event 1, one seat: student 1 registered, students 2 and 3 waitlisted. *)
Definition full_db : Session.t :=
  run campus [Register 1 (request 1 1); Register 2 (request 2 1);
              Register 3 (request 3 1)].

(** Event 1, one seat: student 1 registered, students 2 and 3 waitlisted
    with the same timestamp. *)
Definition tie_db : Session.t :=
  run campus [Register 1 (request 1 1); Register 2 (request 2 1);
              Register 2 (request 3 1)].

(** Student 1 is registered for event 3 (fifty seats). *)
Definition one_of_fifty_db : Session.t :=
  run campus [Register 1 (request 1 3)].

(** In [full_db], student 1 is marked late at event 1. *)
Definition attended_db : Session.t :=
  run full_db [MarkAttendance 5 (AttendanceCreate.mk 1 1 LATE None)].

(** [n] registered rows for event [e], with primary keys from [k] on. *)
Definition registered_rows (e : Z) (k n : nat) : list EventRegistration.t :=
  map (fun i => EventRegistration.mk (Z.of_nat i) (Z.of_nat i) e 1 REGISTERED)
      (seq k n).

(** Three events with 10, 7 and 7 registered students. *)
Definition popularity_db : Session.t :=
  Session.mk
    [College.mk 1 "MIT"]
    []
    [sample_event 1 None; sample_event 2 None; sample_event 3 None]
    (registered_rows 1 1 10 ++ registered_rows 2 11 7 ++ registered_rows 3 18 7)
    [] [].



(** Events 1, 2 and 3 of college 1 with 10, 7 and 7 registered students,
    and event 4 of college 2 with 12. *)
Definition two_college_db : Session.t :=
  Session.mk
    [College.mk 1 "MIT"; College.mk 2 "Stanford"]
    []
    [sample_event 1 None; sample_event 2 None; sample_event 3 None;
     Event.mk 4 "Hackathon" (Some COMPETITION) 2 1000 None false]
    (registered_rows 1 1 10 ++ registered_rows 2 11 7 ++ registered_rows 3 18 7
     ++ registered_rows 4 25 12)
    [] [].

(** Feedback rows of student [s] with the given ratings, for events and
    with primary keys from [k] on. *)
Definition feedback_rows (s : Z) (k : nat) (ratings : list Z)
  : list EventFeedback.t :=
  map (fun ir => EventFeedback.mk (Z.of_nat (fst ir)) s (Z.of_nat (fst ir))
                                  (snd ir) None 20)
      (combine (seq k (List.length ratings)) ratings).

(** Students 1 and 2 of college 1 and student 3 of college 2; nobody was
    present.  Student 1 gave 20 ratings of mean 1.05, student 2 gave 15
    ratings of mean 16/15, student 3 gave the rating 5. *)
Definition flip_db : Session.t :=
  Session.mk
    [College.mk 1 "MIT"; College.mk 2 "Stanford"]
    [sample_student 1; sample_student 2; Student.mk 3 "Alan" "Turing" 2]
    []
    []
    []
    (feedback_rows 1 1 (repeat 1 19 ++ [2])
     ++ feedback_rows 2 21 (repeat 1 14 ++ [2])
     ++ feedback_rows 3 36 [5]).

(** Student 1 was present twice and gave ratings 4 and 5; student 2 was
    present three times and late once, and gave no rating; student 3 was
    present three times and gave no rating. *)
Definition ranking_db : Session.t :=
  Session.mk
    [College.mk 1 "MIT"]
    [sample_student 1; sample_student 2; sample_student 3]
    [sample_event 1 None; sample_event 2 None; sample_event 3 None;
     sample_event 4 None]
    []
    [Attendance.mk 1 1 1 10 None PRESENT; Attendance.mk 2 1 2 10 None PRESENT;
     Attendance.mk 3 2 1 10 None PRESENT; Attendance.mk 4 2 2 10 None PRESENT;
     Attendance.mk 5 2 3 10 None PRESENT; Attendance.mk 6 2 4 10 None LATE;
     Attendance.mk 7 3 1 10 None PRESENT; Attendance.mk 8 3 2 10 None PRESENT;
     Attendance.mk 9 3 3 10 None PRESENT]
    [EventFeedback.mk 1 1 1 4 None 20; EventFeedback.mk 2 1 2 5 None 20].

(* ================================================================== *)
(** * Properties *)

(** ** Stable sorting *)

Lemma StronglySorted_weaken {A} (R R' : A -> A -> Prop) (l : list A) :
  (forall x y, R x y -> R' x y) -> StronglySorted R l -> StronglySorted R' l.
Proof.
  intros HR. induction 1 as [| x l Hs IH Hx]; constructor.
  - assumption.
  - eapply Forall_impl; [| exact Hx]. intros y. apply HR.
Qed.

Section StableSortFacts.
Context {A : Type} (before : A -> A -> bool).
Hypothesis before_total : forall x y, before x y = true \/ before y x = true.
Hypothesis before_trans :
  forall x y z, before x y = true -> before y z = true -> before x z = true.

Lemma sort_by_cons (x : A) (l : list A) :
  sort_by before (x :: l) = insert_by before x (sort_by before l).
Proof. reflexivity. Qed.

Lemma insert_by_perm (x : A) (l : list A) :
  Permutation (insert_by before x l) (x :: l).
Proof.
  induction l as [| y l IH]; simpl.
  - reflexivity.
  - destruct (before x y).
    + reflexivity.
    + rewrite IH. apply perm_swap.
Qed.

Lemma sort_by_perm (l : list A) : Permutation (sort_by before l) l.
Proof.
  induction l as [| x l IH]; simpl.
  - constructor.
  - rewrite insert_by_perm. now constructor.
Qed.

Lemma insert_by_sorted (x : A) (l : list A) :
  StronglySorted (fun a b => before a b = true) l ->
  StronglySorted (fun a b => before a b = true) (insert_by before x l).
Proof.
  induction 1 as [| y l Hs IH Hy]; simpl.
  - repeat constructor.
  - destruct (before x y) eqn:Hxy.
    + constructor.
      * now constructor.
      * constructor; [assumption |].
        eapply Forall_impl; [| exact Hy].
        intros z Hz. now apply before_trans with y.
    + constructor; [assumption |].
      assert (Hyx : before y x = true).
      { destruct (before_total x y); congruence. }
      eapply Permutation_Forall.
      * symmetry. apply insert_by_perm.
      * now constructor.
Qed.

Lemma sort_by_sorted (l : list A) :
  StronglySorted (fun a b => before a b = true) (sort_by before l).
Proof.
  induction l as [| x l IH]; simpl.
  - constructor.
  - now apply insert_by_sorted.
Qed.

(** Rows that compare equal to one another keep their relative order:
    [f] selects a class of such rows. *)
Lemma insert_by_stable (f : A -> bool) (x : A) (l : list A) :
  (forall y z, f y = true -> f z = true -> before y z = true) ->
  filter f (insert_by before x l) = filter f (x :: l).
Proof.
  intros Hf. induction l as [| y l IH].
  - reflexivity.
  - cbn [insert_by]. destruct (before x y) eqn:Hxy.
    + reflexivity.
    + cbn [filter] in *. rewrite IH.
      destruct (f y) eqn:Hy; [| reflexivity].
      destruct (f x) eqn:Hx; [| reflexivity].
      rewrite (Hf x y Hx Hy) in Hxy. discriminate.
Qed.

Lemma sort_by_stable (f : A -> bool) (l : list A) :
  (forall y z, f y = true -> f z = true -> before y z = true) ->
  filter f (sort_by before l) = filter f l.
Proof.
  intros Hf. induction l as [| x l IH].
  - reflexivity.
  - rewrite sort_by_cons, insert_by_stable by assumption.
    cbn [filter]. now rewrite IH.
Qed.

(** A stable sort is determined by its input: two sorted arrangements of
    the same rows that keep every class of equal rows in the same order
    are the same list.  So the lists computed by [sort_by] are those of
    any other stable sorting algorithm. *)
Lemma stable_sort_unique (l1 l2 : list A) :
  Permutation l1 l2 ->
  StronglySorted (fun a b => before a b = true) l1 ->
  StronglySorted (fun a b => before a b = true) l2 ->
  (forall a, filter (fun y => before a y && before y a) l1
             = filter (fun y => before a y && before y a) l2) ->
  l1 = l2.
Proof.
  revert l2. induction l1 as [| x t1 IH]; intros l2 Hperm Hs1 Hs2 Hst.
  - apply Permutation_nil in Hperm. now subst.
  - destruct l2 as [| y t2].
    + symmetry in Hperm. apply Permutation_nil in Hperm. discriminate.
    + assert (Hrefl : forall a, before a a = true).
      { intros a. destruct (before_total a a); assumption. }
      assert (Hxy : before x y = true).
      { apply StronglySorted_inv in Hs1. destruct Hs1 as [_ Hx].
        assert (Hy : In y (x :: t1)).
        { apply Permutation_in with (y :: t2); [now symmetry | now left]. }
        destruct Hy as [-> | Hy]; [apply Hrefl |].
        rewrite Forall_forall in Hx. now apply Hx. }
      assert (Hyx : before y x = true).
      { apply StronglySorted_inv in Hs2. destruct Hs2 as [_ Hy].
        assert (Hx : In x (y :: t2)).
        { apply Permutation_in with (x :: t1); [assumption | now left]. }
        destruct Hx as [-> | Hx]; [apply Hrefl |].
        rewrite Forall_forall in Hy. now apply Hy. }
      assert (Heq : x = y).
      { specialize (Hst x). cbn [filter] in Hst.
        rewrite Hrefl, Hxy, Hyx in Hst. cbn in Hst. now injection Hst. }
      subst y. f_equal. apply IH.
      * now apply Permutation_cons_inv with x.
      * now apply StronglySorted_inv in Hs1.
      * now apply StronglySorted_inv in Hs2.
      * intros a. specialize (Hst a). cbn [filter] in Hst.
        destruct (before a x && before x a); [now injection Hst | assumption].
Qed.

(** The head of the sorted list is the first row of [l] that no row
    strictly precedes. *)
Lemma sort_by_head (l : list A) :
  l <> [] ->
  exists p l1 l2,
    l = l1 ++ p :: l2
    /\ hd_error (sort_by before l) = Some p
    /\ (forall w, In w l1 -> before w p = false)
    /\ (forall w, In w l2 -> before p w = true).
Proof.
  induction l as [| x l IH]; [congruence | intros _].
  destruct l as [| y l'].
  - exists x, [], []. cbn.
    split; [reflexivity | split; [reflexivity | split; intros w []]].
  - destruct IH as (p & l1 & l2 & Hl & Hhd & H1 & H2); [congruence |].
    rewrite sort_by_cons.
    destruct (sort_by before (y :: l')) as [| q s] eqn:Hs; [discriminate |].
    cbn in Hhd. injection Hhd as ->.
    cbn [insert_by]. destruct (before x p) eqn:Hxp.
    + exists x, [], (y :: l').
      split; [reflexivity | split; [reflexivity | split; [intros w [] |]]].
      intros w Hw. rewrite Hl in Hw. apply in_app_or in Hw.
      destruct Hw as [Hw | [<- | Hw]].
      * apply before_trans with p; [assumption |].
        destruct (before_total p w) as [H | H]; [assumption |].
        rewrite (H1 w Hw) in H. discriminate.
      * assumption.
      * apply before_trans with p; auto.
    + exists p, (x :: l1), l2. rewrite Hl. cbn.
      split; [reflexivity | split; [reflexivity | split; [| assumption]]].
      intros w [<- | Hw]; auto.
Qed.

End StableSortFacts.

Lemma sorted_reverse_stable {A} (key : A -> Z) (l : list A) :
  stable_descending key l (sorted_reverse key l).
Proof.
  unfold sorted_reverse. split; [| split].
  - apply sort_by_perm.
  - eapply StronglySorted_weaken; [| apply sort_by_sorted].
    + intros x y H. now apply Z.leb_le in H.
    + intros x y. destruct (Z.le_ge_cases (key y) (key x)); [left | right];
        now apply Z.leb_le.
    + intros x y z Hxy Hyz. apply Z.leb_le in Hxy, Hyz. apply Z.leb_le. lia.
  - intros k. apply sort_by_stable.
    intros y z Hy Hz. apply Z.eqb_eq in Hy, Hz. apply Z.leb_le. lia.
Qed.

Lemma sorted_reverse_float_stable {A} (key : A -> Q) (l : list A) :
  stable_descending_float key l (sorted_reverse_float key l).
Proof.
  unfold sorted_reverse_float. split; [| split].
  - apply sort_by_perm.
  - eapply StronglySorted_weaken; [| apply sort_by_sorted].
    + intros x y H. now apply Qle_bool_iff in H.
    + intros x y. destruct (Qlt_le_dec (key x) (key y)) as [H | H].
      * right. apply Qle_bool_iff. now apply Qlt_le_weak.
      * left. now apply Qle_bool_iff.
    + intros x y z Hxy Hyz. apply Qle_bool_iff in Hxy, Hyz.
      apply Qle_bool_iff. now apply Qle_trans with (key y).
  - intros k. apply sort_by_stable.
    intros y z Hy Hz. apply Qeq_bool_iff in Hy, Hz.
    apply Qle_bool_iff. rewrite Hy, Hz. apply Qle_refl.
Qed.

(** [query.order_by(col).first()] returns the first row of the table with
    the least value of [col]. *)
Lemma first_order_by {A} (col : A -> Z) (l : list A) :
  l <> [] ->
  exists p l1 l2,
    l = l1 ++ p :: l2
    /\ first (order_by col l) = Some p
    /\ (forall w, In w l1 -> col p < col w)
    /\ (forall w, In w l2 -> col p <= col w).
Proof.
  intros Hl.
  destruct (sort_by_head (fun x y => col x <=? col y)) with (l := l)
    as (p & l1 & l2 & Heq & Hhd & H1 & H2).
  - intros x y. destruct (Z.le_ge_cases (col x) (col y)); [left | right];
      now apply Z.leb_le.
  - intros x y z Hxy Hyz. apply Z.leb_le in Hxy, Hyz. apply Z.leb_le. lia.
  - assumption.
  - exists p, l1, l2. repeat split; try assumption.
    + intros w Hw. apply H1 in Hw. apply Z.leb_gt in Hw. assumption.
    + intros w Hw. apply H2 in Hw. now apply Z.leb_le in Hw.
Qed.

(** ** Lists *)

Lemma filter_andb {A} (f g : A -> bool) (l : list A) :
  filter (fun x => f x && g x) l = filter g (filter f l).
Proof.
  induction l as [| x l IH]; cbn; [reflexivity |].
  destruct (f x); cbn; [destruct (g x) |]; now rewrite IH.
Qed.

Lemma filter_true {A} (l : list A) : filter (fun _ => true) l = l.
Proof. induction l as [| x l IH]; cbn; [reflexivity | now rewrite IH]. Qed.

Lemma insert_by_map {A B} (f : A -> B) (before : A -> A -> bool)
      (before' : B -> B -> bool) (x : A) (l : list A) :
  (forall a b, before' (f a) (f b) = before a b) ->
  insert_by before' (f x) (map f l) = map f (insert_by before x l).
Proof.
  intros H. induction l as [| y l IH]; cbn; [reflexivity |].
  rewrite H. destruct (before x y); cbn; [reflexivity | now rewrite IH].
Qed.

Lemma sort_by_map {A B} (f : A -> B) (before : A -> A -> bool)
      (before' : B -> B -> bool) (l : list A) :
  (forall a b, before' (f a) (f b) = before a b) ->
  sort_by before' (map f l) = map f (sort_by before l).
Proof.
  intros H. induction l as [| x l IH]; [reflexivity |].
  cbn [map]. rewrite !sort_by_cons, IH. now apply insert_by_map.
Qed.

Lemma filter_map_comm {A B} (p : B -> bool) (g : A -> B) (l : list A) :
  filter p (map g l) = map g (filter (fun x => p (g x)) l).
Proof.
  induction l as [| x l IH]; cbn; [reflexivity |].
  destruct (p (g x)); cbn; now rewrite IH.
Qed.

Lemma flat_map_singletons {A B} (f : A -> list B) (h : A -> B) (l : list A) :
  (forall x, In x l -> f x = [h x]) -> flat_map f l = map h l.
Proof.
  induction l as [| x l IH]; intros H; cbn; [reflexivity |].
  rewrite (H x) by now left. cbn. f_equal. apply IH.
  intros y Hy. apply H. now right.
Qed.

(** ** Slices *)

Lemma slice_to_firstn {A} (limit : Z) (l : list A) :
  0 <= limit -> slice_to limit l = firstn (Z.to_nat limit) l.
Proof.
  intros H. unfold slice_to.
  destruct (Z.leb_spec 0 limit); [reflexivity | lia].
Qed.

(** ** Rounding *)





Lemma round2_zero : round2 0 = 0%Q.
Proof. reflexivity. Qed.

(** Values that Python prints: the literal [0.1], the product
    [23 / 160 * 100] (14.374999999999998) and its rounding to 14.37,
    [round(2.675, 2)] (2.67, the float 2.675 lying below the decimal), the
    tie [round(2.125, 2)] (2.12), and the mean [14 / 3]. *)
Example binary64_samples :
  binary64 (1 # 10) = (3602879701896397 # 36028797018963968)%Q
  /\ fmul (true_divide 23 160) 100 = (8092405580431359 # 562949953421312)%Q
  /\ round2 (fmul (true_divide 23 160) 100) = binary64 (1437 # 100)
  /\ round2 (binary64 (2675 # 1000)) = binary64 (267 # 100)
  /\ round2 (17 # 8) = binary64 (212 # 100)
  /\ avg [4; 5; 5] = Some (5254199565265579 # 1125899906842624)%Q.
Proof. repeat split; vm_compute; reflexivity. Qed.

(** ** Keys and constraints *)

Lemma pair_eqb_eq (p q : Z * Z) : pair_eqb p q = true <-> p = q.
Proof.
  destruct p as [a b], q as [c d]. unfold pair_eqb. cbn.
  rewrite andb_true_iff, !Z.eqb_eq. split.
  - intros [-> ->]. reflexivity.
  - intros [= -> ->]. split; reflexivity.
Qed.

Lemma distinct_NoDup {K} (eqb : K -> K -> bool) (l : list K) :
  (forall a b, eqb a b = true <-> a = b) ->
  distinct eqb l = true <-> NoDup l.
Proof.
  intros Heqb. induction l as [| k l IH]; cbn.
  - split; [constructor | reflexivity].
  - rewrite andb_true_iff, negb_true_iff, IH, NoDup_cons_iff.
    assert (Hin : existsb (eqb k) l = false <-> ~ In k l).
    { rewrite <- not_true_iff_false, existsb_exists. split.
      - intros H Hk. apply H. exists k. split; [assumption | now apply Heqb].
      - intros H (x & Hx & Hkx). apply Heqb in Hkx. subst. contradiction. }
    now rewrite Hin.
Qed.

Lemma schema_ok_iff (db : Session.t) :
  schema_ok db = true
  <-> NoDup (map EventRegistration.id (Session.event_registrations db))
      /\ NoDup (map registration_pair (Session.event_registrations db)).
Proof.
  unfold schema_ok. rewrite andb_true_iff.
  rewrite (distinct_NoDup Z.eqb _ Z.eqb_eq).
  rewrite (distinct_NoDup pair_eqb _ pair_eqb_eq). reflexivity.
Qed.

Lemma max_id_upper {A} (id : A -> Z) (l : list A) (x : A) :
  In x l -> id x <= max_id id l.
Proof.
  induction l as [| y l IH]; [intros [] |].
  change (max_id id (y :: l)) with (Z.max (id y) (max_id id l)).
  intros [-> | H]; [lia |]. specialize (IH H). lia.
Qed.

Lemma fresh_id_new {A} (id : A -> Z) (l : list A) :
  ~ In (fresh_id id l) (map id l).
Proof.
  intros H. apply in_map_iff in H. destruct H as (x & Hx & Hin).
  apply (max_id_upper id) in Hin. unfold fresh_id in Hx. lia.
Qed.

(** A table with a unique key holds at most one row for each key value. *)
Lemma NoDup_key_filter {A K} (key : A -> K) (f : A -> bool) (l : list A) :
  NoDup (map key l) ->
  (forall x y, f x = true -> f y = true -> key x = key y) ->
  (List.length (filter f l) <= 1)%nat.
Proof.
  intros Hnd Hf. induction l as [| x l IH]; cbn; [lia |].
  cbn in Hnd. apply NoDup_cons_iff in Hnd. destruct Hnd as [Hx Hnd].
  specialize (IH Hnd). destruct (f x) eqn:Hfx; [| lia].
  destruct (filter f l) as [| y m] eqn:Hm; [cbn; lia |].
  exfalso. apply Hx.
  assert (Hy : In y (filter f l)) by (rewrite Hm; now left).
  apply filter_In in Hy. destruct Hy as [Hy Hfy].
  rewrite (Hf x y Hfx Hfy). now apply in_map.
Qed.

Lemma NoDup_key_inj {A K} (key : A -> K) (l : list A) (x y : A) :
  NoDup (map key l) -> In x l -> In y l -> key x = key y -> x = y.
Proof.
  induction l as [| z l IH]; cbn; [intros _ [] |].
  intros Hnd Hx Hy Hk. apply NoDup_cons_iff in Hnd. destruct Hnd as [Hz Hnd].
  destruct Hx as [-> | Hx], Hy as [-> | Hy].
  - reflexivity.
  - exfalso. apply Hz. rewrite Hk. now apply in_map.
  - exfalso. apply Hz. rewrite <- Hk. now apply in_map.
  - now apply IH.
Qed.

Lemma registrations_of_pair_In (db : Session.t) (s e : Z) (r : EventRegistration.t) :
  In r (registrations_of_pair db s e)
  <-> In r (Session.event_registrations db) /\ registration_pair r = (s, e).
Proof.
  unfold registrations_of_pair, registration_pair.
  rewrite filter_In, andb_true_iff, !Z.eqb_eq. split.
  - intros [H [-> ->]]. auto.
  - intros [H [= -> ->]]. auto.
Qed.

Lemma update_registration_keys {K} (key : EventRegistration.t -> K) (i : Z)
      (f : EventRegistration.t -> EventRegistration.t) (db : Session.t) :
  (forall r, key (f r) = key r) ->
  map key (Session.event_registrations (update_registration i f db))
  = map key (Session.event_registrations db).
Proof.
  intros Hf. unfold update_registration. cbn. rewrite map_map.
  apply map_ext. intros r. destruct (EventRegistration.id r =? i); auto.
Qed.

Lemma update_registration_schema (i : Z)
      (f : EventRegistration.t -> EventRegistration.t) (db : Session.t) :
  (forall r, EventRegistration.id (f r) = EventRegistration.id r) ->
  (forall r, registration_pair (f r) = registration_pair r) ->
  schema_ok db = true -> schema_ok (update_registration i f db) = true.
Proof.
  intros Hid Hpair. rewrite !schema_ok_iff.
  rewrite !update_registration_keys by assumption. auto.
Qed.

Lemma add_registration_schema (db db' : Session.t) (now : Z)
      (registration : EventRegistrationCreate.t) (row : EventRegistration.t) :
  add_registration db now registration = inr (db', row) ->
  schema_ok db = true -> schema_ok db' = true.
Proof.
  unfold add_registration.
  destruct (registrations_of_pair db _ _) as [| x m] eqn:Hpair; [| discriminate].
  intros [= <- <-]. rewrite !schema_ok_iff. cbn. intros [Hid Hp].
  rewrite !map_app. cbn. split.
  - apply Permutation_NoDup with
      (l := fresh_id EventRegistration.id (Session.event_registrations db)
            :: map EventRegistration.id (Session.event_registrations db)).
    + apply Permutation_cons_append.
    + constructor; [apply fresh_id_new | assumption].
  - apply Permutation_NoDup with
      (l := (EventRegistrationCreate.student_id registration,
             EventRegistrationCreate.event_id registration)
            :: map registration_pair (Session.event_registrations db)).
    + apply Permutation_cons_append.
    + constructor; [| assumption].
      intros Hin. apply in_map_iff in Hin. destruct Hin as (r & Hr & Hin).
      assert (H : In r (registrations_of_pair db
                          (EventRegistrationCreate.student_id registration)
                          (EventRegistrationCreate.event_id registration))).
      { apply registrations_of_pair_In. auto. }
      rewrite Hpair in H. destruct H.
Qed.

(** ** Outcomes of the lifecycle operations *)

Ltac bind_inv H :=
  unfold bind in H;
  match type of H with
  | context [match ?m with inl _ => _ | inr _ => _ end] =>
      let E := fresh "E" in destruct m eqn:E; [discriminate |]
  end.

Lemma register_student_inr (db db' : Session.t) (now : Z)
      (registration : EventRegistrationCreate.t) (row : EventRegistration.t) :
  EventService.register_student db now registration = inr (db', row) ->
  (exists ex,
      first (registrations_of_pair db
               (EventRegistrationCreate.student_id registration)
               (EventRegistrationCreate.event_id registration)) = Some ex
      /\ EventRegistration.status ex = CANCELLED
      /\ db' = update_registration (EventRegistration.id ex) (reopened now) db
      /\ row = reopened now ex)
  \/ (exists registration',
         add_registration db now registration' = inr (db', row)
         /\ EventRegistrationCreate.student_id registration'
            = EventRegistrationCreate.student_id registration
         /\ EventRegistrationCreate.event_id registration'
            = EventRegistrationCreate.event_id registration).
Proof.
  unfold EventService.register_student. intros H.
  bind_inv H. bind_inv H. bind_inv H. bind_inv H.
  assert (Hnew : forall ev,
             EventService.register_new db now ev registration = inr (db', row) ->
             exists registration',
               add_registration db now registration' = inr (db', row)
               /\ EventRegistrationCreate.student_id registration'
                  = EventRegistrationCreate.student_id registration
               /\ EventRegistrationCreate.event_id registration'
                  = EventRegistrationCreate.event_id registration).
  { intros ev Hev. unfold EventService.register_new in Hev.
    match type of Hev with
    | add_registration _ _ ?r = _ => exists r
    end.
    split; [exact Hev |].
    destruct (truthy _); [destruct (at_least _ _) |]; auto. }
  destruct (first _) as [ex |] eqn:Hex.
  - destruct (EventRegistration.status ex) eqn:Hst.
    + discriminate.
    + left. exists ex. injection H as <- <-. auto.
    + right. eauto.
  - right. eauto.
Qed.

Lemma after_register (db : Session.t) (now : Z)
      (registration : EventRegistrationCreate.t) :
  after db (Register now registration)
  = match EventService.register_student db now registration with
    | inr r => fst r
    | inl _ => db
    end.
Proof.
  unfold after, execute, bind.
  destruct (EventService.register_student db now registration); reflexivity.
Qed.

Lemma cancel_registration_inr (db db' : Session.t) (rid : Z) :
  EventService.cancel_registration db rid = inr db' ->
  exists r,
    first (filter (fun x => EventRegistration.id x =? rid)
                  (Session.event_registrations db)) = Some r
    /\ EventRegistration.status r <> CANCELLED
    /\ let db1 := update_registration (EventRegistration.id r)
                    (EventRegistration.set_status CANCELLED) db in
       db' = db1
       \/ exists w, db' = update_registration (EventRegistration.id w)
                            (EventRegistration.set_status REGISTERED) db1.
Proof.
  unfold EventService.cancel_registration. intros H.
  bind_inv H. bind_inv H. exists t.
  split.
  { unfold first_or_raise in E.
    destruct (filter _ _); [discriminate | injection E as ->; reflexivity]. }
  split.
  { unfold raise_if in E0. intros Hc. rewrite Hc in E0. discriminate. }
  cbn zeta.
  destruct (first (event_by_id _ _)) as [ev |]; [| injection H as <-; auto].
  destruct (truthy _); [| injection H as <-; auto].
  destruct (first (order_by _ _)) as [w |]; injection H as <-; eauto.
Qed.

Lemma after_schema_ok (db : Session.t) (c : Command) :
  schema_ok db = true -> schema_ok (after db c) = true.
Proof.
  intros Hok. destruct c as [now reg | rid | now att | now s e rating text].
  - rewrite after_register.
    destruct (EventService.register_student db now reg) as [| [db' row]] eqn:H;
      [assumption |].
    apply register_student_inr in H.
    destruct H as [(ex & _ & _ & -> & _) | (reg' & Hadd & _)].
    + now apply update_registration_schema.
    + eapply add_registration_schema; eauto.
  - unfold after, execute.
    destruct (EventService.cancel_registration db rid) as [| db'] eqn:H;
      [assumption |].
    apply cancel_registration_inr in H.
    destruct H as (r & _ & _ & [-> | (w & ->)]);
      repeat apply update_registration_schema; auto.
  - unfold after, execute, bind.
    destruct (EventService.mark_attendance db now att) as [| [db' row]] eqn:H;
      [assumption |].
    unfold EventService.mark_attendance in H.
    bind_inv H. bind_inv H. bind_inv H.
    destruct (first _); [discriminate |].
    unfold EventService.add_attendance in H.
    destruct (attendance_of_pair _ _ _); [| discriminate].
    injection H as <- _. exact Hok.
  - unfold after, execute, bind.
    destruct (main.submit_feedback db now s e rating text) as [| [db' row]] eqn:H;
      [assumption |].
    unfold main.submit_feedback in H. bind_inv H.
    unfold EventService.submit_feedback in H.
    bind_inv H. bind_inv H. bind_inv H.
    destruct (first _); [discriminate |].
    unfold EventService.add_feedback in H.
    destruct (feedback_of_pair _ _ _); [| discriminate].
    injection H as <- _. exact Hok.
Qed.

Lemma schema_ok_one_per_pair (db : Session.t) (s e : Z) :
  schema_ok db = true ->
  (List.length (registrations_of_pair db s e) <= 1)%nat.
Proof.
  intros Hok. apply schema_ok_iff in Hok. destruct Hok as [_ Hp].
  unfold registrations_of_pair.
  apply (NoDup_key_filter registration_pair); [assumption |].
  intros x y Hx Hy. apply andb_true_iff in Hx, Hy.
  rewrite !Z.eqb_eq in Hx, Hy. unfold registration_pair.
  destruct Hx as [-> ->], Hy as [-> ->]. reflexivity.
Qed.

Lemma filter_length_le {A} (f : A -> bool) (l : list A) :
  (List.length (filter f l) <= List.length l)%nat.
Proof.
  induction l as [| x l IH]; cbn; [lia |]. destruct (f x); cbn; lia.
Qed.

Lemma first_filter_id (l : list EventRegistration.t) (ex : EventRegistration.t)
      (f : EventRegistration.t -> bool) :
  NoDup (map EventRegistration.id l) ->
  first (filter f l) = Some ex ->
  forall r, In r l -> EventRegistration.id r = EventRegistration.id ex -> r = ex.
Proof.
  intros Hnd Hex r Hr Hid.
  apply (NoDup_key_inj EventRegistration.id l); auto.
  assert (H : In ex (filter f l)).
  { unfold first in Hex. destruct (filter f l); [discriminate |].
    injection Hex as ->. now left. }
  apply filter_In in H. tauto.
Qed.

(** C3. Every lifecycle command keeps the constraints of the registration
    table, so that a (student, event) pair never has more than one
    registration that is not cancelled; a [Register] for a pair that has a
    row already adds no row and changes no key; and when it meets a
    cancelled row (student and event exist, the event is open) it succeeds
    by setting that row to registered with the timestamp [now], in place. *)
Theorem C3_one_active_registration_per_pair (db : Session.t) (c : Command) :
  schema_ok db = true ->
  schema_ok (after db c) = true
  /\ (forall s e,
        (List.length (filter not_cancelled (registrations_of_pair (after db c) s e))
         <= 1)%nat)
  /\ (forall now registration,
        c = Register now registration ->
        registrations_of_pair db
          (EventRegistrationCreate.student_id registration)
          (EventRegistrationCreate.event_id registration) <> [] ->
        map EventRegistration.id (Session.event_registrations (after db c))
        = map EventRegistration.id (Session.event_registrations db)
        /\ map registration_pair (Session.event_registrations (after db c))
           = map registration_pair (Session.event_registrations db))
  /\ (forall now registration ex,
        c = Register now registration ->
        registration_open db now registration = true ->
        first (registrations_of_pair db
                 (EventRegistrationCreate.student_id registration)
                 (EventRegistrationCreate.event_id registration)) = Some ex ->
        EventRegistration.status ex = CANCELLED ->
        EventService.register_student db now registration
        = inr (after db c, reopened now ex)
        /\ Session.event_registrations (after db c)
           = map (fun r => if EventRegistration.id r =? EventRegistration.id ex
                           then reopened now ex else r)
                 (Session.event_registrations db)).
Proof.
  intros Hok. split; [| split; [| split]].
  - now apply after_schema_ok.
  - intros s e.
    pose proof (schema_ok_one_per_pair (after db c) s e (after_schema_ok db c Hok)).
    pose proof (filter_length_le not_cancelled
                  (registrations_of_pair (after db c) s e)).
    lia.
  - intros now reg -> Hex. rewrite after_register.
    destruct (EventService.register_student db now reg) as [| [db' row]] eqn:H;
      [auto |].
    apply register_student_inr in H.
    destruct H as [(ex & _ & _ & -> & _) | (reg' & Hadd & Hs & He)]; cbn [fst].
    + split; now apply update_registration_keys.
    + unfold add_registration in Hadd. rewrite Hs, He in Hadd.
      destruct (registrations_of_pair db _ _); [congruence | discriminate].
  - intros now reg ex -> Hopen Hex Hst.
    assert (Hrun : EventService.register_student db now reg
                   = inr (update_registration (EventRegistration.id ex)
                            (reopened now) db, reopened now ex)).
    { unfold EventService.register_student, registration_open in *.
      destruct (student_by_id db _) as [| st sts]; [discriminate |].
      destruct (event_by_id db _) as [| ev evs]; [discriminate |].
      apply andb_true_iff in Hopen. destruct Hopen as [Hc Hs].
      apply negb_true_iff in Hc. cbn. rewrite Hc. cbn.
      apply Z.ltb_lt in Hs.
      destruct (Z.leb_spec (Event.start_date ev) now); [lia |]. cbn.
      rewrite Hex, Hst. reflexivity. }
    rewrite after_register, Hrun. cbn [fst]. split; [reflexivity |].
    unfold update_registration. cbn. apply map_ext_in. intros r Hr.
    destruct (EventRegistration.id r =? EventRegistration.id ex) eqn:Hid;
      [| reflexivity].
    apply Z.eqb_eq in Hid. apply schema_ok_iff in Hok. destruct Hok as [Hnd _].
    unfold registrations_of_pair in Hex.
    now rewrite (first_filter_id _ ex _ Hnd Hex r Hr Hid).
Qed.

(** ** Cancellation and promotion *)

Lemma first_Some_In {A} (l : list A) (x : A) : first l = Some x -> In x l.
Proof.
  destruct l; cbn; [discriminate | intros [= ->]; now left].
Qed.

Lemma filter_by_id (l : list EventRegistration.t) (p : EventRegistration.t) :
  NoDup (map EventRegistration.id l) -> In p l ->
  filter (fun x => EventRegistration.id x =? EventRegistration.id p) l = [p].
Proof.
  induction l as [| y l IH]; cbn; [intros _ [] |].
  intros Hnd Hp. apply NoDup_cons_iff in Hnd. destruct Hnd as [Hy Hnd].
  destruct Hp as [-> | Hp].
  - rewrite Z.eqb_refl. f_equal.
    assert (H : forall x, In x l ->
                (EventRegistration.id x =? EventRegistration.id p) = false).
    { intros x Hx. apply Z.eqb_neq. intros E. apply Hy. rewrite <- E.
      now apply in_map. }
    clear -H. induction l as [| z l IH]; cbn; [reflexivity |].
    rewrite (H z) by now left. apply IH. intros x Hx. apply H. now right.
  - destruct (Z.eqb_spec (EventRegistration.id y) (EventRegistration.id p)) as [E | E].
    + exfalso. apply Hy. rewrite E. now apply in_map.
    + now apply IH.
Qed.

Lemma filter_map_id (F : EventRegistration.t -> EventRegistration.t)
      (l : list EventRegistration.t) (i : Z) :
  (forall x, EventRegistration.id (F x) = EventRegistration.id x) ->
  filter (fun x => EventRegistration.id x =? i) (map F l)
  = map F (filter (fun x => EventRegistration.id x =? i) l).
Proof.
  intros HF. induction l as [| y l IH]; cbn; [reflexivity |].
  rewrite HF. destruct (EventRegistration.id y =? i); cbn; now rewrite IH.
Qed.

Lemma status_of_map (F : EventRegistration.t -> EventRegistration.t)
      (db db' : Session.t) (x : EventRegistration.t) :
  NoDup (map EventRegistration.id (Session.event_registrations db)) ->
  Session.event_registrations db' = map F (Session.event_registrations db) ->
  (forall y, EventRegistration.id (F y) = EventRegistration.id y) ->
  In x (Session.event_registrations db) ->
  status_of db' (EventRegistration.id x) = Some (EventRegistration.status (F x)).
Proof.
  intros Hnd Hmap HF Hx. unfold status_of.
  rewrite Hmap, filter_map_id by assumption.
  now rewrite filter_by_id.
Qed.

(** A split of a filtered list comes from a split of the list. *)
Lemma filter_split {A} (f : A -> bool) (l m1 m2 : list A) (p : A) :
  filter f l = m1 ++ p :: m2 ->
  exists l1 l2, l = l1 ++ p :: l2 /\ filter f l1 = m1 /\ filter f l2 = m2.
Proof.
  revert m1. induction l as [| x l IH]; intros m1 H; cbn in H.
  - destruct m1; discriminate.
  - destruct (f x) eqn:Hfx.
    + destruct m1 as [| y m1]; cbn in H; injection H as -> H.
      * exists [], l. auto.
      * destruct (IH _ H) as (l1 & l2 & -> & H1 & H2).
        exists (y :: l1), l2. cbn. rewrite Hfx, H1. auto.
    + destruct (IH _ H) as (l1 & l2 & -> & H1 & H2).
      exists (x :: l1), l2. cbn. rewrite Hfx. auto.
Qed.

(** The waitlist of event [e] read after the row [rid] was cancelled. *)
Lemma waitlisted_after_cancel (db : Session.t) (rid e : Z) :
  registrations_with_status
    (update_registration rid (EventRegistration.set_status CANCELLED) db)
    e WAITLISTED
  = filter (fun x => ((EventRegistration.event_id x =? e)
                      && RegistrationStatus_eqb (EventRegistration.status x)
                                                WAITLISTED)
                     && negb (EventRegistration.id x =? rid))
           (Session.event_registrations db).
Proof.
  unfold registrations_with_status, update_registration. cbn.
  induction (Session.event_registrations db) as [| x l IH]; cbn; [reflexivity |].
  rewrite IH. destruct (EventRegistration.id x =? rid); cbn.
  - now rewrite !andb_false_r.
  - now rewrite andb_true_r.
Qed.

Lemma RegistrationStatus_eqb_eq (a b : RegistrationStatus) :
  RegistrationStatus_eqb a b = true <-> a = b.
Proof. destruct a, b; cbn; split; congruence. Qed.

(** Cancelling a row that is not cancelled, for an event whose capacity
    passes the test [event.max_capacity], promotes the earliest of the
    other waitlisted rows of the event. *)
Lemma cancel_promotes (db : Session.t) (rid : Z)
      (r : EventRegistration.t) (ev : Event.t) :
  schema_ok db = true ->
  first (filter (fun x => EventRegistration.id x =? rid)
                (Session.event_registrations db)) = Some r ->
  EventRegistration.status r <> CANCELLED ->
  first (event_by_id db (EventRegistration.event_id r)) = Some ev ->
  truthy (Event.max_capacity ev) = true ->
  (exists w, In w (Session.event_registrations db)
             /\ is_waitlisted (EventRegistration.event_id r) w
             /\ EventRegistration.id w <> rid) ->
  cancel_promotes_earliest
    (fun w => is_waitlisted (EventRegistration.event_id r) w
              /\ EventRegistration.id w <> rid)
    db rid.
Proof.
  intros Hok Hr Hst Hev Hcap (w0 & Hw0 & [Hw0e Hw0s] & Hw0id).
  apply schema_ok_iff in Hok. destruct Hok as [Hnd _].
  set (e := EventRegistration.event_id r) in *.
  set (regs := Session.event_registrations db) in *.
  assert (Hrin : In r regs /\ EventRegistration.id r = rid).
  { apply first_Some_In in Hr. apply filter_In in Hr.
    now rewrite Z.eqb_eq in Hr. }
  destruct Hrin as [Hrin Hrid].
  set (sel := fun x => ((EventRegistration.event_id x =? e)
                        && RegistrationStatus_eqb (EventRegistration.status x)
                                                  WAITLISTED)
                       && negb (EventRegistration.id x =? rid)).
  assert (Hsel : forall x, sel x = true
                           <-> is_waitlisted e x /\ EventRegistration.id x <> rid).
  { intros x. unfold sel, is_waitlisted.
    rewrite !andb_true_iff, negb_true_iff, Z.eqb_eq, Z.eqb_neq,
      RegistrationStatus_eqb_eq. tauto. }
  assert (Hne : filter sel regs <> []).
  { intros Hnil. assert (H : In w0 (filter sel regs)).
    { apply filter_In. split; [assumption |]. apply Hsel.
      unfold is_waitlisted. auto. }
    rewrite Hnil in H. destruct H. }
  destruct (first_order_by EventRegistration.registration_date _ Hne)
    as (p & m1 & m2 & Hsplit & Hfirst & Hm1 & Hm2).
  destruct (filter_split _ _ _ _ _ Hsplit) as (l1 & l2 & Hregs & Hl1 & Hl2).
  assert (Hpin : In p regs).
  { rewrite Hregs. apply in_or_app. right. now left. }
  assert (Hpsel : sel p = true).
  { assert (H : In p (filter sel regs)).
    { rewrite Hsplit. apply in_or_app. right. now left. }
    apply filter_In in H. tauto. }
  pose proof (proj1 (Hsel p) Hpsel) as [[Hpe Hps] Hpid].
  set (F := fun x =>
              if EventRegistration.id x =? EventRegistration.id p
              then EventRegistration.set_status REGISTERED x
              else if EventRegistration.id x =? rid
                   then EventRegistration.set_status CANCELLED x
                   else x).
  assert (HFid : forall y, EventRegistration.id (F y) = EventRegistration.id y).
  { intros y. unfold F.
    destruct (_ =? EventRegistration.id p); [reflexivity |].
    destruct (_ =? rid); reflexivity. }
  set (db' := update_registration (EventRegistration.id p)
                (EventRegistration.set_status REGISTERED)
                (update_registration rid
                   (EventRegistration.set_status CANCELLED) db)).
  assert (Hregs' : Session.event_registrations db' = map F regs).
  { unfold db', update_registration. cbn. rewrite map_map.
    apply map_ext. intros x. unfold F.
    destruct (Z.eqb_spec (EventRegistration.id x) rid) as [E | E]; cbn.
    - destruct (Z.eqb_spec (EventRegistration.id x) (EventRegistration.id p));
        [congruence | reflexivity].
    - reflexivity. }
  assert (Hrun : EventService.cancel_registration db rid = inr db').
  { unfold EventService.cancel_registration. fold regs.
    unfold first in Hr. destruct (filter _ regs) as [| r' rs]; [discriminate |].
    injection Hr as ->. cbn [first_or_raise bind ret].
    destruct (EventRegistration.status r) eqn:Hs; try congruence;
      cbn [RegistrationStatus_eqb raise_if bind ret];
      rewrite Hrid;
      change (event_by_id (update_registration rid _ db) ?i)
        with (event_by_id db i);
      fold e; rewrite Hev, Hcap, waitlisted_after_cancel;
      fold regs; fold sel; rewrite Hfirst; reflexivity. }
  exists db', p.
  split; [exact Hrun |].
  split.
  { exists l1, l2. split; [exact Hregs |]. split; [now apply Hsel |]. split.
    - intros w Hw Pw. apply Hm1. rewrite <- Hl1. apply filter_In.
      split; [assumption | now apply Hsel].
    - intros w Hw Pw. apply Hm2. rewrite <- Hl2. apply filter_In.
      split; [assumption | now apply Hsel]. }
  split; [exact Hregs' |].
  split.
  { rewrite <- Hrid.
    rewrite (status_of_map F db db' r Hnd Hregs' HFid Hrin).
    unfold F. rewrite Hrid.
    destruct (Z.eqb_spec rid (EventRegistration.id p)); [congruence |].
    now rewrite Z.eqb_refl. }
  split.
  { rewrite (status_of_map F db db' p Hnd Hregs' HFid Hpin).
    unfold F. now rewrite Z.eqb_refl. }
  split.
  { unfold promoted. fold regs.
    rewrite <- (filter_by_id regs p Hnd Hpin).
    apply filter_ext_in. intros x Hx.
    rewrite (status_of_map F db db' x Hnd Hregs' HFid Hx). unfold F.
    destruct (Z.eqb_spec (EventRegistration.id x) (EventRegistration.id p)) as [E | E].
    - rewrite (NoDup_key_inj EventRegistration.id regs x p Hnd Hx Hpin E).
      now rewrite Hps.
    - destruct (EventRegistration.id x =? rid); cbn.
      + apply andb_false_r.
      + destruct (EventRegistration.status x); reflexivity. }
  intros w Hw Hws Hwp Hwr.
  rewrite (status_of_map F db db' w Hnd Hregs' HFid Hw). unfold F.
  destruct (Z.eqb_spec (EventRegistration.id w) (EventRegistration.id p));
    [congruence |].
  destruct (Z.eqb_spec (EventRegistration.id w) rid); [congruence |].
  now rewrite Hws.
Qed.

Lemma earliest_among_ext (P Q : EventRegistration.t -> Prop)
      (l : list EventRegistration.t) (p : EventRegistration.t) :
  (forall w, In w l -> P w <-> Q w) ->
  earliest_among P l p -> earliest_among Q l p.
Proof.
  intros HPQ (l1 & l2 & Hl & Hp & H1 & H2).
  exists l1, l2. subst l. split; [reflexivity |]. split; [| split].
  - apply HPQ; [| assumption]. apply in_or_app. right. now left.
  - intros w Hw Qw. apply H1; [assumption |]. apply HPQ; [| assumption].
    apply in_or_app. now left.
  - intros w Hw Qw. apply H2; [assumption |]. apply HPQ; [| assumption].
    apply in_or_app. right. now right.
Qed.

Lemma cancelled_and_promoted_compose (rid pid : Z)
      (l : list EventRegistration.t) :
  pid <> rid ->
  cancelled_and_promoted rid pid l
  = map (fun x => if EventRegistration.id x =? pid
                  then EventRegistration.set_status REGISTERED x else x)
        (map (fun x => if EventRegistration.id x =? rid
                       then EventRegistration.set_status CANCELLED x else x)
             l).
Proof.
  intros Hne. unfold cancelled_and_promoted. rewrite map_map.
  apply map_ext. intros x.
  destruct (Z.eqb_spec (EventRegistration.id x) rid) as [E | E]; cbn.
  - destruct (Z.eqb_spec (EventRegistration.id x) pid); [congruence | reflexivity].
  - reflexivity.
Qed.

(** A cancellation of a row that is not cancelled succeeds; it cancels
    the row and promotes at most one other row. *)
Lemma cancel_registration_outcome (db : Session.t) (rid : Z)
      (r : EventRegistration.t) :
  first (filter (fun x => EventRegistration.id x =? rid)
                (Session.event_registrations db)) = Some r ->
  EventRegistration.status r <> CANCELLED ->
  exists db',
    EventService.cancel_registration db rid = inr db'
    /\ (Session.event_registrations db'
        = map (fun x => if EventRegistration.id x =? rid
                        then EventRegistration.set_status CANCELLED x else x)
              (Session.event_registrations db)
        \/ exists p,
             In p (Session.event_registrations db)
             /\ is_waitlisted (EventRegistration.event_id r) p
             /\ EventRegistration.id p <> rid
             /\ Session.event_registrations db'
                = cancelled_and_promoted rid (EventRegistration.id p)
                    (Session.event_registrations db)).
Proof.
  intros Hr Hst.
  assert (Hrid : EventRegistration.id r = rid).
  { apply first_Some_In in Hr. apply filter_In in Hr.
    now rewrite Z.eqb_eq in Hr. }
  unfold EventService.cancel_registration.
  unfold first in Hr.
  destruct (filter _ (Session.event_registrations db)) as [| r' rs];
    [discriminate |].
  injection Hr as ->. cbn [first_or_raise bind ret].
  assert (Hraise : raise_if (RegistrationStatus_eqb (EventRegistration.status r)
                                                    CANCELLED)
                     (unbound_HTTPException HTTP_400_BAD_REQUEST
                        "Registration is already cancelled") = inr tt).
  { destruct (EventRegistration.status r); try reflexivity. congruence. }
  rewrite Hraise, Hrid. cbn [bind].
  destruct (first (event_by_id _ _)) as [ev |]; [| eexists; split; eauto].
  destruct (truthy _); [| eexists; split; eauto].
  rewrite waitlisted_after_cancel.
  destruct (first (order_by _ _)) as [p |] eqn:Hp; [| eexists; split; eauto].
  apply first_Some_In in Hp.
  apply (Permutation_in _ (sort_by_perm _ _)) in Hp.
  apply filter_In in Hp. destruct Hp as [Hpin Hp].
  apply andb_true_iff in Hp. destruct Hp as [Hpw Hp].
  apply andb_true_iff in Hpw. destruct Hpw as [Hpe Hps].
  apply Z.eqb_eq in Hpe. apply RegistrationStatus_eqb_eq in Hps.
  apply negb_true_iff, Z.eqb_neq in Hp.
  eexists. split; [reflexivity |]. right. exists p.
  split; [assumption |]. split; [split; assumption |]. split; [assumption |].
  unfold update_registration. cbn. symmetry.
  now apply cancelled_and_promoted_compose.
Qed.

(** C2 (amended). Cancelling a registered row, for an event with a
    capacity other than 0 and a non-empty waitlist, promotes exactly one
    waitlisted row: the one with the earliest timestamp, the first in the
    table among equal timestamps.  Every other waitlisted row stays
    waitlisted. *)
Theorem C2_cancel_promotes_earliest_waitlisted
        (db : Session.t) (rid : Z) (r : EventRegistration.t)
        (ev : Event.t) (c : Z) :
  schema_ok db = true ->
  first (filter (fun x => EventRegistration.id x =? rid)
                (Session.event_registrations db)) = Some r ->
  EventRegistration.status r = REGISTERED ->
  first (event_by_id db (EventRegistration.event_id r)) = Some ev ->
  Event.max_capacity ev = Some c ->
  c <> 0 ->
  (exists w, In w (Session.event_registrations db)
             /\ is_waitlisted (EventRegistration.event_id r) w) ->
  cancel_promotes_earliest (is_waitlisted (EventRegistration.event_id r)) db rid.
Proof.
  intros Hok Hr Hst Hev Hcap Hc (w0 & Hw0 & Hw0s).
  assert (Hrin : In r (Session.event_registrations db)
                 /\ EventRegistration.id r = rid).
  { apply first_Some_In in Hr. apply filter_In in Hr.
    now rewrite Z.eqb_eq in Hr. }
  destruct Hrin as [Hrin Hrid].
  pose proof (proj1 (schema_ok_iff db) Hok) as [Hnd _].
  assert (Hother : forall w, In w (Session.event_registrations db) ->
                     is_waitlisted (EventRegistration.event_id r) w ->
                     EventRegistration.id w <> rid).
  { intros w Hw [_ Hws] Hid.
    assert (w = r).
    { apply (NoDup_key_inj EventRegistration.id _ w r Hnd Hw Hrin). congruence. }
    subst w. congruence. }
  destruct (cancel_promotes db rid r ev Hok Hr) as (db' & p & Hrun & He & Hrest).
  - congruence.
  - assumption.
  - rewrite Hcap. cbn. now apply negb_true_iff, Z.eqb_neq.
  - exists w0. auto.
  - exists db', p. split; [exact Hrun |]. split; [| exact Hrest].
    eapply earliest_among_ext; [| exact He].
    intros w Hw. split; [tauto |]. intros Hwl. split; auto.
Qed.

Lemma C2_witness :
  cancel_promotes_earliest (is_waitlisted 1) tie_db 1.
Proof.
  apply (C2_cancel_promotes_earliest_waitlisted tie_db 1
           (EventRegistration.mk 1 1 1 1 REGISTERED)
           (sample_event 1 (Some 1)) 1).
  - reflexivity.
  - reflexivity.
  - reflexivity.
  - reflexivity.
  - reflexivity.
  - discriminate.
  - exists (EventRegistration.mk 2 2 1 2 WAITLISTED). split.
    + right. left. reflexivity.
    + split; reflexivity.
Defined.

(** With a declared capacity of 0 the claim of C2 fails: the registered
    row 1 of event 2 is cancelled and no waitlisted row is promoted. *)
Lemma C2_counterexample_zero_capacity :
  schema_ok zero_capacity_db = true
  /\ first (filter (fun x => EventRegistration.id x =? 1)
                   (Session.event_registrations zero_capacity_db))
     = Some (EventRegistration.mk 1 1 2 1 REGISTERED)
  /\ first (event_by_id zero_capacity_db 2) = Some (sample_event 2 (Some 0))
  /\ Event.max_capacity (sample_event 2 (Some 0)) = Some 0
  /\ In (EventRegistration.mk 2 2 2 2 WAITLISTED)
        (Session.event_registrations zero_capacity_db)
  /\ map EventRegistration.status
         (Session.event_registrations
            (after zero_capacity_db (CancelRegistration 1)))
     = [CANCELLED; WAITLISTED; WAITLISTED]
  /\ ~ cancel_promotes_earliest (is_waitlisted 2) zero_capacity_db 1.
Proof.
  repeat (split; [reflexivity |]).
  split; [right; left; reflexivity |].
  split; [reflexivity |].
  intros (db' & p & Hrun & _ & _ & _ & _ & Hp & _).
  vm_compute in Hrun. injection Hrun as <-.
  vm_compute in Hp. discriminate.
Qed.

(** C10 (amended). Cancelling a waitlisted row succeeds and sets it to
    cancelled; when the event has a capacity other than 0 and another row
    of the event is waitlisted, the earliest of these other rows is
    promoted to registered although no seat was freed. *)
Theorem C10_cancel_waitlisted_still_promotes
        (db : Session.t) (rid : Z) (r : EventRegistration.t) :
  schema_ok db = true ->
  first (filter (fun x => EventRegistration.id x =? rid)
                (Session.event_registrations db)) = Some r ->
  EventRegistration.status r = WAITLISTED ->
  (exists db', EventService.cancel_registration db rid = inr db'
               /\ status_of db' rid = Some CANCELLED)
  /\ (forall ev c,
        first (event_by_id db (EventRegistration.event_id r)) = Some ev ->
        Event.max_capacity ev = Some c ->
        c <> 0 ->
        (exists w, In w (Session.event_registrations db)
                   /\ is_waitlisted (EventRegistration.event_id r) w
                   /\ EventRegistration.id w <> rid) ->
        cancel_promotes_earliest
          (fun w => is_waitlisted (EventRegistration.event_id r) w
                    /\ EventRegistration.id w <> rid)
          db rid).
Proof.
  intros Hok Hr Hst. split.
  - assert (Hrin : In r (Session.event_registrations db)
                   /\ EventRegistration.id r = rid).
    { apply first_Some_In in Hr. apply filter_In in Hr.
      now rewrite Z.eqb_eq in Hr. }
    destruct Hrin as [Hrin Hrid].
    pose proof (proj1 (schema_ok_iff db) Hok) as [Hnd _].
    destruct (cancel_registration_outcome db rid r Hr) as (db' & Hrun & Hregs);
      [congruence |].
    exists db'. split; [exact Hrun |]. rewrite <- Hrid.
    destruct Hregs as [Hregs | (p & Hp & _ & Hpid & Hregs)].
    + rewrite (status_of_map _ db db' r Hnd Hregs); [| | assumption].
      * rewrite Hrid, Z.eqb_refl. reflexivity.
      * intros y. destruct (_ =? _); reflexivity.
    + unfold cancelled_and_promoted in Hregs.
      rewrite (status_of_map _ db db' r Hnd Hregs); [| | assumption].
      * rewrite Hrid.
        destruct (Z.eqb_spec rid (EventRegistration.id p)); [congruence |].
        rewrite Z.eqb_refl. reflexivity.
      * intros y. destruct (_ =? EventRegistration.id p); [reflexivity |].
        destruct (_ =? rid); reflexivity.
  - intros ev c Hev Hcap Hc Hw.
    apply (cancel_promotes db rid r ev); try assumption.
    + congruence.
    + rewrite Hcap. cbn. now apply negb_true_iff, Z.eqb_neq.
Qed.

Lemma C10_witness :
  (exists db', EventService.cancel_registration full_db 2 = inr db'
               /\ status_of db' 2 = Some CANCELLED)
  /\ cancel_promotes_earliest
       (fun w => is_waitlisted 1 w /\ EventRegistration.id w <> 2) full_db 2.
Proof.
  destruct (C10_cancel_waitlisted_still_promotes full_db 2
              (EventRegistration.mk 2 2 1 2 WAITLISTED))
    as [H1 H2]; [reflexivity | reflexivity | reflexivity |].
  split; [exact H1 |].
  apply (H2 (sample_event 1 (Some 1)) 1).
  - reflexivity.
  - reflexivity.
  - discriminate.
  - exists (EventRegistration.mk 3 3 1 3 WAITLISTED). split.
    + right. right. left. reflexivity.
    + split; [split; reflexivity | discriminate].
Defined.

(** With a declared capacity of 0 the claim of C10 fails: the waitlisted
    row 2 of event 2 is cancelled and the waitlisted row 3 stays waitlisted. *)
Lemma C10_counterexample_zero_capacity :
  schema_ok zero_capacity_db = true
  /\ first (filter (fun x => EventRegistration.id x =? 2)
                   (Session.event_registrations zero_capacity_db))
     = Some (EventRegistration.mk 2 2 2 2 WAITLISTED)
  /\ first (event_by_id zero_capacity_db 2) = Some (sample_event 2 (Some 0))
  /\ Event.max_capacity (sample_event 2 (Some 0)) = Some 0
  /\ In (EventRegistration.mk 3 3 2 3 WAITLISTED)
        (Session.event_registrations zero_capacity_db)
  /\ map EventRegistration.status
         (Session.event_registrations
            (after zero_capacity_db (CancelRegistration 2)))
     = [REGISTERED; CANCELLED; WAITLISTED]
  /\ ~ cancel_promotes_earliest
         (fun w => is_waitlisted 2 w /\ EventRegistration.id w <> 2)
         zero_capacity_db 2.
Proof.
  repeat (split; [reflexivity |]).
  split; [right; right; left; reflexivity |].
  split; [reflexivity |].
  intros (db' & p & Hrun & _ & _ & _ & _ & Hp & _).
  vm_compute in Hrun. injection Hrun as <-.
  vm_compute in Hp. discriminate.
Qed.

(** ** Capacity *)

(** Updating the row with the key of [r] changes a count by what [r]
    counted for and what its replacement counts for. *)
Lemma length_filter_update (sel : EventRegistration.t -> bool)
      (g : EventRegistration.t -> EventRegistration.t)
      (l : list EventRegistration.t) (r : EventRegistration.t) :
  NoDup (map EventRegistration.id l) -> In r l ->
  (List.length
     (filter sel (map (fun x => if Z.eqb (EventRegistration.id x)
                                         (EventRegistration.id r)
                                then g x else x) l))
   + (if sel r then 1 else 0)
   = List.length (filter sel l) + (if sel (g r) then 1 else 0))%nat.
Proof.
  induction l as [| x l IH]; [intros _ [] |].
  cbn [map]. intros Hnd Hr. apply NoDup_cons_iff in Hnd. destruct Hnd as [Hx Hnd].
  assert (Hfresh : forall y, In y l ->
                     EventRegistration.id x <> EventRegistration.id y).
  { intros y Hy E. apply Hx. rewrite E. now apply in_map. }
  destruct Hr as [-> | Hr].
  - rewrite Z.eqb_refl.
    assert (Hid : map (fun x => if EventRegistration.id x =? EventRegistration.id r
                                then g x else x) l = l).
    { rewrite <- (map_id l) at 2. apply map_ext_in. intros y Hy.
      destruct (Z.eqb_spec (EventRegistration.id y) (EventRegistration.id r)) as [E | E];
        [| reflexivity].
      exfalso. now apply (Hfresh y Hy). }
    rewrite Hid. cbn [filter]. destruct (sel (g r)), (sel r); cbn; lia.
  - destruct (Z.eqb_spec (EventRegistration.id x) (EventRegistration.id r)) as [E | E].
    + exfalso. now apply (Hfresh r Hr).
    + specialize (IH Hnd Hr). cbn [filter]. destruct (sel x); cbn; lia.
Qed.

Lemma after_events (db : Session.t) (c : Command) :
  Session.events (after db c) = Session.events db.
Proof.
  destruct c as [now reg | rid | now att | now s e rating text].
  - rewrite after_register.
    destruct (EventService.register_student db now reg) as [| [db' row]] eqn:H;
      [reflexivity |].
    apply register_student_inr in H.
    destruct H as [(ex & _ & _ & -> & _) | (reg' & Hadd & _)]; [reflexivity |].
    unfold add_registration in Hadd.
    destruct (registrations_of_pair db _ _); [| discriminate].
    injection Hadd as <- _. reflexivity.
  - unfold after, execute.
    destruct (EventService.cancel_registration db rid) as [| db'] eqn:H;
      [reflexivity |].
    apply cancel_registration_inr in H.
    destruct H as (r & _ & _ & [-> | (w & ->)]); reflexivity.
  - unfold after, execute, bind.
    destruct (EventService.mark_attendance db now att) as [| [db' row]] eqn:H;
      [reflexivity |].
    unfold EventService.mark_attendance in H.
    bind_inv H. bind_inv H. bind_inv H.
    destruct (first _); [discriminate |].
    unfold EventService.add_attendance in H.
    destruct (attendance_of_pair _ _ _); [| discriminate].
    injection H as <- _. reflexivity.
  - unfold after, execute, bind.
    destruct (main.submit_feedback db now s e rating text) as [| [db' row]] eqn:H;
      [reflexivity |].
    unfold main.submit_feedback in H. bind_inv H.
    unfold EventService.submit_feedback in H.
    bind_inv H. bind_inv H. bind_inv H.
    destruct (first _); [discriminate |].
    unfold EventService.add_feedback in H.
    destruct (feedback_of_pair _ _ _); [| discriminate].
    injection H as <- _. reflexivity.
Qed.

Lemma gate_keeps_registrations (db : Session.t) (c : Command) :
  match c with
  | MarkAttendance _ _ | SubmitFeedback _ _ _ _ _ =>
      Session.event_registrations (after db c) = Session.event_registrations db
  | _ => True
  end.
Proof.
  destruct c as [now reg | rid | now att | now s e rating text]; try exact I.
  - unfold after, execute, bind.
    destruct (EventService.mark_attendance db now att) as [| [db' row]] eqn:H;
      [reflexivity |].
    unfold EventService.mark_attendance in H.
    bind_inv H. bind_inv H. bind_inv H.
    destruct (first _); [discriminate |].
    unfold EventService.add_attendance in H.
    destruct (attendance_of_pair _ _ _); [| discriminate].
    injection H as <- _. reflexivity.
  - unfold after, execute, bind.
    destruct (main.submit_feedback db now s e rating text) as [| [db' row]] eqn:H;
      [reflexivity |].
    unfold main.submit_feedback in H. bind_inv H.
    unfold EventService.submit_feedback in H.
    bind_inv H. bind_inv H. bind_inv H.
    destruct (first _); [discriminate |].
    unfold EventService.add_feedback in H.
    destruct (feedback_of_pair _ _ _); [| discriminate].
    injection H as <- _. reflexivity.
Qed.

(** The first registration of a pair takes a seat of an event with a
    capacity other than 0 only when one is free. *)
Lemma first_registration_keeps_capacity (db : Session.t) (now : Z)
      (registration : EventRegistrationCreate.t) (e : Z) (ev : Event.t) (cap : Z) :
  first (event_by_id db e) = Some ev ->
  Event.max_capacity ev = Some cap -> cap <> 0 ->
  registrations_of_pair db
    (EventRegistrationCreate.student_id registration)
    (EventRegistrationCreate.event_id registration) = [] ->
  registered_count db e <= cap ->
  registered_count (after db (Register now registration)) e <= cap.
Proof.
  intros Hev Hcap Hne Hpair Hle. rewrite after_register.
  destruct (EventService.register_student db now registration)
    as [| [db' row]] eqn:H; [assumption |].
  cbn [fst]. unfold EventService.register_student in H.
  bind_inv H. bind_inv H. bind_inv H. bind_inv H.
  rewrite Hpair in H. cbn [first hd_error] in H.
  match goal with
  | E : first_or_raise (event_by_id _ _) _ = inr ?event |- _ =>
      rename E into Hevent; rename event into event'
  end.
  unfold EventService.register_new in H.
  assert (Hshape :
            exists st,
              Session.event_registrations db'
              = Session.event_registrations db
                ++ [EventRegistration.mk
                      (fresh_id EventRegistration.id
                                (Session.event_registrations db))
                      (EventRegistrationCreate.student_id registration)
                      (EventRegistrationCreate.event_id registration) now st]
              /\ (st = REGISTERED ->
                  truthy (Event.max_capacity event') = true ->
                  at_least (registered_count db
                              (EventRegistrationCreate.event_id registration))
                           (Event.max_capacity event') = false)).
  { unfold add_registration in H.
    destruct (truthy (Event.max_capacity event')) eqn:Ht;
      [destruct (at_least _ (Event.max_capacity event')) eqn:Ha |];
      cbn [EventRegistrationCreate.student_id EventRegistrationCreate.event_id
           EventRegistrationCreate.status] in H;
      rewrite Hpair in H; injection H as <- _; eexists;
      (split; [reflexivity |]); intros; congruence. }
  destruct Hshape as (st & Hregs & Hst).
  unfold registered_count, registrations_with_status, count in *.
  rewrite Hregs, filter_app, length_app.
  cbn [filter EventRegistration.event_id EventRegistration.status].
  destruct (Z.eqb_spec (EventRegistrationCreate.event_id registration) e)
    as [Ee | Ee]; [| cbn; lia].
  destruct st; cbn [RegistrationStatus_eqb andb List.length]; try lia.
  rewrite Ee in *. unfold first_or_raise in Hevent. unfold first in Hev.
  destruct (event_by_id db e) as [| ev' evs]; [discriminate |].
  injection Hev as ->. injection Hevent as <-.
  rewrite Hcap in Hst. cbn [truthy at_least] in Hst.
  assert (Hnz : negb (cap =? 0) = true) by now apply negb_true_iff, Z.eqb_neq.
  specialize (Hst eq_refl Hnz). apply Z.leb_gt in Hst. lia.
Qed.

(** The cancellation of a registered row frees the seat that a promotion
    may take. *)
Lemma cancel_registered_keeps_count (db : Session.t) (rid e : Z)
      (r : EventRegistration.t) :
  schema_ok db = true ->
  first (filter (fun x => EventRegistration.id x =? rid)
                (Session.event_registrations db)) = Some r ->
  EventRegistration.status r = REGISTERED ->
  registered_count (after db (CancelRegistration rid)) e <= registered_count db e.
Proof.
  intros Hok Hr Hst.
  pose proof (proj1 (schema_ok_iff db) Hok) as [Hnd _].
  assert (Hrin : In r (Session.event_registrations db)
                 /\ EventRegistration.id r = rid).
  { apply first_Some_In in Hr. apply filter_In in Hr.
    now rewrite Z.eqb_eq in Hr. }
  destruct Hrin as [Hrin Hrid].
  destruct (cancel_registration_outcome db rid r Hr) as (db' & Hrun & Hregs);
    [congruence |].
  unfold after, execute. rewrite Hrun.
  unfold registered_count, registrations_with_status, count.
  set (sel := fun x => (EventRegistration.event_id x =? e)
                       && RegistrationStatus_eqb (EventRegistration.status x)
                                                 REGISTERED).
  pose proof (length_filter_update sel (EventRegistration.set_status CANCELLED)
                _ r Hnd Hrin) as Hc.
  rewrite Hrid in Hc.
  assert (Hselc : sel (EventRegistration.set_status CANCELLED r) = false).
  { unfold sel. cbn. apply andb_false_r. }
  rewrite Hselc in Hc.
  destruct Hregs as [-> | (p & Hp & [Hpe Hps] & Hpid & ->)].
  - lia.
  - rewrite cancelled_and_promoted_compose by assumption.
    set (l1 := map (fun x => if EventRegistration.id x =? rid
                             then EventRegistration.set_status CANCELLED x else x)
                   (Session.event_registrations db)) in *.
    assert (Hnd1 : NoDup (map EventRegistration.id l1)).
    { unfold l1. rewrite map_map.
      erewrite map_ext; [exact Hnd |]. intros x. cbn.
      destruct (_ =? rid); reflexivity. }
    assert (Hp1 : In p l1).
    { unfold l1. apply in_map_iff. exists p. split; [| assumption].
      destruct (Z.eqb_spec (EventRegistration.id p) rid); [congruence | reflexivity]. }
    pose proof (length_filter_update sel (EventRegistration.set_status REGISTERED)
                  l1 p Hnd1 Hp1) as Hc1.
    assert (Hselp : sel p = false).
    { unfold sel. rewrite Hps. cbn. apply andb_false_r. }
    rewrite Hselp in Hc1.
    assert (Hselr : sel (EventRegistration.set_status REGISTERED p) = sel r).
    { unfold sel. cbn. rewrite Hpe, Hst. reflexivity. }
    rewrite Hselr in Hc1. destruct (sel r); lia.
Qed.

(** X4. On runs of seat-safe commands (first registrations of a pair,
    cancellations of registered rows, attendance, feedback) the number of
    registered rows of an event with a capacity other than 0 stays within
    the capacity. *)
Theorem capacity_kept_on_seat_safe_runs (cs : list Command) :
  forall (db : Session.t) (e : Z) (ev : Event.t) (cap : Z),
    schema_ok db = true ->
    first (event_by_id db e) = Some ev ->
    Event.max_capacity ev = Some cap -> cap <> 0 ->
    seat_safe_run db cs = true ->
    registered_count db e <= cap ->
    registered_count (run db cs) e <= cap.
Proof.
  induction cs as [| c cs IH]; intros db e ev cap Hok Hev Hcap Hne Hsafe Hle;
    [exact Hle |].
  cbn [seat_safe_run] in Hsafe. apply andb_true_iff in Hsafe.
  destruct Hsafe as [Hc Hcs].
  cbn [run fold_left]. fold (run (after db c) cs).
  apply (IH (after db c) e ev cap); try assumption.
  - now apply after_schema_ok.
  - unfold event_by_id in *. now rewrite after_events.
  - destruct c as [now reg | rid | now att | now s e' rating text].
    + cbn [seat_safe] in Hc.
      destruct (registrations_of_pair db _ _) eqn:Hpair; [| discriminate].
      now apply (first_registration_keeps_capacity db now reg e ev cap).
    + cbn [seat_safe] in Hc.
      destruct (first (filter _ (Session.event_registrations db)))
        as [r |] eqn:Hr.
      * apply RegistrationStatus_eqb_eq in Hc.
        pose proof (cancel_registered_keeps_count db rid e r Hok Hr Hc). lia.
      * assert (Hrun : after db (CancelRegistration rid) = db).
        { unfold after, execute, EventService.cancel_registration.
          unfold first in Hr.
          destruct (filter _ (Session.event_registrations db));
            [reflexivity | discriminate]. }
        now rewrite Hrun.
    + pose proof (gate_keeps_registrations db (MarkAttendance now att)) as Hg.
      cbn in Hg. unfold registered_count, registrations_with_status in *.
      now rewrite Hg.
    + pose proof (gate_keeps_registrations db (SubmitFeedback now s e' rating text))
        as Hg.
      cbn in Hg. unfold registered_count, registrations_with_status in *.
      now rewrite Hg.
Qed.

(** C1. Event 1 has a capacity of 1 and no registration at the start.
    After student 1 registers, cancels, student 2 registers and student 1
    registers again, both rows are registered: the re-registration returns
    before the capacity check.  After students 1, 2 and 3 register and the
    waitlisted student 2 cancels, student 3 is promoted next to student 1:
    the promotion does not ask whether a seat was freed.  Either way two
    registrations are registered for one seat. *)
Theorem C1_capacity_exceeded :
  first (event_by_id campus 1) = Some (sample_event 1 (Some 1))
  /\ Event.max_capacity (sample_event 1 (Some 1)) = Some 1
  /\ registered_count campus 1 = 0
  /\ map EventRegistration.status
         (Session.event_registrations (run campus reopen_trace))
     = [REGISTERED; REGISTERED]
  /\ registered_count (run campus reopen_trace) 1 = 2
  /\ map EventRegistration.status
         (Session.event_registrations (run campus waitlist_cancel_trace))
     = [REGISTERED; CANCELLED; REGISTERED]
  /\ registered_count (run campus waitlist_cancel_trace) 1 = 2.
Proof. repeat split. Qed.

(** ** Capacity utilization *)



(** C4. Event 3 has fifty seats.  With no registration its row of the
    participation report has no capacity utilization, where 0 is expected;
    with one registration the utilization is 2 (percent). *)
Theorem C4_utilization_absent_without_registrations :
  Event.max_capacity (sample_event 3 (Some 50)) = Some 50
  /\ map (fun row => (EventParticipationReport.event_id row,
                      EventParticipationReport.total_registrations row,
                      EventParticipationReport.capacity_utilization row))
         (ReportService.get_event_participation_report campus
            None None None None)
     = [(1, 0, None); (2, 0, None); (3, 0, None); (4, 0, None)]
  /\ map (fun row => (EventParticipationReport.event_id row,
                      EventParticipationReport.total_registrations row,
                      EventParticipationReport.capacity_utilization row))
         (ReportService.get_event_participation_report one_of_fifty_db
            None None None None)
     = [(3, 1, Some 2%Q); (1, 0, None); (2, 0, None); (4, 0, None)].
Proof. repeat split. Qed.

(** ** The activity gate *)

Lemma filter_nil {A} (f : A -> bool) (l : list A) :
  (forall x, In x l -> f x = false) -> filter f l = [].
Proof.
  induction l as [| x l IH]; cbn; intros H; [reflexivity |].
  rewrite (H x) by now left. apply IH. intros y Hy. apply H. now right.
Qed.

Lemma first_or_raise_cons {A} (l : list A) (e : Exception) :
  l <> [] -> exists x, first_or_raise l e = inr x.
Proof. destruct l as [| x l]; [congruence | intros _; now exists x]. Qed.

(** C6. In [full_db] student 1 is registered for event 1 and student 2 is
    waitlisted; cancelling registration 1 leaves student 1 with a cancelled
    row.  Marking the attendance of the waitlisted student 2, or of
    student 1 after the cancellation, stores no attendance row, but the
    refusal is not the 400 error "Student is not registered for this
    event" that line 146 writes: the name [HTTPException] is unbound in
    [services.py], and [NameError] is raised.  Marking the attendance of
    the registered student 1 appends the attendance row. *)
Theorem C6_refusal_is_name_error :
  let waitlisted := AttendanceCreate.mk 2 1 PRESENT None in
  let registered := AttendanceCreate.mk 1 1 LATE None in
  let cancelled_db := after full_db (CancelRegistration 1) in
  map (fun r => (EventRegistration.student_id r, EventRegistration.status r))
      (Session.event_registrations full_db)
  = [(1, REGISTERED); (2, WAITLISTED); (3, WAITLISTED)]
  /\ student_by_id full_db 2 <> [] /\ event_by_id full_db 1 <> []
  /\ EventService.mark_attendance full_db 5 waitlisted
     = inl (NameError "HTTPException")
  /\ EventService.mark_attendance full_db 5 waitlisted
     <> inl (HTTPException HTTP_400_BAD_REQUEST
               "Student is not registered for this event")
  /\ after full_db (MarkAttendance 5 waitlisted) = full_db
  /\ map (fun r => (EventRegistration.student_id r, EventRegistration.status r))
         (Session.event_registrations cancelled_db)
     = [(1, CANCELLED); (2, REGISTERED); (3, WAITLISTED)]
  /\ EventService.mark_attendance cancelled_db 5 registered
     = inl (NameError "HTTPException")
  /\ Session.attendance (after cancelled_db (MarkAttendance 5 registered)) = []
  /\ EventService.mark_attendance full_db 5 registered
     = inr (Session.with_attendance [Attendance.mk 1 1 1 5 None LATE] full_db,
            Attendance.mk 1 1 1 5 None LATE)
  /\ Session.attendance (after full_db (MarkAttendance 5 registered))
     = [Attendance.mk 1 1 1 5 None LATE].
Proof.
  cbv zeta. repeat split; try reflexivity; discriminate.
Qed.

(** C7. [POST /feedback] with rating 0 or 6 fails with the validation
    error of the request model, whatever the tables hold, and stores
    nothing.  With rating 1 or 5, an existing student and event, an
    attendance row of the pair (of any status) and no feedback row of the
    pair, it appends exactly one feedback row. *)
Theorem C7_feedback_rating_bounds
        (db : Session.t) (now s e rating : Z) (text : option string) :
  ((rating = 0 \/ rating = 6) ->
   main.submit_feedback db now s e rating text
   = inl (ValidationError ["Rating must be between 1 and 5"%string])
   /\ after db (SubmitFeedback now s e rating text) = db)
  /\ ((rating = 1 \/ rating = 5) ->
      student_by_id db s <> [] ->
      event_by_id db e <> [] ->
      attendance_of_pair db s e <> [] ->
      feedback_of_pair db s e = [] ->
      let row := EventFeedback.mk
                   (fresh_id EventFeedback.id (Session.event_feedback db))
                   s e rating text now in
      main.submit_feedback db now s e rating text
      = inr (Session.with_event_feedback
               (Session.event_feedback db ++ [row]) db, row)
      /\ Session.event_feedback (after db (SubmitFeedback now s e rating text))
         = Session.event_feedback db ++ [row]).
Proof.
  split.
  - intros Hr.
    assert (Hrun : main.submit_feedback db now s e rating text
                   = inl (ValidationError
                            ["Rating must be between 1 and 5"%string])).
    { destruct Hr as [-> | ->]; reflexivity. }
    split; [exact Hrun |]. unfold after, execute. now rewrite Hrun.
  - intros Hr Hs He Ha Hf row.
    destruct (first_or_raise_cons _
                (unbound_HTTPException HTTP_404_NOT_FOUND "Student not found") Hs)
      as (st & Hst).
    destruct (first_or_raise_cons _
                (unbound_HTTPException HTTP_404_NOT_FOUND "Event not found") He)
      as (ev & Hev).
    destruct (first_or_raise_cons _
                (unbound_HTTPException HTTP_400_BAD_REQUEST
                   "Student must attend the event to submit feedback") Ha)
      as (at' & Hat).
    assert (Hrun : main.submit_feedback db now s e rating text
                   = inr (Session.with_event_feedback
                            (Session.event_feedback db ++ [row]) db, row)).
    { unfold main.submit_feedback, new_EventFeedbackCreate.
      assert (Hv : validate_rating rating = inr rating).
      { destruct Hr as [-> | ->]; reflexivity. }
      rewrite Hv. cbn [bind ret].
      unfold EventService.submit_feedback. cbn.
      rewrite Hst, Hev, Hat. cbn [bind]. rewrite Hf. cbn [first hd_error].
      unfold EventService.add_feedback. cbn. rewrite Hf. reflexivity. }
    split; [exact Hrun |]. unfold after, execute. now rewrite Hrun.
Qed.

Lemma C7_witness :
  main.submit_feedback campus 6 9 9 0 None
  = inl (ValidationError ["Rating must be between 1 and 5"%string])
  /\ main.submit_feedback campus 6 9 9 6 None
     = inl (ValidationError ["Rating must be between 1 and 5"%string])
  /\ Session.event_feedback (after attended_db (SubmitFeedback 6 1 1 1 None))
     = [EventFeedback.mk 1 1 1 1 None 6]
  /\ Session.event_feedback (after attended_db (SubmitFeedback 6 1 1 5 None))
     = [EventFeedback.mk 1 1 1 5 None 6].
Proof.
  split; [| split; [| split]].
  - apply (C7_feedback_rating_bounds campus 6 9 9 0 None). now left.
  - apply (C7_feedback_rating_bounds campus 6 9 9 6 None). now right.
  - apply (C7_feedback_rating_bounds attended_db 6 1 1 1 None);
      [now left | discriminate | discriminate | discriminate | reflexivity].
  - apply (C7_feedback_rating_bounds attended_db 6 1 1 5 None);
      [now right | discriminate | discriminate | discriminate | reflexivity].
Defined.

Lemma C3_witness :
  schema_ok (after (run campus [Register 1 (request 1 1); CancelRegistration 1])
                   (Register 7 (request 1 1))) = true
  /\ Session.event_registrations
       (after (run campus [Register 1 (request 1 1); CancelRegistration 1])
              (Register 7 (request 1 1)))
     = [EventRegistration.mk 1 1 1 7 REGISTERED].
Proof.
  destruct (C3_one_active_registration_per_pair
              (run campus [Register 1 (request 1 1); CancelRegistration 1])
              (Register 7 (request 1 1)))
    as (H1 & _ & _ & H4); [reflexivity |].
  split; [exact H1 |].
  apply (H4 7 (request 1 1) (EventRegistration.mk 1 1 1 1 CANCELLED));
    reflexivity.
Defined.

(** ** Event statistics *)



(** The statistics the model computes for an event are the figures read
    off the tables. *)
Lemma event_stats_statistics (db : Session.t) (ev : Event.t) :
  ReportService.event_stats db ev = statistics db ev.
Proof.
  unfold ReportService.event_stats, statistics, percentage, registered_count,
    present_count, ratings_of_event, ReportService.present_of_event,
    ReportService.feedback_of_event.
  destruct (0 <? _); [| rewrite round2_zero]; f_equal;
    unfold count; now rewrite length_map.
Qed.



(** ** Rankings *)

Lemma event_filters (college_id : option Z) (event_type : option EventType)
      (l : list Event.t) :
  college_id <> Some 0 ->
  ReportService.filter_event_type event_type Event.event_type
    (ReportService.filter_if_int college_id Event.college_id l)
  = filter (event_matches college_id event_type) l.
Proof.
  intros Hc. unfold event_matches. rewrite filter_andb.
  unfold ReportService.filter_event_type, ReportService.filter_if_int.
  assert (H1 : match college_id with
               | Some i => if negb (i =? 0)
                           then filter (fun x => Event.college_id x =? i) l
                           else l
               | None => l
               end
               = filter (fun e => match college_id with
                                  | Some c => Event.college_id e =? c
                                  | None => true
                                  end) l).
  { destruct college_id as [i |]; [| now rewrite filter_true].
    destruct (Z.eqb_spec i 0); [congruence | reflexivity]. }
  rewrite H1. destruct event_type; [reflexivity | now rewrite filter_true].
Qed.

(** C8. For an institution filter other than 0 (or none) and a limit
    N >= 0, the event-popularity report holds the statistics of the first
    N events of the ranking: the events of the table that pass the
    filters, sorted by decreasing registered count, events with the same
    count in table order.  Over three matching events with 10, 7 and 7
    registered rows (the count-10 event first, second or third in the
    table) limit 1 returns the statistics of the count-10 event alone, and
    limit 2 returns them followed by those of the count-7 event that comes
    first in the table. *)
Theorem C8_event_popularity
        (db : Session.t) (college_id : option Z) (event_type : option EventType) :
  college_id <> Some 0 ->
  let matching :=
    filter (event_matches college_id event_type) (Session.events db) in
  let registered := fun e => registered_count db (Event.id e) in
  let report := ReportService.get_event_popularity_report db college_id event_type in
  (forall limit, 0 <= limit ->
     exists ranked,
       stable_descending registered matching ranked
       /\ report limit = map (statistics db) (firstn (Z.to_nat limit) ranked))
  /\ (forall e1 e2 e3,
        matching = [e1; e2; e3] ->
        let counts := (registered e1, registered e2, registered e3) in
        (counts = (10, 7, 7) ->
         report 1 = [statistics db e1]
         /\ report 2 = [statistics db e1; statistics db e2])
        /\ (counts = (7, 10, 7) ->
            report 1 = [statistics db e2]
            /\ report 2 = [statistics db e2; statistics db e1])
        /\ (counts = (7, 7, 10) ->
            report 1 = [statistics db e3]
            /\ report 2 = [statistics db e3; statistics db e1])).
Proof.
  intros Hc matching registered report.
  assert (Hreport : forall limit, 0 <= limit ->
            report limit
            = map (statistics db)
                  (firstn (Z.to_nat limit) (sorted_reverse registered matching))).
  { intros limit Hlimit.
    unfold report, ReportService.get_event_popularity_report.
    rewrite slice_to_firstn by assumption.
    rewrite event_filters by assumption. fold matching.
    rewrite (map_ext _ _ (event_stats_statistics db)).
    unfold sorted_reverse.
    rewrite (sort_by_map (statistics db)
               (fun x y => registered y <=? registered x)) by reflexivity.
    now rewrite firstn_map. }
  split.
  - intros limit Hlimit.
    exists (sorted_reverse registered matching).
    split; [apply sorted_reverse_stable | now apply Hreport].
  - intros e1 e2 e3 Hm counts.
    rewrite !Hreport by lia. rewrite Hm.
    unfold sorted_reverse, sort_by, counts. cbn [fold_right].
    split; [| split]; intros [= K1 K2 K3];
      repeat (progress (cbn [insert_by]; rewrite ?K1, ?K2, ?K3;
                        cbn [Z.leb Z.compare Pos.compare Pos.compare_cont]));
      split; reflexivity.
Qed.

(** The events of college 1 in [two_college_db] have 10, 7 and 7 registered
    rows; event 4, with 12, belongs to college 2 and is left out. *)
Lemma C8_witness :
  (exists ranked,
      stable_descending (fun e => registered_count two_college_db (Event.id e))
        [sample_event 1 None; sample_event 2 None; sample_event 3 None] ranked
      /\ ReportService.get_event_popularity_report two_college_db
           (Some 1) (Some WORKSHOP) 2
         = map (statistics two_college_db) (firstn 2 ranked))
  /\ ReportService.get_event_popularity_report two_college_db
       (Some 1) (Some WORKSHOP) 1
     = [statistics two_college_db (sample_event 1 None)]
  /\ ReportService.get_event_popularity_report two_college_db
       (Some 1) (Some WORKSHOP) 2
     = [statistics two_college_db (sample_event 1 None);
        statistics two_college_db (sample_event 2 None)].
Proof.
  destruct (C8_event_popularity two_college_db (Some 1) (Some WORKSHOP))
    as [H1 H2]; [discriminate |].
  split.
  - apply (H1 2). discriminate.
  - destruct (H2 (sample_event 1 None) (sample_event 2 None)
                (sample_event 3 None) eq_refl) as [Ha _].
    exact (Ha eq_refl).
Defined.

(** No event of [two_college_db] belongs to an institution 0, yet with the
    institution filter 0 the report ranks all four events: the filter is
    applied only when it is true, and 0 is false. *)
Lemma C8_counterexample_institution_zero :
  filter (fun e => Event.college_id e =? 0) (Session.events two_college_db) = []
  /\ map (fun s => (EventStats.event_id s, EventStats.total_registrations s))
         (ReportService.get_event_popularity_report two_college_db
            (Some 0) None 10)
     = [(4, 12); (1, 10); (2, 7); (3, 7)].
Proof. split; reflexivity. Qed.





(** The rankings of [flip_db]: under the filter on college 1 both students
    score the float 0.53 and stay in table order; without a filter
    student 3, of college 2, comes first with 2.5. *)
Example top_students_ranking :
  map (fun row => (TopStudentsReport.student_id row,
                   TopStudentsReport.participation_score row))
      (ReportService.get_top_students_report flip_db (Some 1) 10)
  = [(1, binary64 (53 # 100)); (2, binary64 (53 # 100))]
  /\ map TopStudentsReport.student_id
         (ReportService.get_top_students_report flip_db (Some 1) 1)
     = [1]
  /\ map (fun row => (TopStudentsReport.student_id row,
                      TopStudentsReport.participation_score row))
         (ReportService.get_top_students_report flip_db None 10)
     = [(3, (5 # 2)%Q); (1, binary64 (53 # 100)); (2, binary64 (53 # 100))].
Proof. repeat split; vm_compute; reflexivity. Qed.


(* ================================================================== *)
(** * Further properties of the services *)

(** ** Registration: errors and outcomes *)

(** X1. No operation of [EventService] ever answers with an
    [HTTPException], whatever the tables and the request: the 404 and 400
    errors written in [services.py] cannot be raised there, since the name
    is unbound, and a caller never receives one of them from a
    registration, a cancellation, an attendance marking or a feedback
    submission. *)
Theorem event_service_never_raises_http_exception
        (db : Session.t) (status_code : Z) (detail : string) :
  (forall now registration,
     EventService.register_student db now registration
     <> inl (HTTPException status_code detail))
  /\ (forall registration_id,
        EventService.cancel_registration db registration_id
        <> inl (HTTPException status_code detail))
  /\ (forall now attendance,
        EventService.mark_attendance db now attendance
        <> inl (HTTPException status_code detail))
  /\ (forall now feedback,
        EventService.submit_feedback db now feedback
        <> inl (HTTPException status_code detail)).
Proof.
  split; [| split; [| split]].
  - intros now registration. unfold EventService.register_student.
    destruct (student_by_id db _); [discriminate |].
    destruct (event_by_id db _) as [| ev evs]; [discriminate |].
    cbn [first_or_raise bind ret].
    destruct (Event.is_cancelled ev); [discriminate |].
    cbn [raise_if bind ret].
    destruct (Event.start_date ev <=? now); [discriminate |].
    cbn [bind ret].
    assert (Hnew : forall reg,
               add_registration db now reg
               <> inl (HTTPException status_code detail)).
    { intros reg. unfold add_registration.
      destruct (registrations_of_pair db _ _); discriminate. }
    destruct (first _) as [ex |]; [destruct (EventRegistration.status ex) |];
      try discriminate; apply Hnew.
  - intros rid. unfold EventService.cancel_registration.
    destruct (filter _ (Session.event_registrations db)) as [| r rs];
      [discriminate |].
    cbn [first_or_raise bind ret].
    destruct (RegistrationStatus_eqb _ _); [discriminate |].
    cbn [raise_if bind ret].
    destruct (first (event_by_id _ _)) as [ev |]; [| discriminate].
    destruct (truthy _); [| discriminate].
    destruct (first _); discriminate.
  - intros now attendance. unfold EventService.mark_attendance.
    destruct (student_by_id db _); [discriminate |].
    destruct (event_by_id db _); [discriminate |].
    destruct (filter _ (registrations_of_pair db _ _)); [discriminate |].
    cbn [first_or_raise bind ret].
    destruct (first _); [discriminate |].
    unfold EventService.add_attendance.
    destruct (attendance_of_pair db _ _); discriminate.
  - intros now feedback. unfold EventService.submit_feedback.
    destruct (student_by_id db _); [discriminate |].
    destruct (event_by_id db _); [discriminate |].
    destruct (attendance_of_pair db _ _); [discriminate |].
    cbn [first_or_raise bind ret].
    destruct (first _); [discriminate |].
    unfold EventService.add_feedback.
    destruct (feedback_of_pair db _ _); discriminate.
Qed.

Lemma registration_open_inv (db : Session.t) (now : Z)
      (registration : EventRegistrationCreate.t) :
  registration_open db now registration = true ->
  exists st sts ev evs,
    student_by_id db (EventRegistrationCreate.student_id registration) = st :: sts
    /\ event_by_id db (EventRegistrationCreate.event_id registration) = ev :: evs
    /\ Event.is_cancelled ev = false
    /\ now < Event.start_date ev.
Proof.
  unfold registration_open.
  destruct (student_by_id db _) as [| st sts]; [discriminate |].
  destruct (event_by_id db _) as [| ev evs]; [discriminate |].
  intros H. apply andb_true_iff in H. destruct H as [Hc Hs].
  apply negb_true_iff in Hc. apply Z.ltb_lt in Hs.
  exists st, sts, ev, evs. auto.
Qed.

(** What [register_student] does once the four checks have passed. *)
Lemma register_student_open (db : Session.t) (now : Z)
      (registration : EventRegistrationCreate.t) (ev : Event.t) :
  registration_open db now registration = true ->
  first (event_by_id db (EventRegistrationCreate.event_id registration))
  = Some ev ->
  EventService.register_student db now registration
  = match first (registrations_of_pair db
                   (EventRegistrationCreate.student_id registration)
                   (EventRegistrationCreate.event_id registration)) with
    | Some ex =>
        match EventRegistration.status ex with
        | REGISTERED =>
            inl (unbound_HTTPException HTTP_400_BAD_REQUEST
                   "Student is already registered for this event")
        | CANCELLED =>
            inr (update_registration (EventRegistration.id ex) (reopened now) db,
                 reopened now ex)
        | WAITLISTED => EventService.register_new db now ev registration
        end
    | None => EventService.register_new db now ev registration
    end.
Proof.
  intros Hopen Hev.
  destruct (registration_open_inv db now registration Hopen)
    as (st & sts & ev' & evs & Hs & He & Hc & Hstart).
  unfold EventService.register_student. rewrite Hs, He.
  unfold first in Hev. rewrite He in Hev. injection Hev as ->.
  cbn [first_or_raise bind ret]. rewrite Hc. cbn [raise_if bind ret].
  destruct (Z.leb_spec (Event.start_date ev) now); [lia |].
  cbn [bind]. reflexivity.
Qed.

(** X2. When the checks on the student and the event pass and the pair
    has a row that is not cancelled, [register_student] stores nothing:
    for a registered pair the refusal "already registered" of line 54
    raises [NameError], and a waitlisted pair reaches the insert and is
    rejected by the constraint [unique_registration]. *)
Theorem register_student_active_pair
        (db : Session.t) (now : Z) (registration : EventRegistrationCreate.t)
        (ex : EventRegistration.t) :
  registration_open db now registration = true ->
  first (registrations_of_pair db
           (EventRegistrationCreate.student_id registration)
           (EventRegistrationCreate.event_id registration)) = Some ex ->
  (EventRegistration.status ex = REGISTERED ->
   EventService.register_student db now registration
   = inl (NameError "HTTPException"))
  /\ (EventRegistration.status ex = WAITLISTED ->
      EventService.register_student db now registration
      = inl (IntegrityError "unique_registration"))
  /\ (EventRegistration.status ex <> CANCELLED ->
      after db (Register now registration) = db).
Proof.
  intros Hopen Hex.
  destruct (registration_open_inv db now registration Hopen)
    as (st & sts & ev & evs & Hs & He & Hc & Hstart).
  assert (Hev : first (event_by_id db
                         (EventRegistrationCreate.event_id registration))
                = Some ev) by now rewrite He.
  pose proof (register_student_open db now registration ev Hopen Hev) as Hrun.
  rewrite Hex in Hrun.
  assert (Hwait : EventRegistration.status ex = WAITLISTED ->
                  EventService.register_student db now registration
                  = inl (IntegrityError "unique_registration")).
  { intros Hst. rewrite Hrun, Hst.
    unfold EventService.register_new, add_registration.
    unfold first in Hex.
    destruct (truthy _); [destruct (at_least _ _) |];
      cbn [EventRegistrationCreate.student_id EventRegistrationCreate.event_id];
      destruct (registrations_of_pair db _ _); try discriminate; reflexivity. }
  split; [| split].
  - intros Hst. now rewrite Hrun, Hst.
  - exact Hwait.
  - intros Hst. rewrite after_register.
    destruct (EventRegistration.status ex) eqn:E; try congruence.
    + now rewrite Hrun.
    + now rewrite Hwait.
Qed.

Lemma register_student_active_pair_witness :
  EventService.register_student full_db 9 (request 1 1)
  = inl (NameError "HTTPException")
  /\ EventService.register_student full_db 9 (request 2 1)
     = inl (IntegrityError "unique_registration").
Proof.
  split.
  - apply (register_student_active_pair full_db 9 (request 1 1)
             (EventRegistration.mk 1 1 1 1 REGISTERED)); reflexivity.
  - apply (register_student_active_pair full_db 9 (request 2 1)
             (EventRegistration.mk 2 2 1 2 WAITLISTED)); reflexivity.
Defined.

(** X3. The first registration of a pair for an open event succeeds and
    appends one row with a key above every key of the table and the
    timestamp [now].  Its status is waitlisted when the capacity is not 0
    and the registered rows of the event have reached it; otherwise it is
    the status sent with the request, whatever the number of registered
    rows. *)
Theorem first_registration_outcome
        (db : Session.t) (now : Z) (registration : EventRegistrationCreate.t)
        (ev : Event.t) :
  registration_open db now registration = true ->
  first (event_by_id db (EventRegistrationCreate.event_id registration))
  = Some ev ->
  registrations_of_pair db
    (EventRegistrationCreate.student_id registration)
    (EventRegistrationCreate.event_id registration) = [] ->
  let st :=
    match Event.max_capacity ev with
    | Some cap =>
        if negb (cap =? 0)
           && (cap <=? registered_count db
                         (EventRegistrationCreate.event_id registration))
        then WAITLISTED
        else EventRegistrationCreate.status registration
    | None => EventRegistrationCreate.status registration
    end in
  let row :=
    EventRegistration.mk
      (fresh_id EventRegistration.id (Session.event_registrations db))
      (EventRegistrationCreate.student_id registration)
      (EventRegistrationCreate.event_id registration)
      now st in
  EventService.register_student db now registration
  = inr (Session.with_event_registrations
           (Session.event_registrations db ++ [row]) db, row)
  /\ Forall (fun r => EventRegistration.id r < EventRegistration.id row)
            (Session.event_registrations db).
Proof.
  intros Hopen Hev Hpair st row. split.
  - rewrite (register_student_open db now registration ev Hopen Hev), Hpair.
    cbn [first hd_error].
    unfold EventService.register_new, add_registration, row, st, registered_count.
    destruct (Event.max_capacity ev) as [cap |]; cbn [truthy at_least].
    + destruct (negb (cap =? 0)); cbn [andb].
      * destruct (cap <=? _);
          cbn [EventRegistrationCreate.student_id
               EventRegistrationCreate.event_id EventRegistrationCreate.status];
          now rewrite Hpair.
      * now rewrite Hpair.
    + now rewrite Hpair.
  - apply Forall_forall. intros r Hr. unfold row. cbn [EventRegistration.id].
    pose proof (max_id_upper EventRegistration.id _ r Hr). unfold fresh_id. lia.
Qed.

Lemma first_registration_outcome_witness :
  EventService.register_student
    (run campus [Register 1 (request 1 1)]) 2 (request 2 1)
  = inr (Session.with_event_registrations
           [EventRegistration.mk 1 1 1 1 REGISTERED;
            EventRegistration.mk 2 2 1 2 WAITLISTED]
           (run campus [Register 1 (request 1 1)]),
         EventRegistration.mk 2 2 1 2 WAITLISTED).
Proof.
  apply (first_registration_outcome
           (run campus [Register 1 (request 1 1)]) 2 (request 2 1)
           (sample_event 1 (Some 1))); reflexivity.
Defined.

Lemma capacity_kept_on_seat_safe_runs_witness :
  registered_count
    (run campus [Register 1 (request 1 1); Register 2 (request 2 1);
                 CancelRegistration 1; Register 3 (request 3 1);
                 MarkAttendance 4 (AttendanceCreate.mk 2 1 PRESENT None)])
    1 <= 1.
Proof.
  apply (capacity_kept_on_seat_safe_runs
           [Register 1 (request 1 1); Register 2 (request 2 1);
            CancelRegistration 1; Register 3 (request 3 1);
            MarkAttendance 4 (AttendanceCreate.mk 2 1 PRESENT None)]
           campus 1 (sample_event 1 (Some 1)) 1).
  - reflexivity.
  - reflexivity.
  - reflexivity.
  - discriminate.
  - reflexivity.
  - discriminate.
Defined.

(** ** Cancellation: errors, frame and repetition *)

Lemma first_or_raise_first {A} (l : list A) (e : Exception) (x : A) :
  first l = Some x -> first_or_raise l e = inr x.
Proof. destruct l; cbn; [discriminate | now intros [= ->]]. Qed.

Lemma cancel_sets_cancelled (db : Session.t) (rid : Z) (r : EventRegistration.t) :
  schema_ok db = true ->
  first (filter (fun x => EventRegistration.id x =? rid)
                (Session.event_registrations db)) = Some r ->
  EventRegistration.status r <> CANCELLED ->
  exists db', EventService.cancel_registration db rid = inr db'
              /\ status_of db' rid = Some CANCELLED.
Proof.
  intros Hok Hr Hst.
  assert (Hrin : In r (Session.event_registrations db)
                 /\ EventRegistration.id r = rid).
  { apply first_Some_In in Hr. apply filter_In in Hr.
    now rewrite Z.eqb_eq in Hr. }
  destruct Hrin as [Hrin Hrid].
  pose proof (proj1 (schema_ok_iff db) Hok) as [Hnd _].
  destruct (cancel_registration_outcome db rid r Hr Hst) as (db' & Hrun & Hregs).
  exists db'. split; [exact Hrun |]. rewrite <- Hrid.
  destruct Hregs as [Hregs | (p & Hp & _ & Hpid & Hregs)].
  - rewrite (status_of_map _ db db' r Hnd Hregs); [| | assumption].
    + rewrite Hrid, Z.eqb_refl. reflexivity.
    + intros y. destruct (_ =? _); reflexivity.
  - unfold cancelled_and_promoted in Hregs.
    rewrite (status_of_map _ db db' r Hnd Hregs); [| | assumption].
    + rewrite Hrid.
      destruct (Z.eqb_spec rid (EventRegistration.id p)); [congruence |].
      rewrite Z.eqb_refl. reflexivity.
    + intros y. destruct (_ =? EventRegistration.id p); [reflexivity |].
      destruct (_ =? rid); reflexivity.
Qed.

(** X5. A cancellation cannot be repeated.  The cancellation of a row
    that is already cancelled is refused (the refusal of line 97 raises
    [NameError]); so on a table with unique keys, right after a
    cancellation that succeeded, the same call is refused and leaves the
    tables as they are: in particular it promotes nobody a second time. *)
Theorem cancel_registration_errors (db : Session.t) (rid : Z) :
  (forall r,
     first (filter (fun x => EventRegistration.id x =? rid)
                   (Session.event_registrations db)) = Some r ->
     EventRegistration.status r = CANCELLED ->
     EventService.cancel_registration db rid = inl (NameError "HTTPException"))
  /\ (forall db',
        schema_ok db = true ->
        EventService.cancel_registration db rid = inr db' ->
        EventService.cancel_registration db' rid
        = inl (NameError "HTTPException")
        /\ after db' (CancelRegistration rid) = db').
Proof.
  assert (Hcancelled : forall d r,
             first (filter (fun x => EventRegistration.id x =? rid)
                           (Session.event_registrations d)) = Some r ->
             EventRegistration.status r = CANCELLED ->
             EventService.cancel_registration d rid
             = inl (NameError "HTTPException")).
  { intros d r Hr Hst. unfold EventService.cancel_registration.
    rewrite (first_or_raise_first _ _ r Hr). cbn [bind]. rewrite Hst.
    reflexivity. }
  split.
  - intros r. apply Hcancelled.
  - intros db' Hok Hrun.
    destruct (cancel_registration_inr db db' rid Hrun) as (r & Hr & Hst & _).
    destruct (cancel_sets_cancelled db rid r Hok Hr Hst) as (db'' & Hrun' & Hc).
    rewrite Hrun in Hrun'. injection Hrun' as <-.
    unfold status_of in Hc.
    destruct (first (filter _ (Session.event_registrations db'))) as [r' |] eqn:Hr';
      [| discriminate].
    cbn in Hc. injection Hc as Hc.
    assert (Hagain := Hcancelled db' r' Hr' Hc).
    split; [exact Hagain |]. unfold after, execute. now rewrite Hagain.
Qed.

Lemma cancel_registration_errors_witness :
  EventService.cancel_registration
    (after full_db (CancelRegistration 1)) 1
  = inl (NameError "HTTPException")
  /\ after (after full_db (CancelRegistration 1)) (CancelRegistration 1)
     = after full_db (CancelRegistration 1).
Proof.
  destruct (cancel_registration_errors full_db 1) as (_ & H).
  apply H; reflexivity.
Defined.

Lemma filter_map_fixed {A} (g : A -> bool) (F : A -> A) (l : list A) :
  (forall x, In x l -> g (F x) = g x) ->
  (forall x, In x l -> g x = true -> F x = x) ->
  filter g (map F l) = filter g l.
Proof.
  induction l as [| x l IH]; intros Hg HF; cbn; [reflexivity |].
  rewrite (Hg x) by now left.
  rewrite IH.
  - destruct (g x) eqn:E; [| reflexivity].
    rewrite (HF x); [reflexivity | now left | assumption].
  - intros y Hy. apply Hg. now right.
  - intros y Hy. apply HF. now right.
Qed.

(** X6. A cancellation that succeeds changes statuses only: the other
    tables are untouched, every registration keeps its key, student, event
    and timestamp (no row is added or deleted), and the registrations of
    every other event are left exactly as they were. *)
Theorem cancel_registration_frame (db db' : Session.t) (rid : Z) :
  schema_ok db = true ->
  EventService.cancel_registration db rid = inr db' ->
  exists r,
    first (filter (fun x => EventRegistration.id x =? rid)
                  (Session.event_registrations db)) = Some r
    /\ (Session.colleges db' = Session.colleges db
        /\ Session.students db' = Session.students db
        /\ Session.events db' = Session.events db
        /\ Session.attendance db' = Session.attendance db
        /\ Session.event_feedback db' = Session.event_feedback db)
    /\ map (fun x => (EventRegistration.id x, EventRegistration.student_id x,
                      EventRegistration.event_id x,
                      EventRegistration.registration_date x))
           (Session.event_registrations db')
       = map (fun x => (EventRegistration.id x, EventRegistration.student_id x,
                        EventRegistration.event_id x,
                        EventRegistration.registration_date x))
             (Session.event_registrations db)
    /\ filter (fun x => negb (EventRegistration.event_id x
                              =? EventRegistration.event_id r))
              (Session.event_registrations db')
       = filter (fun x => negb (EventRegistration.event_id x
                                =? EventRegistration.event_id r))
                (Session.event_registrations db).
Proof.
  intros Hok Hrun.
  destruct (cancel_registration_inr db db' rid Hrun) as (r & Hr & Hst & Hshape).
  exists r. split; [exact Hr |].
  split.
  { cbn zeta in Hshape. destruct Hshape as [-> | (w & ->)]; repeat split. }
  assert (Hrin : In r (Session.event_registrations db)
                 /\ EventRegistration.id r = rid).
  { apply first_Some_In in Hr. apply filter_In in Hr.
    now rewrite Z.eqb_eq in Hr. }
  destruct Hrin as [Hrin Hrid].
  pose proof (proj1 (schema_ok_iff db) Hok) as [Hnd _].
  destruct (cancel_registration_outcome db rid r Hr Hst) as (db'' & Hrun' & Hregs).
  rewrite Hrun in Hrun'. injection Hrun' as <-.
  assert (Hsame : forall x, In x (Session.event_registrations db) ->
                    EventRegistration.id x = rid -> x = r).
  { intros x Hx Hid.
    apply (NoDup_key_inj EventRegistration.id _ x r Hnd Hx Hrin). congruence. }
  destruct Hregs as [-> | (p & Hp & [Hpe Hps] & Hpid & ->)].
  - split.
    + rewrite map_map. apply map_ext. intros x.
      destruct (_ =? rid); reflexivity.
    + apply filter_map_fixed.
      * intros x _. destruct (_ =? rid); reflexivity.
      * intros x Hx Hg.
        destruct (Z.eqb_spec (EventRegistration.id x) rid) as [E | E];
          [| reflexivity].
        rewrite (Hsame x Hx E), Z.eqb_refl in Hg. discriminate.
  - unfold cancelled_and_promoted. split.
    + rewrite map_map. apply map_ext. intros x.
      destruct (_ =? EventRegistration.id p); [reflexivity |].
      destruct (_ =? rid); reflexivity.
    + apply filter_map_fixed.
      * intros x _. destruct (_ =? EventRegistration.id p); [reflexivity |].
        destruct (_ =? rid); reflexivity.
      * intros x Hx Hg.
        destruct (Z.eqb_spec (EventRegistration.id x) (EventRegistration.id p))
          as [E | E].
        { rewrite (NoDup_key_inj EventRegistration.id _ x p Hnd Hx Hp E),
            Hpe, Z.eqb_refl in Hg. discriminate. }
        destruct (Z.eqb_spec (EventRegistration.id x) rid) as [E' | E'];
          [| reflexivity].
        rewrite (Hsame x Hx E'), Z.eqb_refl in Hg. discriminate.
Qed.

Lemma cancel_registration_frame_witness :
  exists r,
    first (filter (fun x => EventRegistration.id x =? 1)
                  (Session.event_registrations full_db)) = Some r
    /\ map EventRegistration.id
           (Session.event_registrations (after full_db (CancelRegistration 1)))
       = [1; 2; 3].
Proof.
  destruct (cancel_registration_frame full_db
              (after full_db (CancelRegistration 1)) 1)
    as (r & Hr & _ & _ & _); [reflexivity | reflexivity |].
  exists r. split; [exact Hr | reflexivity].
Defined.

(** X7. For an event without capacity (none declared, a declared 0, or an
    event row that is missing) a cancellation never promotes: it sets the
    cancelled row to cancelled and nothing else, and the waitlist of the
    event loses at most that row. *)
Theorem cancel_without_capacity
        (db : Session.t) (rid : Z) (r : EventRegistration.t) :
  first (filter (fun x => EventRegistration.id x =? rid)
                (Session.event_registrations db)) = Some r ->
  EventRegistration.status r <> CANCELLED ->
  match first (event_by_id db (EventRegistration.event_id r)) with
  | Some ev => Event.max_capacity ev = None \/ Event.max_capacity ev = Some 0
  | None => True
  end ->
  let db' := update_registration rid (EventRegistration.set_status CANCELLED) db in
  EventService.cancel_registration db rid = inr db'
  /\ registrations_with_status db' (EventRegistration.event_id r) WAITLISTED
     = filter (fun x => negb (EventRegistration.id x =? rid))
              (registrations_with_status db (EventRegistration.event_id r)
                                         WAITLISTED).
Proof.
  intros Hr Hst Hcap db'. split.
  - assert (Hrid : EventRegistration.id r = rid).
    { apply first_Some_In in Hr. apply filter_In in Hr.
      now rewrite Z.eqb_eq in Hr. }
    unfold EventService.cancel_registration.
    rewrite (first_or_raise_first _ _ r Hr). cbn [bind].
    assert (Hraise : raise_if (RegistrationStatus_eqb
                                 (EventRegistration.status r) CANCELLED)
                       (unbound_HTTPException HTTP_400_BAD_REQUEST
                          "Registration is already cancelled") = inr tt).
    { destruct (EventRegistration.status r); try reflexivity. congruence. }
    rewrite Hraise, Hrid. cbn [bind].
    change (event_by_id (update_registration rid
                           (EventRegistration.set_status CANCELLED) db)
                        (EventRegistration.event_id r))
      with (event_by_id db (EventRegistration.event_id r)).
    destruct (first (event_by_id db _)) as [ev |]; [| reflexivity].
    destruct Hcap as [-> | ->]; reflexivity.
  - unfold db'. rewrite waitlisted_after_cancel.
    unfold registrations_with_status. apply filter_andb.
Qed.

Lemma cancel_without_capacity_witness :
  EventService.cancel_registration zero_capacity_db 1
  = inr (update_registration 1 (EventRegistration.set_status CANCELLED)
           zero_capacity_db).
Proof.
  apply (cancel_without_capacity zero_capacity_db 1
           (EventRegistration.mk 1 1 2 1 REGISTERED)).
  - reflexivity.
  - discriminate.
  - right. reflexivity.
Defined.

(** ** The activity gate: shapes, errors and repetition *)

Lemma mark_attendance_inr (db db' : Session.t) (now : Z)
      (attendance : AttendanceCreate.t) (row : Attendance.t) :
  EventService.mark_attendance db now attendance = inr (db', row) ->
  student_by_id db (AttendanceCreate.student_id attendance) <> []
  /\ event_by_id db (AttendanceCreate.event_id attendance) <> []
  /\ filter (fun r => RegistrationStatus_eqb (EventRegistration.status r) REGISTERED)
            (registrations_of_pair db
               (AttendanceCreate.student_id attendance)
               (AttendanceCreate.event_id attendance)) <> []
  /\ attendance_of_pair db (AttendanceCreate.student_id attendance)
                        (AttendanceCreate.event_id attendance) = []
  /\ row = Attendance.mk
             (fresh_id Attendance.id (Session.attendance db))
             (AttendanceCreate.student_id attendance)
             (AttendanceCreate.event_id attendance)
             now
             (AttendanceCreate.check_out_time attendance)
             (AttendanceCreate.attendance_status attendance)
  /\ db' = Session.with_attendance (Session.attendance db ++ [row]) db.
Proof.
  unfold EventService.mark_attendance. intros H.
  destruct (student_by_id db _) as [| st sts]; [discriminate |].
  destruct (event_by_id db _) as [| ev evs]; [discriminate |].
  destruct (filter _ (registrations_of_pair db _ _)) as [| r rs];
    [discriminate |].
  cbn [first_or_raise bind ret] in H.
  unfold EventService.add_attendance in H.
  destruct (attendance_of_pair db _ _) as [| a ats]; [| discriminate].
  cbn [first hd_error] in H. injection H as <- <-.
  repeat split; congruence.
Qed.

Lemma submit_feedback_inr (db db' : Session.t) (now s e rating : Z)
      (text : option string) (row : EventFeedback.t) :
  main.submit_feedback db now s e rating text = inr (db', row) ->
  1 <= rating <= 5
  /\ student_by_id db s <> []
  /\ event_by_id db e <> []
  /\ attendance_of_pair db s e <> []
  /\ feedback_of_pair db s e = []
  /\ row = EventFeedback.mk
             (fresh_id EventFeedback.id (Session.event_feedback db))
             s e rating text now
  /\ db' = Session.with_event_feedback (Session.event_feedback db ++ [row]) db.
Proof.
  unfold main.submit_feedback, new_EventFeedbackCreate, validate_rating.
  intros H.
  destruct (Z.ltb_spec rating 1); [discriminate |].
  destruct (Z.ltb_spec 5 rating); [discriminate |].
  cbn [orb bind ret] in H. unfold EventService.submit_feedback in H.
  cbn [EventFeedbackCreate.student_id EventFeedbackCreate.event_id] in H.
  destruct (student_by_id db s) as [| st sts]; [discriminate |].
  destruct (event_by_id db e) as [| ev evs]; [discriminate |].
  destruct (attendance_of_pair db s e) as [| a ats]; [discriminate |].
  cbn [first_or_raise bind ret] in H.
  unfold EventService.add_feedback in H.
  cbn [EventFeedbackCreate.student_id EventFeedbackCreate.event_id
       EventFeedbackCreate.rating EventFeedbackCreate.feedback_text] in H.
  destruct (feedback_of_pair db s e) as [| f fs]; [| discriminate].
  cbn [first hd_error] in H. injection H as <- <-.
  repeat split; try congruence; lia.
Qed.

(** X9. [POST /feedback] fails with the validation error of the request
    model exactly when the rating is below 1 or above 5, whatever the
    tables hold and whoever the student and the event are. *)
Theorem feedback_validation_iff
        (db : Session.t) (now s e rating : Z) (text : option string) :
  main.submit_feedback db now s e rating text
  = inl (ValidationError ["Rating must be between 1 and 5"%string])
  <-> rating < 1 \/ 5 < rating.
Proof.
  unfold main.submit_feedback, new_EventFeedbackCreate, validate_rating.
  destruct (Z.ltb_spec rating 1); [split; [auto | reflexivity] |].
  destruct (Z.ltb_spec 5 rating); [split; [auto | reflexivity] |].
  cbn [orb bind ret]. split; [| lia].
  unfold EventService.submit_feedback.
  destruct (student_by_id db _); [discriminate |].
  destruct (event_by_id db _); [discriminate |].
  destruct (attendance_of_pair db _ _); [discriminate |].
  cbn [first_or_raise bind ret].
  destruct (first _); [discriminate |].
  unfold EventService.add_feedback.
  destruct (feedback_of_pair db _ _); discriminate.
Qed.

(** ** Tables a command leaves alone *)

Lemma after_mark_attendance (db : Session.t) (now : Z)
      (attendance : AttendanceCreate.t) :
  after db (MarkAttendance now attendance)
  = match EventService.mark_attendance db now attendance with
    | inr r => fst r
    | inl _ => db
    end.
Proof.
  unfold after, execute, bind.
  destruct (EventService.mark_attendance db now attendance); reflexivity.
Qed.

Lemma after_submit_feedback (db : Session.t) (now s e rating : Z)
      (text : option string) :
  after db (SubmitFeedback now s e rating text)
  = match main.submit_feedback db now s e rating text with
    | inr r => fst r
    | inl _ => db
    end.
Proof.
  unfold after, execute, bind.
  destruct (main.submit_feedback db now s e rating text); reflexivity.
Qed.

Lemma after_registration_command (db : Session.t) (c : Command) :
  match c with
  | Register _ _ | CancelRegistration _ =>
      Session.attendance (after db c) = Session.attendance db
      /\ Session.event_feedback (after db c) = Session.event_feedback db
  | _ => True
  end.
Proof.
  destruct c as [now reg | rid | now att | now s e rating text]; try exact I.
  - rewrite after_register.
    destruct (EventService.register_student db now reg) as [| [db' row]] eqn:H;
      [auto |].
    apply register_student_inr in H.
    destruct H as [(ex & _ & _ & -> & _) | (reg' & Hadd & _)]; [auto |].
    unfold add_registration in Hadd.
    destruct (registrations_of_pair db _ _); [| discriminate].
    injection Hadd as <- _. auto.
  - unfold after, execute.
    destruct (EventService.cancel_registration db rid) as [| db'] eqn:H;
      [auto |].
    apply cancel_registration_inr in H.
    destruct H as (r & _ & _ & [-> | (w & ->)]); auto.
Qed.

Lemma after_people (db : Session.t) (c : Command) :
  Session.colleges (after db c) = Session.colleges db
  /\ Session.students (after db c) = Session.students db.
Proof.
  destruct c as [now reg | rid | now att | now s e rating text].
  - rewrite after_register.
    destruct (EventService.register_student db now reg) as [| [db' row]] eqn:H;
      [auto |].
    apply register_student_inr in H.
    destruct H as [(ex & _ & _ & -> & _) | (reg' & Hadd & _)]; [auto |].
    unfold add_registration in Hadd.
    destruct (registrations_of_pair db _ _); [| discriminate].
    injection Hadd as <- _. auto.
  - unfold after, execute.
    destruct (EventService.cancel_registration db rid) as [| db'] eqn:H;
      [auto |].
    apply cancel_registration_inr in H.
    destruct H as (r & _ & _ & [-> | (w & ->)]); auto.
  - rewrite after_mark_attendance.
    destruct (EventService.mark_attendance db now att) as [| [db' row]] eqn:H;
      [auto |].
    apply mark_attendance_inr in H. destruct H as (_ & _ & _ & _ & _ & ->). auto.
  - rewrite after_submit_feedback.
    destruct (main.submit_feedback db now s e rating text) as [| [db' row]] eqn:H;
      [auto |].
    apply submit_feedback_inr in H. destruct H as (_ & _ & _ & _ & _ & _ & ->).
    auto.
Qed.

Lemma submit_feedback_ok (db : Session.t) (now s e rating : Z)
      (text : option string) :
  1 <= rating <= 5 ->
  student_by_id db s <> [] ->
  event_by_id db e <> [] ->
  attendance_of_pair db s e <> [] ->
  feedback_of_pair db s e = [] ->
  let row := EventFeedback.mk
               (fresh_id EventFeedback.id (Session.event_feedback db))
               s e rating text now in
  main.submit_feedback db now s e rating text
  = inr (Session.with_event_feedback (Session.event_feedback db ++ [row]) db, row).
Proof.
  intros Hr Hs He Ha Hf row.
  unfold main.submit_feedback, new_EventFeedbackCreate, validate_rating.
  destruct (Z.ltb_spec rating 1); [lia |].
  destruct (Z.ltb_spec 5 rating); [lia |].
  cbn [orb bind ret]. unfold EventService.submit_feedback.
  cbn [EventFeedbackCreate.student_id EventFeedbackCreate.event_id].
  destruct (student_by_id db s); [congruence |].
  destruct (event_by_id db e); [congruence |].
  destruct (attendance_of_pair db s e); [congruence |].
  cbn [first_or_raise bind ret]. rewrite Hf. cbn [first hd_error].
  unfold EventService.add_feedback.
  cbn [EventFeedbackCreate.student_id EventFeedbackCreate.event_id
       EventFeedbackCreate.rating EventFeedbackCreate.feedback_text].
  now rewrite Hf.
Qed.

Lemma after_activity_incl (db : Session.t) (c : Command) :
  incl (Session.attendance db) (Session.attendance (after db c))
  /\ incl (Session.event_feedback db) (Session.event_feedback (after db c)).
Proof.
  destruct c as [now reg | rid | now att | now s e rating text].
  - destruct (after_registration_command db (Register now reg)) as [-> ->].
    split; apply incl_refl.
  - destruct (after_registration_command db (CancelRegistration rid)) as [-> ->].
    split; apply incl_refl.
  - rewrite after_mark_attendance.
    destruct (EventService.mark_attendance db now att) as [| [db' row]] eqn:H;
      [split; apply incl_refl |].
    apply mark_attendance_inr in H. destruct H as (_ & _ & _ & _ & _ & ->).
    cbn. split; [apply incl_appl |]; apply incl_refl.
  - rewrite after_submit_feedback.
    destruct (main.submit_feedback db now s e rating text) as [| [db' row]] eqn:H;
      [split; apply incl_refl |].
    apply submit_feedback_inr in H. destruct H as (_ & _ & _ & _ & _ & _ & ->).
    cbn. split; [| apply incl_appl]; apply incl_refl.
Qed.

(** Along a run the students and the events stay as they are, and no
    attendance or feedback row is removed or changed. *)
Lemma run_keeps (cs : list Command) (db : Session.t) :
  Session.students (run db cs) = Session.students db
  /\ Session.events (run db cs) = Session.events db
  /\ incl (Session.attendance db) (Session.attendance (run db cs))
  /\ incl (Session.event_feedback db) (Session.event_feedback (run db cs)).
Proof.
  revert db. induction cs as [| c cs IH]; intros db.
  - repeat split; apply incl_refl.
  - cbn [run fold_left]. fold (run (after db c) cs).
    destruct (IH (after db c)) as (Hs & He & Ha & Hf).
    destruct (after_people db c) as [_ Hs'].
    pose proof (after_events db c) as He'.
    destruct (after_activity_incl db c) as [Ha' Hf'].
    rewrite Hs, He, Hs', He'. repeat split.
    + exact (incl_tran Ha' Ha).
    + exact (incl_tran Hf' Hf).
Qed.

(** X8. An attendance row is never replaced.  Once [mark_attendance] has
    succeeded for a pair, every later call for the pair is refused,
    whatever status or time is sent and whatever commands ran in between
    (the refusals of lines 146 and 158 raise [NameError]); it stores
    nothing, and the row first stored is still in the table. *)
Theorem mark_attendance_errors
        (db db' : Session.t) (now : Z) (attendance : AttendanceCreate.t)
        (row : Attendance.t) :
  EventService.mark_attendance db now attendance = inr (db', row) ->
  forall (cs : list Command) (now' : Z) (status' : AttendanceStatus)
         (check_out' : option Z),
    let later := run db' cs in
    let again := AttendanceCreate.mk (AttendanceCreate.student_id attendance)
                                     (AttendanceCreate.event_id attendance)
                                     status' check_out' in
    EventService.mark_attendance later now' again
    = inl (NameError "HTTPException")
    /\ after later (MarkAttendance now' again) = later
    /\ In row (Session.attendance later).
Proof.
  intros Hrun cs now' status' co' later again.
  destruct (mark_attendance_inr db db' now attendance row Hrun)
    as (Hs & He & _ & _ & Hrow & Hdb').
  destruct (run_keeps cs db') as (Hst & Hev & Hatt & _). fold later in Hst, Hev, Hatt.
  assert (Hin : In row (Session.attendance later)).
  { apply Hatt. rewrite Hdb'. cbn. apply in_or_app. right. now left. }
  assert (Hagain : EventService.mark_attendance later now' again
                   = inl (NameError "HTTPException")).
  { unfold EventService.mark_attendance, again.
    cbn [AttendanceCreate.student_id AttendanceCreate.event_id].
    unfold student_by_id, event_by_id in *. rewrite Hst, Hev, Hdb'.
    cbn [Session.students Session.events Session.with_attendance].
    destruct (filter _ (Session.students db)); [congruence |].
    destruct (filter _ (Session.events db)); [congruence |].
    destruct (filter _ (registrations_of_pair later _ _)); [reflexivity |].
    cbn [first_or_raise bind ret].
    assert (Hpair : In row (attendance_of_pair later
                              (AttendanceCreate.student_id attendance)
                              (AttendanceCreate.event_id attendance))).
    { unfold attendance_of_pair. apply filter_In. split; [exact Hin |].
      rewrite Hrow. cbn. now rewrite !Z.eqb_refl. }
    destruct (attendance_of_pair later _ _); [destruct Hpair | reflexivity]. }
  split; [exact Hagain |]. split; [| exact Hin].
  unfold after, execute. now rewrite Hagain.
Qed.

(** Student 1 is marked late in [full_db]; after a cancellation and a new
    registration of the student, marking the student present is refused. *)
Lemma mark_attendance_errors_witness :
  EventService.mark_attendance
    (run attended_db [CancelRegistration 1; Register 7 (request 1 1)]) 8
    (AttendanceCreate.mk 1 1 PRESENT (Some 9))
  = inl (NameError "HTTPException")
  /\ In (Attendance.mk 1 1 1 5 None LATE)
        (Session.attendance
           (run attended_db [CancelRegistration 1; Register 7 (request 1 1)])).
Proof.
  destruct (mark_attendance_errors full_db attended_db 5
              (AttendanceCreate.mk 1 1 LATE None)
              (Attendance.mk 1 1 1 5 None LATE) eq_refl
              [CancelRegistration 1; Register 7 (request 1 1)]
              8 PRESENT (Some 9)) as (H1 & _ & H3).
  split; [exact H1 | exact H3].
Defined.

(** X10. Feedback needs an attendance row and is given once.  With a
    rating from 1 to 5 and an existing student and event, [POST /feedback]
    is refused when the pair has no attendance row; and after a submission
    that succeeded, every later submission for the pair is refused,
    whatever commands ran in between, stores nothing and leaves the row
    first stored in the table.  The refusals of lines 195 and 207 raise
    [NameError]. *)
Theorem submit_feedback_errors
        (db : Session.t) (now s e rating : Z) (text : option string) :
  1 <= rating <= 5 ->
  student_by_id db s <> [] ->
  event_by_id db e <> [] ->
  (attendance_of_pair db s e = [] ->
   main.submit_feedback db now s e rating text
   = inl (NameError "HTTPException"))
  /\ (forall db' row cs now' rating' text',
        main.submit_feedback db now s e rating text = inr (db', row) ->
        1 <= rating' <= 5 ->
        let later := run db' cs in
        main.submit_feedback later now' s e rating' text'
        = inl (NameError "HTTPException")
        /\ after later (SubmitFeedback now' s e rating' text') = later
        /\ In row (Session.event_feedback later)).
Proof.
  intros Hr Hs He.
  assert (Hgen : forall d rating0 now0 text0,
             1 <= rating0 <= 5 ->
             student_by_id d s <> [] -> event_by_id d e <> [] ->
             main.submit_feedback d now0 s e rating0 text0
             = match attendance_of_pair d s e with
               | [] => inl (NameError "HTTPException")
               | _ :: _ =>
                   match feedback_of_pair d s e with
                   | [] => EventService.add_feedback d now0
                             (EventFeedbackCreate.mk s e rating0 text0)
                   | _ :: _ => inl (NameError "HTTPException")
                   end
               end).
  { intros d rating0 now0 text0 Hr0 Hs0 He0.
    unfold main.submit_feedback, new_EventFeedbackCreate, validate_rating.
    destruct (Z.ltb_spec rating0 1); [lia |].
    destruct (Z.ltb_spec 5 rating0); [lia |].
    cbn [orb bind ret]. unfold EventService.submit_feedback.
    cbn [EventFeedbackCreate.student_id EventFeedbackCreate.event_id].
    destruct (student_by_id d s); [congruence |].
    destruct (event_by_id d e); [congruence |].
    destruct (attendance_of_pair d s e); [reflexivity |].
    cbn [first_or_raise bind ret].
    destruct (feedback_of_pair d s e); reflexivity. }
  split.
  - intros Ha. now rewrite Hgen, Ha.
  - intros db' row cs now' rating' text' Hrun Hr' later.
    destruct (submit_feedback_inr db db' now s e rating text row Hrun)
      as (_ & _ & _ & Ha & _ & Hrow & Hdb').
    destruct (run_keeps cs db') as (Hst & Hev & Hatt & Hfb).
    fold later in Hst, Hev, Hatt, Hfb.
    assert (Hin : In row (Session.event_feedback later)).
    { apply Hfb. rewrite Hdb'. cbn. apply in_or_app. right. now left. }
    assert (Hagain : main.submit_feedback later now' s e rating' text'
                     = inl (NameError "HTTPException")).
    { rewrite Hgen; try assumption.
      - assert (Hpa : attendance_of_pair later s e <> []).
        { destruct (attendance_of_pair db s e) as [| a ats] eqn:Hpa;
            [congruence |].
          assert (Hain : In a (attendance_of_pair db s e))
            by (rewrite Hpa; now left).
          unfold attendance_of_pair in Hain. apply filter_In in Hain.
          destruct Hain as [Hain Hp].
          assert (Hl : In a (attendance_of_pair later s e)).
          { unfold attendance_of_pair. apply filter_In. split; [| exact Hp].
            apply Hatt. now rewrite Hdb'. }
          intros E. rewrite E in Hl. destruct Hl. }
        destruct (attendance_of_pair later s e); [congruence |].
        assert (Hpf : In row (feedback_of_pair later s e)).
        { unfold feedback_of_pair. apply filter_In. split; [exact Hin |].
          rewrite Hrow. cbn. now rewrite !Z.eqb_refl. }
        destruct (feedback_of_pair later s e); [destruct Hpf | reflexivity].
      - unfold student_by_id in *. rewrite Hst, Hdb'. exact Hs.
      - unfold event_by_id in *. rewrite Hev, Hdb'. exact He. }
    split; [exact Hagain |]. split; [| exact Hin].
    unfold after, execute. now rewrite Hagain.
Qed.

Lemma submit_feedback_errors_witness :
  main.submit_feedback full_db 6 1 1 3 None = inl (NameError "HTTPException")
  /\ main.submit_feedback
       (run (after attended_db (SubmitFeedback 6 1 1 5 None))
            [CancelRegistration 1])
       7 1 1 4 None
     = inl (NameError "HTTPException").
Proof.
  split.
  - apply (submit_feedback_errors full_db 6 1 1 3 None);
      [lia | discriminate | discriminate | reflexivity].
  - destruct (submit_feedback_errors attended_db 6 1 1 5 None)
      as (_ & H); [lia | discriminate | discriminate |].
    destruct (H (after attended_db (SubmitFeedback 6 1 1 5 None))
                (EventFeedback.mk 1 1 1 5 None 6) [CancelRegistration 1]
                7 4 None eq_refl) as (H1 & _); [lia | exact H1].
Defined.

(** X11. Feedback does not depend on the registration: a submission that
    succeeds succeeds as well, and stores the same row, after any
    registration of the tables was cancelled (the attendance row is what
    counts). *)
Theorem feedback_survives_cancellation
        (db db1 : Session.t) (now s e rating rid : Z) (text : option string)
        (row : EventFeedback.t) :
  main.submit_feedback db now s e rating text = inr (db1, row) ->
  exists db2,
    main.submit_feedback (after db (CancelRegistration rid)) now s e rating text
    = inr (db2, row)
    /\ Session.event_feedback db2 = Session.event_feedback db1.
Proof.
  intros Hrun.
  destruct (submit_feedback_inr db db1 now s e rating text row Hrun)
    as (Hr & Hs & He & Ha & Hf & Hrow & ->).
  set (dbc := after db (CancelRegistration rid)).
  pose proof (after_registration_command db (CancelRegistration rid)) as [Hatt Hfb].
  pose proof (after_people db (CancelRegistration rid)) as [_ Hst].
  pose proof (after_events db (CancelRegistration rid)) as Hev.
  fold dbc in Hatt, Hfb, Hst, Hev.
  pose proof (submit_feedback_ok dbc now s e rating text Hr) as Hok.
  unfold student_by_id, event_by_id, attendance_of_pair, feedback_of_pair in *.
  rewrite Hst, Hev, Hatt, Hfb in Hok.
  specialize (Hok Hs He Ha Hf). cbn zeta in Hok.
  eexists. split.
  - rewrite Hok, <- Hrow. reflexivity.
  - reflexivity.
Qed.

Lemma feedback_survives_cancellation_witness :
  exists db2,
    main.submit_feedback (after attended_db (CancelRegistration 1)) 6 1 1 5 None
    = inr (db2, EventFeedback.mk 1 1 1 5 None 6)
    /\ Session.event_feedback db2 = [EventFeedback.mk 1 1 1 5 None 6].
Proof.
  apply (feedback_survives_cancellation attended_db
           (after attended_db (SubmitFeedback 6 1 1 5 None)) 6 1 1 5 1 None).
  reflexivity.
Defined.

(** X12. Right after the registration of a pair was cancelled, attendance
    cannot be marked for the pair: [mark_attendance] stores nothing.  The
    refusal "Student is not registered for this event" of line 146 raises
    [NameError]. *)
Theorem cancellation_blocks_attendance
        (db db' : Session.t) (rid now : Z) (r : EventRegistration.t)
        (st : AttendanceStatus) (check_out : option Z) :
  schema_ok db = true ->
  first (filter (fun x => EventRegistration.id x =? rid)
                (Session.event_registrations db)) = Some r ->
  EventService.cancel_registration db rid = inr db' ->
  student_by_id db (EventRegistration.student_id r) <> [] ->
  event_by_id db (EventRegistration.event_id r) <> [] ->
  EventService.mark_attendance db' now
    (AttendanceCreate.mk (EventRegistration.student_id r)
                         (EventRegistration.event_id r) st check_out)
  = inl (NameError "HTTPException")
  /\ after db' (MarkAttendance now
                  (AttendanceCreate.mk (EventRegistration.student_id r)
                                       (EventRegistration.event_id r)
                                       st check_out)) = db'.
Proof.
  intros Hok Hr Hrun Hs He.
  assert (Hgoal :
            EventService.mark_attendance db' now
              (AttendanceCreate.mk (EventRegistration.student_id r)
                                   (EventRegistration.event_id r) st check_out)
            = inl (NameError "HTTPException"));
    [| split; [exact Hgoal | unfold after, execute; now rewrite Hgoal]].
  destruct (cancel_registration_inr db db' rid Hrun) as (r' & Hr' & Hst & _).
  rewrite Hr in Hr'. injection Hr' as <-.
  assert (Hrin : In r (Session.event_registrations db)
                 /\ EventRegistration.id r = rid).
  { apply first_Some_In in Hr. apply filter_In in Hr.
    now rewrite Z.eqb_eq in Hr. }
  destruct Hrin as [Hrin Hrid].
  pose proof (proj1 (schema_ok_iff db) Hok) as [Hnd Hndp].
  destruct (cancel_registration_outcome db rid r Hr Hst) as (db'' & Hrun' & Hregs).
  rewrite Hrun in Hrun'. injection Hrun' as <-.
  pose proof (after_people db (CancelRegistration rid)) as [_ Hstu].
  pose proof (after_events db (CancelRegistration rid)) as Hev.
  unfold after, execute in Hstu, Hev. rewrite Hrun in Hstu, Hev.
  unfold EventService.mark_attendance.
  cbn [AttendanceCreate.student_id AttendanceCreate.event_id].
  unfold student_by_id, event_by_id in *. rewrite Hstu, Hev.
  destruct (filter _ (Session.students db)); [congruence |].
  destruct (filter _ (Session.events db)); [congruence |].
  cbn [first_or_raise bind ret].
  rewrite filter_nil; [reflexivity |].
  intros x' Hx'. apply registrations_of_pair_In in Hx'. destruct Hx' as [Hx' Hp].
  assert (Hcases :
            exists F, Session.event_registrations db'
                      = map F (Session.event_registrations db)
                      /\ (forall y, registration_pair (F y) = registration_pair y)
                      /\ EventRegistration.status (F r) = CANCELLED).
  { destruct Hregs as [Hregs | (p & Hp' & _ & Hpid & Hregs)].
    - eexists. split; [exact Hregs |]. split.
      + intros y. destruct (_ =? rid); reflexivity.
      + now rewrite Hrid, Z.eqb_refl.
    - eexists. split; [exact Hregs |]. split.
      + intros y. destruct (_ =? EventRegistration.id p); [reflexivity |].
        destruct (_ =? rid); reflexivity.
      + rewrite Hrid.
        destruct (Z.eqb_spec rid (EventRegistration.id p)); [congruence |].
        now rewrite Z.eqb_refl. }
  destruct Hcases as (F & HF & HFp & HFr).
  rewrite HF in Hx'. apply in_map_iff in Hx'. destruct Hx' as (x & <- & Hx).
  assert (x = r).
  { apply (NoDup_key_inj registration_pair _ x r Hndp Hx Hrin).
    rewrite <- HFp, Hp. reflexivity. }
  subst x. now rewrite HFr.
Qed.

Lemma cancellation_blocks_attendance_witness :
  EventService.mark_attendance (after full_db (CancelRegistration 1)) 5
    (AttendanceCreate.mk 1 1 PRESENT None)
  = inl (NameError "HTTPException").
Proof.
  apply (cancellation_blocks_attendance full_db
           (after full_db (CancelRegistration 1)) 1 5
           (EventRegistration.mk 1 1 1 1 REGISTERED) PRESENT None);
    [reflexivity | reflexivity | reflexivity | discriminate | discriminate].
Defined.

(** ** Invariants of the stored tables along runs *)

Lemma gate_ok_iff (db : Session.t) :
  gate_ok db = true
  <-> NoDup (map attendance_pair (Session.attendance db))
      /\ NoDup (map feedback_pair (Session.event_feedback db))
      /\ Forall (fun f => 1 <= EventFeedback.rating f <= 5)
                (Session.event_feedback db).
Proof.
  unfold gate_ok. rewrite !andb_true_iff.
  rewrite !(distinct_NoDup pair_eqb _ pair_eqb_eq).
  rewrite forallb_forall, Forall_forall.
  assert (Hr : (forall f, In f (Session.event_feedback db) ->
                          rating_in_range f = true)
               <-> (forall f, In f (Session.event_feedback db) ->
                              1 <= EventFeedback.rating f <= 5)).
  { unfold rating_in_range.
    split; intros H f Hf; specialize (H f Hf);
      rewrite andb_true_iff, !Z.leb_le in *; assumption. }
  rewrite Hr. tauto.
Qed.

Lemma NoDup_snoc {K} (l : list K) (k : K) :
  NoDup l -> ~ In k l -> NoDup (l ++ [k]).
Proof.
  intros Hnd Hk. apply Permutation_NoDup with (k :: l).
  - apply Permutation_cons_append.
  - now constructor.
Qed.

Lemma after_gate_ok (db : Session.t) (c : Command) :
  gate_ok db = true -> gate_ok (after db c) = true.
Proof.
  intros Hok. destruct c as [now reg | rid | now att | now s e rating text].
  - pose proof (after_registration_command db (Register now reg)) as [Ha Hf].
    unfold gate_ok in *. now rewrite Ha, Hf.
  - pose proof (after_registration_command db (CancelRegistration rid)) as [Ha Hf].
    unfold gate_ok in *. now rewrite Ha, Hf.
  - rewrite after_mark_attendance.
    destruct (EventService.mark_attendance db now att) as [| [db' row]] eqn:H;
      [assumption |].
    apply mark_attendance_inr in H.
    destruct H as (_ & _ & _ & Hnone & Hrow & ->). cbn [fst].
    apply gate_ok_iff in Hok. destruct Hok as (Hna & Hnf & Hr).
    apply gate_ok_iff. cbn. split; [| auto].
    rewrite map_app. cbn. apply NoDup_snoc; [assumption |].
    intros Hin. apply in_map_iff in Hin. destruct Hin as (a & Ha & Hin).
    assert (Hm : In a (attendance_of_pair db (AttendanceCreate.student_id att)
                                          (AttendanceCreate.event_id att))).
    { unfold attendance_of_pair. apply filter_In. split; [assumption |].
      rewrite Hrow in Ha. unfold attendance_pair in Ha. cbn in Ha.
      injection Ha as -> ->. now rewrite !Z.eqb_refl. }
    rewrite Hnone in Hm. destruct Hm.
  - rewrite after_submit_feedback.
    destruct (main.submit_feedback db now s e rating text) as [| [db' row]] eqn:H;
      [assumption |].
    apply submit_feedback_inr in H.
    destruct H as (Hrange & _ & _ & _ & Hnone & Hrow & ->). cbn [fst].
    apply gate_ok_iff in Hok. destruct Hok as (Hna & Hnf & Hr).
    apply gate_ok_iff. cbn. split; [assumption |]. split.
    + rewrite map_app. cbn. apply NoDup_snoc; [assumption |].
      intros Hin. apply in_map_iff in Hin. destruct Hin as (f & Hf & Hin).
      assert (Hm : In f (feedback_of_pair db s e)).
      { unfold feedback_of_pair. apply filter_In. split; [assumption |].
        rewrite Hrow in Hf. unfold feedback_pair in Hf. cbn in Hf.
        injection Hf as -> ->. now rewrite !Z.eqb_refl. }
      rewrite Hnone in Hm. destruct Hm.
    + apply Forall_app. split; [assumption |].
      constructor; [| constructor]. now rewrite Hrow.
Qed.

(** X13. Every run of commands keeps the attendance table and the
    feedback table free of a second row for a (student, event) pair, and
    keeps every stored rating between 1 and 5. *)
Theorem gate_invariants_on_runs (cs : list Command) (db : Session.t) :
  gate_ok db = true -> gate_ok (run db cs) = true.
Proof.
  revert db. induction cs as [| c cs IH]; intros db Hok; [exact Hok |].
  cbn [run fold_left]. fold (run (after db c) cs).
  apply IH. now apply after_gate_ok.
Qed.

Lemma gate_invariants_on_runs_witness :
  gate_ok (run full_db [MarkAttendance 5 (AttendanceCreate.mk 1 1 LATE None);
                        MarkAttendance 6 (AttendanceCreate.mk 1 1 PRESENT None);
                        SubmitFeedback 7 1 1 5 None;
                        SubmitFeedback 8 1 1 9 None;
                        SubmitFeedback 9 1 1 2 None]) = true.
Proof.
  apply (gate_invariants_on_runs
           [MarkAttendance 5 (AttendanceCreate.mk 1 1 LATE None);
            MarkAttendance 6 (AttendanceCreate.mk 1 1 PRESENT None);
            SubmitFeedback 7 1 1 5 None;
            SubmitFeedback 8 1 1 9 None;
            SubmitFeedback 9 1 1 2 None] full_db).
  reflexivity.
Defined.

Lemma increasing_iff (l : list Z) :
  increasing l = true <-> StronglySorted Z.lt l.
Proof.
  induction l as [| x l IH]; cbn.
  - split; [constructor | reflexivity].
  - rewrite andb_true_iff, IH, forallb_forall. split.
    + intros [Hx Hs]. constructor; [assumption |].
      apply Forall_forall. intros y Hy. apply Z.ltb_lt. now apply Hx.
    + intros H. apply StronglySorted_inv in H. destruct H as [Hs Hx].
      split; [| assumption]. intros y Hy. apply Z.ltb_lt.
      rewrite Forall_forall in Hx. now apply Hx.
Qed.

Lemma increasing_snoc_fresh {A} (id : A -> Z) (l : list A) (x : A) :
  increasing (map id l) = true ->
  id x = fresh_id id l ->
  increasing (map id (l ++ [x])) = true.
Proof.
  rewrite !increasing_iff. intros Hs Hx.
  assert (Hup : forall y, In y l -> id y < id x).
  { intros y Hy. pose proof (max_id_upper id l y Hy). unfold fresh_id in Hx. lia. }
  clear Hx. induction l as [| y l IH]; cbn.
  - repeat constructor.
  - cbn in Hs. apply StronglySorted_inv in Hs. destruct Hs as [Hs Hy].
    constructor.
    + apply IH; [assumption |]. intros z Hz. apply Hup. now right.
    + rewrite map_app. apply Forall_app. split; [assumption |].
      constructor; [| constructor]. apply Hup. now left.
Qed.

Lemma after_keys_increasing (db : Session.t) (c : Command) :
  keys_increasing db = true -> keys_increasing (after db c) = true.
Proof.
  unfold keys_increasing. rewrite !andb_true_iff. intros [[Hr Ha] Hf].
  destruct c as [now reg | rid | now att | now s e rating text].
  - pose proof (after_registration_command db (Register now reg)) as [Hatt Hfb].
    rewrite Hatt, Hfb. split; [split |]; try assumption.
    rewrite after_register.
    destruct (EventService.register_student db now reg) as [| [db' row]] eqn:H;
      [assumption |].
    apply register_student_inr in H.
    destruct H as [(ex & _ & _ & -> & _) | (reg' & Hadd & _)]; cbn [fst].
    + now rewrite update_registration_keys.
    + unfold add_registration in Hadd.
      destruct (registrations_of_pair db _ _); [| discriminate].
      injection Hadd as <- <-. cbn.
      now apply increasing_snoc_fresh.
  - pose proof (after_registration_command db (CancelRegistration rid))
      as [Hatt Hfb].
    rewrite Hatt, Hfb. split; [split |]; try assumption.
    unfold after, execute.
    destruct (EventService.cancel_registration db rid) as [| db'] eqn:H;
      [assumption |].
    apply cancel_registration_inr in H.
    destruct H as (r & _ & _ & [-> | (w & ->)]);
      now rewrite !update_registration_keys.
  - rewrite after_mark_attendance.
    destruct (EventService.mark_attendance db now att) as [| [db' row]] eqn:H;
      [auto |].
    apply mark_attendance_inr in H.
    destruct H as (_ & _ & _ & _ & Hrow & ->). cbn.
    split; [split |]; try assumption.
    apply increasing_snoc_fresh; [assumption | now rewrite Hrow].
  - rewrite after_submit_feedback.
    destruct (main.submit_feedback db now s e rating text) as [| [db' row]] eqn:H;
      [auto |].
    apply submit_feedback_inr in H.
    destruct H as (_ & _ & _ & _ & _ & Hrow & ->). cbn.
    split; [split |]; try assumption.
    apply increasing_snoc_fresh; [assumption | now rewrite Hrow].
Qed.

(** X14. Every run of commands keeps the registration table free of a
    second row for a key or for a (student, event) pair, and keeps the
    keys of the three activity tables strictly increasing along the
    table: rows are only appended, with keys above every earlier one, so
    the table order is the order of creation. *)
Theorem key_invariants_on_runs (cs : list Command) (db : Session.t) :
  schema_ok db = true ->
  keys_increasing db = true ->
  schema_ok (run db cs) = true /\ keys_increasing (run db cs) = true.
Proof.
  revert db. induction cs as [| c cs IH]; intros db Hs Hk; [auto |].
  cbn [run fold_left]. fold (run (after db c) cs).
  apply IH; [now apply after_schema_ok | now apply after_keys_increasing].
Qed.

Lemma key_invariants_on_runs_witness :
  schema_ok (run campus (reopen_trace ++ waitlist_cancel_trace)) = true
  /\ keys_increasing (run campus (reopen_trace ++ waitlist_cancel_trace)) = true.
Proof.
  apply (key_invariants_on_runs (reopen_trace ++ waitlist_cancel_trace) campus);
    reflexivity.
Defined.

(** ** The participation report *)

Lemma In_join_college {A} (key : A -> Z) (db : Session.t) (l : list A)
      (x : A) (c : College.t) :
  In (x, c) (ReportService.join_college key db l)
  <-> In x l /\ In c (Session.colleges db) /\ College.id c = key x.
Proof.
  unfold ReportService.join_college. rewrite in_flat_map. split.
  - intros (y & Hy & Hin). apply in_map_iff in Hin.
    destruct Hin as (c' & [= <- <-] & Hc). apply filter_In in Hc.
    rewrite Z.eqb_eq in Hc. tauto.
  - intros (Hx & Hc & Hid). exists x. split; [assumption |].
    apply in_map_iff. exists c. split; [reflexivity |].
    apply filter_In. split; [assumption | now apply Z.eqb_eq].
Qed.

Lemma filter_join_college {A} (key : A -> Z) (p : A -> bool)
      (db : Session.t) (l : list A) :
  filter (fun xc => p (fst xc)) (ReportService.join_college key db l)
  = ReportService.join_college key db (filter p l).
Proof.
  unfold ReportService.join_college.
  induction l as [| x l IH]; [reflexivity |].
  cbn [flat_map filter]. rewrite filter_app, IH, filter_map_comm. cbn [fst].
  destruct (p x); cbn [flat_map].
  - now rewrite filter_true.
  - rewrite filter_nil by reflexivity. reflexivity.
Qed.

Lemma filter_if_int_filter {A} (v : option Z) (col : A -> Z) (l : list A) :
  ReportService.filter_if_int v col l
  = filter (fun x => match v with
                     | Some i => (i =? 0) || (col x =? i)
                     | None => true
                     end) l.
Proof.
  unfold ReportService.filter_if_int.
  destruct v as [i |]; [| now rewrite filter_true].
  destruct (i =? 0); cbn [negb orb]; [now rewrite filter_true | reflexivity].
Qed.

Lemma filter_event_type_filter {A} (v : option EventType)
      (col : A -> option EventType) (l : list A) :
  ReportService.filter_event_type v col l
  = filter (fun x => match v with
                     | Some ty => match col x with
                                  | Some ty' => EventType_eqb ty' ty
                                  | None => false
                                  end
                     | None => true
                     end) l.
Proof.
  unfold ReportService.filter_event_type.
  destruct v; [reflexivity | now rewrite filter_true].
Qed.

Lemma slice_to_map {A B} (f : A -> B) (limit : Z) (l : list A) :
  slice_to limit (map f l) = map f (slice_to limit l).
Proof.
  unfold slice_to. rewrite length_map.
  destruct (0 <=? limit); apply firstn_map.
Qed.

(** X16. The participation report holds exactly one row for every pair of
    an event that passes the filters and a college with the key the event
    refers to, and cuts none off.  An event passes when it agrees with
    each filter that is given: the college (a college key of 0 does not
    filter), the event type, and the two bounds, both inclusive and both
    on the start date of the event.  An event whose college row is
    missing has no row.  The rows are in decreasing order of registered
    count, rows with the same count in table order. *)
Theorem participation_report_rows
        (db : Session.t) (college_id : option Z) (event_type : option EventType)
        (start_date end_date : option Z) :
  let passes := fun ev : Event.t =>
    match college_id with
    | Some i => (i =? 0) || (Event.college_id ev =? i)
    | None => true
    end
    && match event_type with
       | Some ty => match Event.event_type ev with
                    | Some ty' => EventType_eqb ty' ty
                    | None => false
                    end
       | None => true
       end
    && match start_date with
       | Some d => d <=? Event.start_date ev
       | None => true
       end
    && match end_date with
       | Some d => Event.start_date ev <=? d
       | None => true
       end in
  let selected :=
    flat_map (fun ev => map (fun c => (ev, c))
                          (filter (fun c => College.id c =? Event.college_id ev)
                                  (Session.colleges db)))
             (filter passes (Session.events db)) in
  let registered := fun ec : Event.t * College.t =>
    registered_count db (Event.id (fst ec)) in
  exists ranked,
    stable_descending registered selected ranked
    /\ map (fun row => (EventParticipationReport.event_id row,
                        EventParticipationReport.college_name row,
                        EventParticipationReport.total_registrations row))
           (ReportService.get_event_participation_report
              db college_id event_type start_date end_date)
       = map (fun ec => (Event.id (fst ec), College.name (snd ec), registered ec))
             ranked.
Proof.
  intros passes selected registered.
  exists (sorted_reverse registered selected).
  split; [apply sorted_reverse_stable |].
  unfold ReportService.get_event_participation_report.
  assert (Hsel :
            match end_date with
            | Some d =>
                filter (fun ec : Event.t * College.t =>
                          Event.start_date (fst ec) <=? d)
            | None => fun q => q
            end
              (match start_date with
               | Some d =>
                   filter (fun ec : Event.t * College.t =>
                             d <=? Event.start_date (fst ec))
               | None => fun q => q
               end
                 (ReportService.filter_event_type event_type
                    (fun ec : Event.t * College.t => Event.event_type (fst ec))
                    (ReportService.filter_if_int college_id
                       (fun ec : Event.t * College.t => Event.college_id (fst ec))
                       (ReportService.join_college Event.college_id db
                          (Session.events db)))))
            = selected).
  { rewrite filter_if_int_filter, filter_event_type_filter.
    rewrite (filter_join_college Event.college_id
               (fun ev => match college_id with
                          | Some i => (i =? 0) || (Event.college_id ev =? i)
                          | None => true
                          end)).
    rewrite (filter_join_college Event.college_id
               (fun ev => match event_type with
                          | Some ty => match Event.event_type ev with
                                       | Some ty' => EventType_eqb ty' ty
                                       | None => false
                                       end
                          | None => true
                          end)).
    unfold selected, passes. rewrite !filter_andb.
    destruct start_date as [sd |], end_date as [ed |];
      rewrite ?filter_true;
      rewrite ?(filter_join_college Event.college_id
                  (fun ev => sd <=? Event.start_date ev));
      rewrite ?(filter_join_college Event.college_id
                  (fun ev => Event.start_date ev <=? ed));
      reflexivity. }
  destruct start_date as [sd |], end_date as [ed |]; cbv beta in Hsel;
    rewrite Hsel; unfold sorted_reverse;
    rewrite (sort_by_map (ReportService.participation_row db)
               (fun x y => registered y <=? registered x))
      by (intros [e1 c1] [e2 c2]; reflexivity);
    rewrite map_map; apply map_ext; intros [e c]; reflexivity.
Qed.

(** ** Limits of the ranking reports *)

Lemma slice_to_prefix {A} (limit : Z) (l : list A) :
  (exists rest, l = slice_to limit l ++ rest)
  /\ count (slice_to limit l)
     = if 0 <=? limit then Z.min limit (count l) else Z.max 0 (count l + limit).
Proof.
  unfold slice_to, count. split.
  - destruct (0 <=? limit); eexists; symmetry; apply firstn_skipn.
  - destruct (Z.leb_spec 0 limit); rewrite length_firstn; lia.
Qed.

(** X17. Whatever the limit, the event-popularity report and the
    top-students report are a prefix of the full ranking.  A limit N >= 0
    keeps min(N, size) entries (none for N = 0); a negative limit -K does
    not fail: it drops the last K entries of the ranking. *)
Theorem ranking_report_limits
        (db : Session.t) (college_id : option Z) (event_type : option EventType)
        (limit : Z) :
  let events := ReportService.get_event_popularity_report db college_id event_type in
  let students := ReportService.get_top_students_report db college_id in
  let size_e :=
    count (ReportService.filter_event_type event_type Event.event_type
             (ReportService.filter_if_int college_id Event.college_id
                (Session.events db))) in
  let size_s :=
    count (ReportService.filter_if_int college_id
             (fun sc => Student.college_id (fst sc))
             (ReportService.join_college Student.college_id db
                (Session.students db))) in
  ((exists rest, events size_e = events limit ++ rest)
   /\ count (events limit)
      = if 0 <=? limit then Z.min limit size_e else Z.max 0 (size_e + limit))
  /\ ((exists rest, students size_s = students limit ++ rest)
      /\ count (students limit)
         = if 0 <=? limit then Z.min limit size_s else Z.max 0 (size_s + limit)).
Proof.
  intros events students size_e size_s.
  assert (Hfull : forall {A} (l : list A), slice_to (count l) l = l).
  { intros A l. unfold slice_to, count.
    destruct (Z.leb_spec 0 (Z.of_nat (List.length l))); [| lia].
    rewrite Nat2Z.id. now apply firstn_all. }
  assert (Hlen : forall {A} (before : A -> A -> bool) (l : list A),
             count (sort_by before l) = count l).
  { intros A before l. unfold count. f_equal.
    apply Permutation_length, sort_by_perm. }
  split.
  - unfold events, ReportService.get_event_popularity_report.
    set (l := sorted_reverse _ _).
    assert (Hsize : size_e = count l).
    { unfold l, sorted_reverse, size_e. rewrite Hlen. unfold count.
      now rewrite length_map. }
    rewrite Hsize, Hfull. apply slice_to_prefix.
  - unfold students, ReportService.get_top_students_report.
    set (l := sorted_reverse_float _ _).
    assert (Hsize : size_s = count l).
    { unfold l, sorted_reverse_float, size_s. rewrite Hlen. unfold count.
      now rewrite length_map. }
    rewrite Hsize, Hfull. apply slice_to_prefix.
Qed.

(** ** The two event rankings agree *)

(** X18. When every event refers to exactly one college row, the
    event-popularity report with limit N >= 0 lists the same events, in
    the same order and with the same figures (registered count, present
    count, attendance percentage, mean rating, feedback count), as the
    first N rows of the participation report taken with the same college
    and type filters and no date bound. *)
Theorem popularity_agrees_with_participation
        (db : Session.t) (college_id : option Z) (event_type : option EventType)
        (limit : Z) :
  (forall ev, In ev (Session.events db) ->
     exists c, filter (fun c => College.id c =? Event.college_id ev)
                      (Session.colleges db) = [c]) ->
  0 <= limit ->
  map (fun s => (EventStats.event_id s, EventStats.total_registrations s,
                 EventStats.total_attendance s,
                 EventStats.attendance_percentage s,
                 EventStats.average_rating s, EventStats.total_feedback s))
      (ReportService.get_event_popularity_report db college_id event_type limit)
  = firstn (Z.to_nat limit)
      (map (fun r => (EventParticipationReport.event_id r,
                      EventParticipationReport.total_registrations r,
                      EventParticipationReport.attendance_count r,
                      EventParticipationReport.attendance_percentage r,
                      EventParticipationReport.average_rating r,
                      EventParticipationReport.feedback_count r))
           (ReportService.get_event_participation_report
              db college_id event_type None None)).
Proof.
  intros Hone Hlimit.
  set (g := fun ev : Event.t =>
              (ev, hd (College.mk 0 "")
                      (filter (fun c => College.id c =? Event.college_id ev)
                              (Session.colleges db)))).
  assert (Hjoin : ReportService.join_college Event.college_id db
                    (Session.events db) = map g (Session.events db)).
  { unfold ReportService.join_college. apply flat_map_singletons.
    intros ev Hev. destruct (Hone ev Hev) as (c & Hc). unfold g.
    rewrite Hc. reflexivity. }
  unfold ReportService.get_event_popularity_report,
    ReportService.get_event_participation_report.
  rewrite slice_to_firstn by assumption. rewrite Hjoin.
  set (L := ReportService.filter_event_type event_type Event.event_type
              (ReportService.filter_if_int college_id Event.college_id
                 (Session.events db))).
  assert (HJ : ReportService.filter_event_type event_type
                 (fun ec : Event.t * College.t => Event.event_type (fst ec))
                 (ReportService.filter_if_int college_id
                    (fun ec : Event.t * College.t => Event.college_id (fst ec))
                    (map g (Session.events db)))
               = map g L).
  { unfold L, ReportService.filter_event_type, ReportService.filter_if_int.
    destruct event_type as [ty |], college_id as [i |];
      try destruct (negb (i =? 0));
      rewrite ?filter_map_comm; reflexivity. }
  rewrite HJ, map_map.
  set (B0 := fun x y : Event.t =>
               registered_count db (Event.id y) <=? registered_count db (Event.id x)).
  unfold sorted_reverse.
  rewrite (sort_by_map (ReportService.event_stats db) B0) by reflexivity.
  rewrite (sort_by_map (fun x => ReportService.participation_row db (g x)) B0)
    by reflexivity.
  rewrite <- firstn_map, !map_map. reflexivity.
Qed.

Lemma popularity_agrees_with_participation_witness :
  map (fun s => (EventStats.event_id s, EventStats.total_registrations s,
                 EventStats.total_attendance s,
                 EventStats.attendance_percentage s,
                 EventStats.average_rating s, EventStats.total_feedback s))
      (ReportService.get_event_popularity_report popularity_db None None 2)
  = firstn 2
      (map (fun r => (EventParticipationReport.event_id r,
                      EventParticipationReport.total_registrations r,
                      EventParticipationReport.attendance_count r,
                      EventParticipationReport.attendance_percentage r,
                      EventParticipationReport.average_rating r,
                      EventParticipationReport.feedback_count r))
           (ReportService.get_event_participation_report
              popularity_db None None None None)).
Proof.
  apply (popularity_agrees_with_participation popularity_db None None 2).
  - intros ev [<- | [<- | [<- | []]]]; eexists; reflexivity.
  - discriminate.
Defined.

(** ** Student statistics and the participation summary *)

(** X19. When [get_student_stats] answers, so does
    [get_student_participation_summary], with the same registered count,
    present count and mean rating; the attendance rate of the statistics
    is the rate of the summary rounded to 2 decimals, and both are 0 for a
    student without a registered row.  A student whose college row is
    missing has a summary but no statistics: the join finds no row, and
    the refusal "Student not found" of line 306 raises [NameError]. *)
Theorem student_stats_and_summary (db : Session.t) (student_id : Z) :
  (forall st,
     ReportService.get_student_stats db student_id = inr st ->
     exists sm,
       StudentService.get_student_participation_summary db student_id = inr sm
       /\ StudentStats.total_registrations st
          = StudentSummary.total_registrations sm
       /\ StudentStats.total_attendance st = StudentSummary.total_attendance sm
       /\ StudentStats.average_rating_given st
          = StudentSummary.average_rating_given sm
       /\ StudentStats.attendance_rate st
          = round2 (StudentSummary.attendance_rate sm)
       /\ (StudentStats.total_registrations st = 0 ->
           StudentStats.attendance_rate st = 0%Q
           /\ StudentSummary.attendance_rate sm = 0%Q))
  /\ (student_by_id db student_id <> [] ->
      (forall s, In s (Session.students db) -> Student.id s = student_id ->
                 forall c, In c (Session.colleges db) ->
                           College.id c <> Student.college_id s) ->
      ReportService.get_student_stats db student_id
      = inl (NameError "HTTPException")
      /\ exists sm,
           StudentService.get_student_participation_summary db student_id
           = inr sm).
Proof.
  split.
  - intros st Hrun. unfold ReportService.get_student_stats in Hrun.
    destruct (filter _ (ReportService.join_college _ db _)) as [| [s c] rest]
      eqn:Hj; [discriminate |].
    cbn [first_or_raise bind ret] in Hrun. injection Hrun as <-.
    assert (Hs : In s (student_by_id db student_id)).
    { assert (Hin : In (s, c) (filter
                (fun sc : Student.t * College.t => Student.id (fst sc) =? student_id)
                (ReportService.join_college Student.college_id db
                   (Session.students db)))) by (rewrite Hj; now left).
      apply filter_In in Hin. destruct Hin as [Hin Hid].
      apply In_join_college in Hin. unfold student_by_id.
      apply filter_In. tauto. }
    unfold StudentService.get_student_participation_summary.
    destruct (student_by_id db student_id) as [| s' ss]; [destruct Hs |].
    cbn [first_or_raise bind ret]. eexists. split; [reflexivity |].
    cbn [StudentStats.total_registrations StudentStats.total_attendance
         StudentStats.average_rating_given StudentStats.attendance_rate
         StudentSummary.total_registrations StudentSummary.total_attendance
         StudentSummary.average_rating_given StudentSummary.attendance_rate].
    repeat (split; [reflexivity |]).
    intros H0. unfold percentage. rewrite H0. cbn. auto.
  - intros Hs Hnone. split.
    + unfold ReportService.get_student_stats.
      rewrite filter_nil; [reflexivity |].
      intros [s c] Hin. apply In_join_college in Hin.
      destruct Hin as (Hin & Hc & Hid). cbn [fst].
      apply Z.eqb_neq. intros E. now apply (Hnone s Hin E c Hc).
    + unfold StudentService.get_student_participation_summary.
      destruct (student_by_id db student_id); [congruence |].
      eexists. reflexivity.
Qed.

Lemma student_stats_and_summary_witness :
  exists sm,
    StudentService.get_student_participation_summary ranking_db 2 = inr sm
    /\ StudentSummary.total_attendance sm = 3.
Proof.
  destruct (student_stats_and_summary ranking_db 2) as [H _].
  destruct (H (StudentStats.mk 2 "Ada Lovelace" "MIT" 0 3 0 None) eq_refl)
    as (sm & Hrun & _ & Ha & _).
  exists sm. split; [exact Hrun | now rewrite <- Ha].
Defined.

(** ** College statistics *)

Lemma sumZ_map_add {A} (f g : A -> Z) (l : list A) :
  sumZ (map (fun x => f x + g x) l) = sumZ (map f l) + sumZ (map g l).
Proof.
  unfold sumZ. induction l as [| x l IH]; cbn; [reflexivity |]. lia.
Qed.

Lemma sumZ_indicator {A} (p : A -> bool) (l : list A) :
  sumZ (map (fun x => if p x then 1 else 0) l) = count (filter p l).
Proof.
  unfold sumZ, count. induction l as [| x l IH]; cbn; [reflexivity |].
  destruct (p x); cbn [List.length]; lia.
Qed.

Lemma sumZ_zero {A} (l : list A) : sumZ (map (fun _ => 0) l) = 0.
Proof. unfold sumZ. induction l; cbn; lia. Qed.

(** Counting the pairs of a join row by row or student by student. *)
Lemma count_join_student {A} (key : A -> Z) (p : A -> bool)
      (c : Student.t -> bool) (db : Session.t) (l : list A) :
  count (filter (fun rs => c (snd rs) && p (fst rs))
                (ReportService.join_student key db l))
  = sumZ (map (fun s => count (filter (fun x => (key x =? Student.id s) && p x) l))
              (filter c (Session.students db))).
Proof.
  unfold ReportService.join_student.
  induction l as [| x l IH].
  - cbn. now rewrite sumZ_zero.
  - cbn [flat_map]. rewrite filter_app. unfold count in *.
    rewrite length_app, Nat2Z.inj_add, IH. clear IH.
    rewrite filter_map_comm, length_map. cbn [fst snd filter].
    rewrite <- filter_andb.
    transitivity
      (sumZ (map (fun s => (if (key x =? Student.id s) && p x then 1 else 0)
                           + Z.of_nat (List.length
                               (filter (fun x0 => (key x0 =? Student.id s) && p x0)
                                       l)))
                 (filter c (Session.students db)))).
    + rewrite sumZ_map_add. f_equal.
      rewrite sumZ_indicator. unfold count. rewrite <- filter_andb.
      f_equal. f_equal. apply filter_ext. intros s.
      rewrite (Z.eqb_sym (Student.id s)).
      destruct (c s), (key x =? Student.id s), (p x); reflexivity.
    + f_equal. apply map_ext. intros s.
      destruct ((key x =? Student.id s) && p x); cbn [List.length]; lia.
Qed.

(** X20. The registered count of the statistics of a college is the sum,
    over the students of the college, of the registered counts that
    [get_student_stats] reports for them; registrations of students that
    are not in the student table count for no college.  The attendance
    rate is the percentage of the summed present counts in the summed
    registered counts, rounded to 2 decimals, and 0 when no registration
    is registered.  For a key that SQLite can hold and no college has,
    the refusal "College not found" of line 345 raises [NameError]. *)
Theorem college_totals_are_student_totals (db : Session.t) (college_id : Z) :
  let members :=
    filter (fun s => Student.college_id s =? college_id) (Session.students db) in
  let registered :=
    sumZ (map (fun s => count (ReportService.registered_of_student db
                                 (Student.id s))) members) in
  let present :=
    sumZ (map (fun s => count (ReportService.present_of_student db
                                 (Student.id s))) members) in
  (sqlite_integer college_id ->
   filter (fun c => College.id c =? college_id) (Session.colleges db) = [] ->
   ReportService.get_college_stats db college_id
   = inl (NameError "HTTPException"))
  /\ (forall cs,
        ReportService.get_college_stats db college_id = inr cs ->
        CollegeStats.total_students cs = count members
        /\ CollegeStats.total_registrations cs = registered
        /\ CollegeStats.average_attendance_rate cs
           = round2 (percentage present registered)
        /\ (registered = 0 -> CollegeStats.average_attendance_rate cs = 0%Q)).
Proof.
  intros members registered present. split.
  - intros _ H. unfold ReportService.get_college_stats. now rewrite H.
  - intros cs Hrun. unfold ReportService.get_college_stats in Hrun.
    destruct (filter _ (Session.colleges db)) as [| col cols]; [discriminate |].
    cbn [first_or_raise bind ret] in Hrun. injection Hrun as <-.
    cbn [CollegeStats.total_students CollegeStats.total_registrations
         CollegeStats.average_attendance_rate].
    assert (Hreg :
              count (filter
                       (fun rs : EventRegistration.t * Student.t =>
                          (Student.college_id (snd rs) =? college_id)
                          && RegistrationStatus_eqb
                               (EventRegistration.status (fst rs)) REGISTERED)
                       (ReportService.join_student EventRegistration.student_id db
                          (Session.event_registrations db)))
              = registered).
    { rewrite (count_join_student EventRegistration.student_id
                 (fun r => RegistrationStatus_eqb (EventRegistration.status r)
                                                  REGISTERED)
                 (fun s => Student.college_id s =? college_id)).
      reflexivity. }
    assert (Hatt :
              count (filter
                       (fun rs : Attendance.t * Student.t =>
                          (Student.college_id (snd rs) =? college_id)
                          && AttendanceStatus_eqb
                               (Attendance.attendance_status (fst rs)) PRESENT)
                       (ReportService.join_student Attendance.student_id db
                          (Session.attendance db)))
              = present).
    { rewrite (count_join_student Attendance.student_id
                 (fun a => AttendanceStatus_eqb (Attendance.attendance_status a)
                                                PRESENT)
                 (fun s => Student.college_id s =? college_id)).
      reflexivity. }
    rewrite Hreg, Hatt.
    split; [reflexivity |]. split; [reflexivity |]. split; [reflexivity |].
    intros H0. rewrite H0. reflexivity.
Qed.

(** ** The students of the ranking *)

(** X25. Whatever the filter and the limit, the top-students report is
    the slice [[:limit]] of one ranking: one row for every pair of a student
    that passes the filter (a college key of 0 does not filter) and a
    college with the key the student refers to, sorted by decreasing score,
    rows with the same score in table order.  A student whose college row
    is missing is not ranked. *)
Theorem top_students_rows (db : Session.t) (college_id : option Z) :
  let passes := fun s : Student.t =>
    match college_id with
    | Some i => (i =? 0) || (Student.college_id s =? i)
    | None => true
    end in
  let selected :=
    flat_map (fun s => map (fun c => (s, c))
                         (filter (fun c => College.id c =? Student.college_id s)
                                 (Session.colleges db)))
             (filter passes (Session.students db)) in
  let score := fun sc : Student.t * College.t => score_of_student db (fst sc) in
  exists ranked,
    stable_descending_float score selected ranked
    /\ forall limit,
         map (fun row => (TopStudentsReport.student_id row,
                          TopStudentsReport.college_name row,
                          TopStudentsReport.participation_score row))
             (ReportService.get_top_students_report db college_id limit)
         = slice_to limit
             (map (fun sc => (Student.id (fst sc), College.name (snd sc), score sc))
                  ranked).
Proof.
  intros passes selected score.
  exists (sorted_reverse_float score selected).
  split; [apply sorted_reverse_float_stable |].
  intros limit. unfold ReportService.get_top_students_report.
  rewrite filter_if_int_filter.
  rewrite (filter_join_college Student.college_id passes).
  change (ReportService.join_college Student.college_id db
            (filter passes (Session.students db))) with selected.
  unfold sorted_reverse_float.
  rewrite (sort_by_map (ReportService.top_students_row db)
             (fun x y => Qle_bool (score y) (score x)))
    by (intros [s1 c1] [s2 c2]; reflexivity).
  rewrite <- !slice_to_map, map_map. f_equal.
  apply map_ext. intros [st c]. reflexivity.
Qed.
